(** * tsg_insights: the data-preparation pipeline of [data/process.py]

    A shallow embedding of [src/tsg_insights/data/process.py]: the Python
    string operations the stages use, the lookup cache as a store of
    mutable dictionaries, the job progress sink, a column-major data frame,
    the twelve stages with the run loop of [DataPreparation], and the
    preparation of the lookup cache. *)

From Stdlib Require Import String Ascii List ZArith QArith Bool Lia Lqa.
From stdpp Require Import base option list gmap strings.

#[local] Set Warnings "-register-all".

Open Scope string_scope.

(** ** Python [str] operations

    A Python [str] is a sequence of code points; a Rocq [string] is a
    sequence of bytes, read here as the UTF-8 encoding.  Every separator and
    prefix the pipeline uses is ASCII, and an ASCII byte never occurs inside
    the encoding of another code point, so splitting and prefix tests agree
    on both views. *)
Module PyStr.

(** [x.startswith(p)] *)
Definition startswith (x p : string) : bool := String.prefix p x.

(** [x.split(sep)] for a one-character separator: never the empty list,
    [''.split('-') == ['']] and ['a-'.split('-') == ['a', '']]. *)
Fixpoint split (sep : ascii) (x : string) : list string :=
  match x with
  | EmptyString => [EmptyString]
  | String c x' =>
      if Ascii.eqb c sep then EmptyString :: split sep x'
      else match split sep x' with
           | h :: t => String c h :: t
           | [] => [String c EmptyString]
           end
  end.

(** [sep.join(parts)] *)
Fixpoint join (sep : string) (parts : list string) : string :=
  match parts with
  | [] => EmptyString
  | [p] => p
  | p :: rest => p ++ sep ++ join sep rest
  end.

(** [x.endswith(p)] *)
Fixpoint endswith (x p : string) : bool :=
  if String.eqb x p then true
  else match x with
       | EmptyString => false
       | String _ x' => endswith x' p
       end.

(** [x.replace(old, "")] for a non-empty [old]: every non-overlapping
    occurrence, scanning from the left. *)
Fixpoint remove_all (fuel : nat) (old x : string) : string :=
  match fuel with
  | O => x
  | S fuel' =>
      match x with
      | EmptyString => EmptyString
      | String c x' =>
          if String.prefix old x
          then remove_all fuel' old
                 (String.substring (String.length old)
                    (String.length x - String.length old) x)
          else String c (remove_all fuel' old x')
      end
  end.

Definition remove (old x : string) : string :=
  remove_all (String.length x) old x.

(** [x.replace(old, new)] restricted to a prefix, as
    [orgid.replace("GB-COH-", "")] is used on company identifiers; the
    general replacement for an empty [new] is [remove]. *)
Definition replace_empty (old x : string) : string := remove old x.

(** The text of [x] before its [n]-th occurrence of [sep] (counting from
    one), or all of [x] when it has fewer than [n] occurrences. *)
Fixpoint before_nth (sep : ascii) (n : nat) (x : string) : string :=
  match x with
  | EmptyString => EmptyString
  | String c x' =>
      if Ascii.eqb c sep then
        match n with
        | O => EmptyString
        | S O => EmptyString
        | S n' => String c (before_nth sep n' x')
        end
      else String c (before_nth sep n x')
  end.

End PyStr.

(** ** The identifier scheme, [AddExtraColumns.run] line 214 *)

(** [lambda x: "360G" if x.startswith("360G-") else "-".join(x.split("-")[:2])] *)
Definition scheme_of (x : string) : string :=
  if PyStr.startswith x "360G-" then "360G"
  else PyStr.join "-" (take 2 (PyStr.split "-" x)).

Example scheme_of_chc : scheme_of "GB-CHC-123456" = "GB-CHC".
Proof. reflexivity. Qed.

Example scheme_of_360 : scheme_of "360G-xyz-1" = "360G".
Proof. reflexivity. Qed.

Example scheme_of_bare : scheme_of "360G" = "360G".
Proof. reflexivity. Qed.

Example scheme_of_one : scheme_of "abc" = "abc".
Proof. reflexivity. Qed.

(** ** Python values, exceptions and results *)

(** The exception classes the pipeline meets.  [JSONDecodeError] is a
    subclass of [ValueError]; [RequestException] stands for the transport
    errors of [requests], which are not. *)
Inductive pyexc :=
| TypeError
| ValueError (msg : string)
| JSONDecodeError
| KeyError (key : string)
| AttributeError
| IndexError
| RequestException.

(** [isinstance(e, ValueError)], as [except ValueError] tests it. *)
Definition is_ValueError (e : pyexc) : bool :=
  match e with
  | ValueError _ | JSONDecodeError => true
  | _ => false
  end.

(** [isinstance(e, json.JSONDecodeError)] *)
Definition is_JSONDecodeError (e : pyexc) : bool :=
  match e with
  | JSONDecodeError => true
  | _ => false
  end.

Inductive result (A : Type) :=
| Ok (a : A)
| Raise (e : pyexc).
Arguments Ok {A} a.
Arguments Raise {A} e.

Definition rbind {A B} (r : result A) (k : A -> result B) : result B :=
  match r with
  | Ok a => k a
  | Raise e => Raise e
  end.

Notation "x <~ r ;; k" := (rbind r (fun x => k))
  (at level 100, r at next level, right associativity).

(** A decoded JSON document: what [requests.get(url).json()] returns and
    what the persisted cache holds.  The pipeline never mutates one in
    place, so it is modelled as an immutable tree. *)
Inductive json :=
| JNull
| JBool (b : bool)
| JNum (x : Q)
| JStr (s : string)
| JArr (items : list json)
| JObj (fields : list (string * json)).

(** Python truth value of a decoded document. *)
Definition json_truthy (j : json) : bool :=
  match j with
  | JNull => false
  | JBool b => b
  | JNum x => negb (Qeq_bool x 0)
  | JStr s => negb (String.eqb s "")
  | JArr items => match items with [] => false | _ => true end
  | JObj fields => match fields with [] => false | _ => true end
  end.

(** A cell of the data set, also the key of a dictionary: null ([None],
    [NaN]), a [str], or a number kept as a fraction in lowest terms. *)
Inductive cell :=
| CNull
| CStr (s : string)
| CNum (x : Q).

Global Instance Q_eq_dec : EqDecision Q.
Proof. solve_decision. Defined.

Global Instance cell_eq_dec : EqDecision cell.
Proof. solve_decision. Defined.

Definition cell_eqb (a b : cell) : bool := bool_decide (a = b).

Definition notnull (c : cell) : bool :=
  match c with CNull => false | _ => true end.

(** ** The store: mutable dictionaries

    The cache is a [dict] of four namespace [dict]s that the stages update
    in place and pass on by reference.  A dictionary is an object in the
    store, named by its location; its entries keep insertion order, as
    [dict.items()] yields them. *)
Abbreviation loc := positive.

Inductive pyval :=
| VJson (j : json)
| VRef (l : loc).

Abbreviation pydict := (list (cell * pyval)).

(** [d.get(k)] *)
Fixpoint dict_get (d : pydict) (k : cell) : option pyval :=
  match d with
  | [] => None
  | (k', v) :: d' => if cell_eqb k' k then Some v else dict_get d' k
  end.

(** [d[k] = v]: an existing key keeps its place, a new one goes last. *)
Fixpoint dict_set (d : pydict) (k : cell) (v : pyval) : pydict :=
  match d with
  | [] => [(k, v)]
  | (k', v') :: d' =>
      if cell_eqb k' k then (k', v) :: d' else (k', v') :: dict_set d' k v
  end.

Abbreviation heap := (gmap positive pydict).

(** Truth value of a stored value: a referenced dictionary is true when it
    has entries; a dangling reference is treated as false. *)
Definition truthy (h : heap) (v : pyval) : bool :=
  match v with
  | VJson j => json_truthy j
  | VRef l => match h !! l with
              | Some (_ :: _) => true
              | _ => false
              end
  end.

(** ** The job progress sink

    [job.meta] is a mutable mapping; [job.save_meta()] persists it where
    pollers read it.  Only the two keys the pipeline writes are kept. *)
Record progress_state := {
  stage : nat;                        (* meta['progress']['stage'] *)
  progress : option (nat * nat)       (* meta['progress']['progress'] *)
}.

Record job_meta := {
  meta_stages : option (list string);          (* meta['stages'] *)
  meta_progress : option progress_state        (* meta['progress'] *)
}.

Record job_handle := {
  meta : job_meta;
  saved : list job_meta      (* what [save_meta()] persisted, newest first *)
}.

Definition save_meta (j : job_handle) : job_handle :=
  {| meta := meta j; saved := meta j :: saved j |}.

(** ** The world a run acts on, and the monad of the stages *)
Record world := {
  w_heap : heap;                 (* the dictionaries of the cache *)
  w_job : option job_handle;     (* the job object, [None] outside a worker *)
  w_requests : list string       (* URLs fetched so far, newest first *)
}.

Definition M (A : Type) : Type := world -> result A * world.

Definition ret {A} (a : A) : M A := fun w => (Ok a, w).
Definition raise {A} (e : pyexc) : M A := fun w => (Raise e, w).
Definition bind {A B} (m : M A) (k : A -> M B) : M B :=
  fun w => match m w with
           | (Ok a, w') => k a w'
           | (Raise e, w') => (Raise e, w')
           end.
Definition lift {A} (r : result A) : M A := fun w => (r, w).

Notation "x <- m ;; k" := (bind m (fun x => k))
  (at level 100, m at next level, right associativity).
Notation "m ;;; k" := (bind m (fun _ => k))
  (at level 100, right associativity).

(** [try: m  except <caught>: handler] *)
Definition try_except {A} (m : M A) (caught : pyexc -> bool) (handler : M A)
  : M A :=
  fun w => match m w with
           | (Ok a, w') => (Ok a, w')
           | (Raise e, w') => if caught e then handler w' else (Raise e, w')
           end.

Definition get_heap : M heap := fun w => (Ok (w_heap w), w).
Definition put_heap (h : heap) : M unit :=
  fun w => (Ok tt, {| w_heap := h; w_job := w_job w;
                      w_requests := w_requests w |}).
Definition get_job : M (option job_handle) := fun w => (Ok (w_job w), w).
Definition put_job (j : job_handle) : M unit :=
  fun w => (Ok tt, {| w_heap := w_heap w; w_job := Some j;
                      w_requests := w_requests w |}).
Definition log_request (url : string) : M unit :=
  fun w => (Ok tt, {| w_heap := w_heap w; w_job := w_job w;
                      w_requests := url :: w_requests w |}).

(** Reading and writing dictionaries through a reference. *)

(** [d[k]] on the dictionary at [l]; a missing key is a [KeyError]. *)
Definition py_str_key (k : cell) : string :=
  match k with CStr s => s | _ => "" end.

Definition load_dict (l : loc) : M pydict :=
  h <- get_heap ;;
  match h !! l with
  | Some d => ret d
  | None => raise AttributeError
  end.

Definition getitem (l : loc) (k : cell) : M pyval :=
  d <- load_dict l ;;
  match dict_get d k with
  | Some v => ret v
  | None => raise (KeyError (py_str_key k))
  end.

(** [d[k] = v] on the dictionary at [l]. *)
Definition setitem (l : loc) (k : cell) (v : pyval) : M unit :=
  d <- load_dict l ;;
  h <- get_heap ;;
  put_heap (<[l := dict_set d k v]> h).

(** [cache[ns]]: a namespace is a dictionary of the store, which the
    stages read with [.get] and [.items] and update by item assignment. *)
Definition namespace (cache : loc) (ns : string) : M loc :=
  v <- getitem cache (CStr ns) ;;
  match v with
  | VRef l => ret l
  | VJson _ => raise AttributeError
  end.

(** ** pandas: series and the data set

    The data set is column-major with the default positional index; the
    operations below act row by row, as pandas does when both sides carry
    the same index. *)
Abbreviation Series := (list cell).

Record DataFrame := {
  nrows : nat;
  cols : list (string * Series)
}.

(** [df.columns] *)
Definition df_columns (df : DataFrame) : list string := map fst (cols df).

Fixpoint assoc_get {A} (l : list (string * A)) (c : string) : option A :=
  match l with
  | [] => None
  | (c', s) :: l' => if String.eqb c' c then Some s else assoc_get l' c
  end.

Fixpoint assoc_set {A} (l : list (string * A)) (c : string) (s : A)
  : list (string * A) :=
  match l with
  | [] => [(c, s)]
  | (c', s') :: l' =>
      if String.eqb c' c then (c', s) :: l' else (c', s') :: assoc_set l' c s
  end.

(** [c in df.columns] *)
Definition has_column (df : DataFrame) (c : string) : bool :=
  existsb (String.eqb c) (df_columns df).

(** [df[c]] *)
Definition df_get (df : DataFrame) (c : string) : result Series :=
  match assoc_get (cols df) c with
  | Some s => Ok s
  | None => Raise (KeyError c)
  end.

(** [df.loc[:, c] = s]: replaces the column or appends a new one. *)
Definition df_set (df : DataFrame) (c : string) (s : Series) : DataFrame :=
  {| nrows := nrows df; cols := assoc_set (cols df) c s |}.

(** The column [c] as an assignment under a mask sees it: a column that
    does not exist yet is created full of nulls. *)
Definition df_get_or_null (df : DataFrame) (c : string) : Series :=
  match assoc_get (cols df) c with
  | Some s => s
  | None => repeat CNull (nrows df)
  end.

Fixpoint mask_assign (mask : list bool) (old rhs : Series) : Series :=
  match mask, old, rhs with
  | m :: mask', o :: old', r :: rhs' =>
      (if m then r else o) :: mask_assign mask' old' rhs'
  | _, _, _ => []
  end.

(** [df.loc[mask, c] = rhs], with [rhs] indexed like [df]. *)
Definition df_loc_set (df : DataFrame) (mask : list bool) (c : string)
    (rhs : Series) : DataFrame :=
  df_set df c (mask_assign mask (df_get_or_null df c) rhs).

(** [s.isin(values)] for a list of strings *)
Definition isin (s : Series) (values : list string) : list bool :=
  map (fun c => match c with
                | CStr x => existsb (String.eqb x) values
                | _ => false
                end) s.

(** [s.fillna(other)] *)
Fixpoint fillna (s other : Series) : Series :=
  match s, other with
  | a :: s', b :: other' => (if notnull a then a else b) :: fillna s' other'
  | _, _ => []
  end.

(** [s.apply(f)]: the first exception [f] raises ends the call. *)
Fixpoint apply (f : cell -> result cell) (s : Series) : result Series :=
  match s with
  | [] => Ok []
  | c :: s' =>
      match f c with
      | Raise e => Raise e
      | Ok c' => match apply f s' with
                 | Raise e => Raise e
                 | Ok r => Ok (c' :: r)
                 end
      end
  end.

(** [s.dropna()] *)
Definition dropna (s : Series) : Series := filter (fun c => notnull c = true) s.

(** [s.unique()]: the distinct values in order of first appearance. *)
Fixpoint unique_from (seen : list cell) (s : Series) : Series :=
  match s with
  | [] => []
  | c :: s' =>
      if existsb (cell_eqb c) seen then unique_from seen s'
      else c :: unique_from (c :: seen) s'
  end.

Definition unique (s : Series) : Series := unique_from [] s.

(** [df.loc[mask, c]] as a list of the selected cells *)
Fixpoint select (mask : list bool) (s : Series) : Series :=
  match mask, s with
  | m :: mask', c :: s' => if m then c :: select mask' s' else select mask' s'
  | _, _ => []
  end.

(** [df.rename(columns=f)] *)
Definition df_rename (f : string -> string) (df : DataFrame) : DataFrame :=
  {| nrows := nrows df; cols := map (fun '(c, s) => (f c, s)) (cols df) |}.

(** ** pandas: [pd.cut]

    A bin edge is a number or [float("inf")]. *)
Inductive edge :=
| Fin (x : Q)
| PosInf.

(** [b < x] for an edge [b] and a finite value [x] *)
Definition edge_ltb (b : edge) (x : Q) : bool :=
  match b with
  | Fin y => negb (Qle_bool x y)
  | PosInf => false
  end.

(** [bins.searchsorted(x, side="left")]: the first position whose edge is
    not below [x], on increasing edges. *)
Fixpoint searchsorted_left (bins : list edge) (x : Q) : nat :=
  match bins with
  | [] => 0
  | b :: bins' => if edge_ltb b x then S (searchsorted_left bins' x) else 0
  end.

(** [pd.cut(x, bins=bins, labels=labels)] on one value, with the defaults
    [right=True] and [include_lowest=False]: position 0 and position
    [len(bins)] are outside every interval and give no band. *)
Definition cut_value (bins : list edge) (labels : list string) (x : Q)
  : option string :=
  let ids := searchsorted_left bins x in
  if (ids =? 0)%nat || (ids =? length bins)%nat then None
  else labels !! (ids - 1)%nat.

Definition cut_cell (bins : list edge) (labels : list string) (c : cell)
  : result cell :=
  match c with
  | CNull => Ok CNull
  | CNum x => Ok (match cut_value bins labels x with
                  | Some l => CStr l
                  | None => CNull
                  end)
  | CStr _ => Raise TypeError
  end.

(** [pd.cut(s, bins=bins, labels=labels)] on a series *)
Definition pd_cut (s : Series) (bins : list edge) (labels : list string)
  : result Series :=
  apply (cut_cell bins labels) s.

(** ** Module constants of [process.py] *)
Definition FTC_URL_format (orgid : string) : string :=
  "https://findthatcharity.uk/orgid/" ++ orgid ++ ".json".
Definition CH_URL_format (number : string) : string :=
  "http://data.companieshouse.gov.uk/doc/company/" ++ number ++ ".json".
Definition PC_URL_format (pc : string) : string :=
  "https://postcodes.findthatcharity.uk/postcodes/" ++ pc ++ ".json".

Definition FTC_SCHEMES : list string := ["GB-CHC"; "GB-NIC"; "GB-SC"; "GB-COH"].
Definition POSTCODE_FIELDS : list string :=
  ["ctry"; "cty"; "laua"; "pcon"; "rgn"; "imd"; "ru11ind"; "oac11"; "lat";
   "long"].

(** [CheckColumnNames.columns_to_check] *)
Definition columns_to_check : list string :=
  ["Amount Awarded"; "Funding Org:0:Name"; "Award Date";
   "Recipient Org:0:Name"; "Recipient Org:0:Identifier"].

(** Bins of [AddExtraFieldsExternal] *)
Definition AMOUNT_BINS : list edge :=
  [Fin (-1); Fin 500; Fin 1000; Fin 2000; Fin 5000; Fin 10000; Fin 100000;
   Fin 1000000; PosInf].
Definition AMOUNT_BIN_LABELS : list string :=
  ["Under £500"; "£500 - £1,000"; "£1,000 - £2,000"; "£2k - £5k";
   "£5k - £10k"; "£10k - £100k"; "£100k - £1m"; "Over £1m"].
Definition INCOME_BINS : list edge :=
  [Fin (-1); Fin 10000; Fin 100000; Fin 1000000; Fin 10000000; PosInf].
Definition INCOME_BIN_LABELS : list string :=
  ["Under £10k"; "£10k - £100k"; "£100k - £1m"; "£1m - £10m"; "Over £10m"].
(** [AGE_BINS], in days *)
Definition AGE_BINS : list edge :=
  map (fun x : Z => Fin (inject_Z (x * 365))) [-1; 1; 2; 5; 10; 25; 200]%Z.
Definition AGE_BIN_LABELS : list string :=
  ["Under 1 year"; "1-2 years"; "2-5 years"; "5-10 years"; "10-25 years";
   "Over 25 years"].

Example cut_500 : cut_value AMOUNT_BINS AMOUNT_BIN_LABELS 500 = Some "Under £500".
Proof. reflexivity. Qed.
Example cut_750 : cut_value AMOUNT_BINS AMOUNT_BIN_LABELS 750 = Some "£500 - £1,000".
Proof. reflexivity. Qed.
Example cut_m1 : cut_value AMOUNT_BINS AMOUNT_BIN_LABELS (-1) = None.
Proof. reflexivity. Qed.
Example cut_49999 : cut_value AMOUNT_BINS AMOUNT_BIN_LABELS (49999 # 100) = Some "Under £500".
Proof. reflexivity. Qed.

(** ** The stages

    What a stage instance holds after [DataPreparationStage.__init__]:
    [self.df], [self.cache] (a reference to the cache dictionary) and
    [self.attributes]; [self.job] is the job of the world. *)
Inductive file_contents :=
| ContentsStr (s : string)        (* a data URL, base64 encoded *)
| ContentsBytes (b : string).

Record attributes := {
  attr_filename : option string;
  attr_contents : option file_contents
}.

Record stage_self := {
  self_df : option DataFrame;
  self_cache : loc;
  self_attributes : attributes
}.

Definition stage_result : Type := option DataFrame * loc.

(** [self.df.<attribute>]: [None] has none of the attributes of a frame. *)
Definition the_df (self : stage_self) : M DataFrame :=
  match self_df self with
  | Some df => ret df
  | None => raise AttributeError
  end.

(** [DataPreparationStage._progress_job(item_key, total_items)] *)
Definition stage_progress_job (item_key total_items : nat) : M unit :=
  job <- get_job ;;
  match job with
  | None => ret tt
  | Some j =>
      match meta_progress (meta j) with
      | None => raise (KeyError "progress")
      | Some p =>
          let p' := {| stage := stage p;
                       progress := Some (item_key, total_items) |} in
          put_job (save_meta
            {| meta := {| meta_stages := meta_stages (meta j);
                          meta_progress := Some p' |};
               saved := saved j |})
      end
  end.

(** [DataPreparationStage.run]: the default, returns what it was given. *)
Definition DataPreparationStage_run (self : stage_self) : M stage_result :=
  ret (self_df self, self_cache self).

(** *** [CheckColumnsExist.run] *)
Definition missing_column_message (c : string) (available : list string)
  : string :=
  "Column " ++ c ++ " not found in data. Columns: ["
    ++ PyStr.join ", " available ++ "]".

Fixpoint check_columns (to_check : list string) (df : DataFrame)
  : result unit :=
  match to_check with
  | [] => Ok tt
  | c :: rest =>
      if has_column df c then check_columns rest df
      else Raise (ValueError (missing_column_message c (df_columns df)))
  end.

Definition CheckColumnsExist_run (self : stage_self) : M stage_result :=
  df <- the_df self ;;
  lift (check_columns columns_to_check df) ;;;
  ret (self_df self, self_cache self).

(** *** Reference tables built from the cache

    [pd.DataFrame(records)] on a list of [dict]s, one per row; the cells
    are the values found in the cache.  All records of one call have the
    same keys, which become the columns; no record, no column. *)
Record Table := {
  t_index : option string;                 (* the column made the index *)
  t_columns : list string;
  t_rows : list (list (string * pyval))
}.

Definition pd_DataFrame (records : list (list (string * pyval))) : Table :=
  {| t_index := None;
     t_columns := match records with
                  | [] => []
                  | r :: _ => map fst r
                  end;
     t_rows := records |}.

(** [t.set_index(c)]: a [KeyError] when [c] is not a column. *)
Definition set_index (t : Table) (c : string) : result Table :=
  if existsb (String.eqb c) (t_columns t)
  then Ok {| t_index := Some c;
             t_columns := filter (fun c' => c' <> c) (t_columns t);
             t_rows := t_rows t |}
  else Raise (KeyError c).

(** [t[fields]]: a [KeyError] when a field is not a column. *)
Definition select_columns (t : Table) (fields : list string) : result Table :=
  match filter (fun f => negb (existsb (String.eqb f) (t_columns t))) fields with
  | [] => Ok {| t_index := t_index t; t_columns := fields;
                t_rows := t_rows t |}
  | f :: _ => Raise (KeyError f)
  end.

(** [pd.concat([a, b], sort=False)] of two tables with the same columns *)
Definition pd_concat (a b : Table) : Table :=
  {| t_index := t_index a;
     t_columns := t_columns a
                  ++ filter (fun c => negb (existsb (String.eqb c) (t_columns a)))
                       (t_columns b);
     t_rows := t_rows a ++ t_rows b |}.

(** [t.rename(columns=f)] *)
Definition table_rename (f : string -> string) (t : Table) : Table :=
  {| t_index := t_index t;
     t_columns := map f (t_columns t);
     t_rows := map (fun r => map (fun '(c, v) =>
                 if bool_decide (Some c = t_index t) then (c, v) else (f c, v)) r)
                 (t_rows t) |}.

Definition None_ : pyval := VJson JNull.
Definition empty_dict : pyval := VJson (JObj []).
Definition str_ (s : string) : pyval := VJson (JStr s).

Definition val_of_cell (c : cell) : pyval :=
  match c with
  | CNull => None_
  | CStr s => str_ s
  | CNum x => VJson (JNum x)
  end.

(** [c.get(k, default)]: [c] has to be a [dict]. *)
Definition py_get (c : pyval) (k : string) (default : pyval) : M pyval :=
  match c with
  | VJson (JObj fields) =>
      ret (match assoc_get fields k with
           | Some j => VJson j
           | None => default
           end)
  | VRef l =>
      d <- load_dict l ;;
      ret (match dict_get d (CStr k) with
           | Some v => v
           | None => default
           end)
  | VJson _ => raise AttributeError
  end.

(** [x[0]] *)
Definition py_first (x : pyval) : M pyval :=
  match x with
  | VJson (JArr (j :: _)) => ret (VJson j)
  | VJson (JArr []) => raise IndexError
  | VJson (JStr (String a _)) => ret (str_ (String a ""))
  | VJson (JStr "") => raise IndexError
  | VJson (JObj _) => raise (KeyError "0")
  | VRef l => getitem l (CNum 0)
  | VJson _ => raise TypeError
  end.

Definition truthyM (v : pyval) : M bool :=
  h <- get_heap ;; ret (truthy h v).

(** [isinstance(x, pd.DataFrame)] for what the builders return: a table or
    [None]. *)
Definition isinstance_DataFrame (x : option Table) : bool :=
  match x with Some _ => true | None => false end.

(** [~b] on a [bool]: bitwise inversion of the integer, [-2] or [-1]. *)
Definition invert (b : bool) : Z := if b then (-2)%Z else (-1)%Z.
(** truth value of an [int] *)
Definition int_truthy (z : Z) : bool := negb (z =? 0)%Z.

(** *** Stages that call into libraries

    What the stages take from outside this module is a variable of the
    section: the HTTP client, [utils.charity_number_to_org_id], the file
    readers of [threesixty], and the pandas conversions whose result
    depends on the pandas version or on the clock. *)
Section Stages.

(** [requests.get(url).json()] *)
Variable requests_get_json : string -> result json.
(** [utils.charity_number_to_org_id] *)
Variable charity_number_to_org_id : cell -> result cell.
(** ["{}".format(x)] for a number [x] *)
Variable format_num : Q -> string.
(** [str.lower] *)
Variable str_lower : string -> string.
(** [base64.b64decode] *)
Variable b64decode : string -> result string.
(** [ThreeSixtyGiving.from_csv(io.BytesIO(b)).to_pandas()] and siblings *)
Variable from_csv from_excel from_json : string -> result DataFrame.
(** [pd.to_datetime(s)] and [s.dt.year] *)
Variable to_datetime : Series -> result Series.
Variable dt_year : Series -> result Series.
(** [s.astype(float)] *)
Variable astype_float : Series -> result Series.

(** ["{}".format(c)] for a cell *)
Definition py_format (c : cell) : string :=
  match c with
  | CStr s => s
  | CNum x => format_num x
  | CNull => "nan"
  end.

(** **** [LoadDataset.run] *)
Definition LoadDataset_run (self : stage_self) : M stage_result :=
  match attr_contents (self_attributes self),
        attr_filename (self_attributes self) with
  | Some contents, Some filename =>
      let empty :=
        match contents with
        | ContentsStr s | ContentsBytes s => String.eqb s ""
        end in
      if empty || String.eqb filename ""
      then ret (self_df self, self_cache self)
      else
        bytes <- lift (match contents with
                       | ContentsBytes b => Ok b
                       | ContentsStr s =>
                           match PyStr.split "," s with
                           | [_; content_string] => b64decode content_string
                           | _ => Raise (ValueError "unpack")
                           end
                       end) ;;
        if PyStr.endswith filename "csv" then
          df <- lift (from_csv bytes) ;; ret (Some df, self_cache self)
        else if PyStr.endswith filename "xls"
                || PyStr.endswith filename "xlsx" then
          df <- lift (from_excel bytes) ;; ret (Some df, self_cache self)
        else if PyStr.endswith filename "json" then
          df <- lift (from_json bytes) ;; ret (Some df, self_cache self)
        else ret (self_df self, self_cache self)
  | _, _ => ret (self_df self, self_cache self)
  end.

(** **** [CheckColumnNames.run] *)
Definition normalise (c : string) : string :=
  str_lower (PyStr.remove " " c).

Definition renames_for (c : string) (renames : list (string * string))
  : list (string * string) :=
  fold_left (fun renames w =>
               if String.eqb (normalise c) (normalise w)
                  && negb (String.eqb c w)
               then assoc_set renames c w else renames)
            columns_to_check renames.

Definition CheckColumnNames_run (self : stage_self) : M stage_result :=
  df <- the_df self ;;
  let renames :=
    fold_left (fun renames c => renames_for c renames) (df_columns df) [] in
  let df := df_rename (fun c => match assoc_get renames c with
                                | Some w => w
                                | None => c
                                end) df in
  ret (Some df, self_cache self).

(** **** [CheckColumnTypes.run] *)
Definition CheckColumnTypes_run (self : stage_self) : M stage_result :=
  df <- the_df self ;;
  dates <- lift (df_get df "Award Date") ;;
  dates <- lift (to_datetime dates) ;;
  ret (Some (df_set df "Award Date" dates), self_cache self).

(** **** [AddExtraColumns.run] *)
Definition scheme_cell (x : cell) : result cell :=
  match x with
  | CStr s => Ok (CStr (scheme_of s))
  | _ => Raise AttributeError     (* no [startswith] on a non-string *)
  end.

Definition AddExtraColumns_run (self : stage_self) : M stage_result :=
  df <- the_df self ;;
  dates <- lift (df_get df "Award Date") ;;
  years <- lift (dt_year dates) ;;
  let df := df_set df "Award Date:Year" years in
  ids <- lift (df_get df "Recipient Org:0:Identifier") ;;
  schemes <- lift (apply scheme_cell ids) ;;
  ret (Some (df_set df "Recipient Org:0:Identifier:Scheme" schemes),
       self_cache self).

(** **** [CleanRecipientIdentifiers.run] *)
Definition rescheme (x : cell) : cell :=
  match x with
  | CStr s => CStr (scheme_of s)      (* [isinstance(x, str)] *)
  | _ => CNull
  end.

Definition clean_identifiers (df : DataFrame) : result DataFrame :=
  (* default is use existing identifier *)
  schemes <~ df_get df "Recipient Org:0:Identifier:Scheme" ;;
  ids <~ df_get df "Recipient Org:0:Identifier" ;;
  let df := df_loc_set df (isin schemes FTC_SCHEMES)
              "Recipient Org:0:Identifier:Clean" ids in
  (* add company number for those with it *)
  df <~ (if has_column df "Recipient Org:0:Company Number" then
           clean <~ df_get df "Recipient Org:0:Identifier:Clean" ;;
           numbers <~ df_get df "Recipient Org:0:Company Number" ;;
           synthesized <~
             apply (fun c => Ok (CStr ("GB-COH-" ++ py_format c))) numbers ;;
           Ok (df_loc_set df (map notnull numbers)
                 "Recipient Org:0:Identifier:Clean"
                 (fillna clean synthesized))
         else Ok df) ;;
  (* add charity number for those with it *)
  df <~ (if has_column df "Recipient Org:0:Charity Number" then
           clean <~ df_get df "Recipient Org:0:Identifier:Clean" ;;
           numbers <~ df_get df "Recipient Org:0:Charity Number" ;;
           synthesized <~ apply charity_number_to_org_id numbers ;;
           Ok (df_set df "Recipient Org:0:Identifier:Clean"
                 (fillna clean synthesized))
         else Ok df) ;;
  (* overwrite the identifier scheme using the new identifiers *)
  clean <~ df_get df "Recipient Org:0:Identifier:Clean" ;;
  schemes <~ df_get df "Recipient Org:0:Identifier:Scheme" ;;
  Ok (df_set df "Recipient Org:0:Identifier:Scheme"
        (fillna (map rescheme clean) schemes)).

Definition CleanRecipientIdentifiers_run (self : stage_self)
  : M stage_result :=
  df <- the_df self ;;
  df <- lift (clean_identifiers df) ;;
  ret (Some df, self_cache self).

(** **** [LookupCharityDetails] *)
Definition cached_truthy (ns : loc) (key : cell) : M bool :=
  d <- load_dict ns ;;
  h <- get_heap ;;
  ret (match dict_get d key with
       | Some v => truthy h v
       | None => false
       end).

Definition fetch_json (url : string) : M pyval :=
  log_request url ;;;
  j <- lift (requests_get_json url) ;;
  ret (VJson j).

Definition _get_charity (self : stage_self) (orgid : cell) : M pyval :=
  ns <- namespace (self_cache self) "charity" ;;
  hit <- cached_truthy ns orgid ;;
  if hit then
    ns <- namespace (self_cache self) "charity" ;;
    ret (VRef ns)                      (* [return self.cache["charity"]] *)
  else fetch_json (FTC_URL_format (py_format orgid)).

Fixpoint charity_loop (self : stage_self) (total k : nat)
    (orgids : list cell) : M unit :=
  match orgids with
  | [] => ret tt
  | orgid :: rest =>
      stage_progress_job (k + 1) total ;;;
      try_except
        (v <- _get_charity self orgid ;;
         ns <- namespace (self_cache self) "charity" ;;
         setitem ns orgid v)
        is_ValueError (ret tt) ;;;
      charity_loop self total (k + 1) rest
  end.

Definition charity_orgids (df : DataFrame) : result (list cell) :=
  schemes <~ df_get df "Recipient Org:0:Identifier:Scheme" ;;
  clean <~ df_get df "Recipient Org:0:Identifier:Clean" ;;
  Ok (unique (dropna (select (isin schemes FTC_SCHEMES) clean))).

Definition LookupCharityDetails_run (self : stage_self) : M stage_result :=
  df <- the_df self ;;
  orgids <- lift (charity_orgids df) ;;
  charity_loop self (length orgids) 0 orgids ;;;
  ret (self_df self, self_cache self).

(** **** [LookupCompanyDetails] *)
Definition _get_company (self : stage_self) (orgid : cell) : M pyval :=
  ns <- namespace (self_cache self) "company" ;;
  hit <- cached_truthy ns orgid ;;
  if hit then
    ns <- namespace (self_cache self) "company" ;;
    ret (VRef ns)                      (* [return self.cache["company"]] *)
  else
    match orgid with
    | CStr s => fetch_json (CH_URL_format (PyStr.remove "GB-COH-" s))
    | _ => raise AttributeError        (* no [replace] on a non-string *)
    end.

Definition _get_orgid_index (self : stage_self) : M (list cell) :=
  ns <- namespace (self_cache self) "charity" ;;
  d <- load_dict ns ;;
  ret (map fst d).

Fixpoint company_loop (self : stage_self) (total k : nat)
    (orgids : list cell) : M unit :=
  match orgids with
  | [] => ret tt
  | orgid :: rest =>
      stage_progress_job (k + 1) total ;;;
      try_except
        (v <- _get_company self orgid ;;
         ns <- namespace (self_cache self) "company" ;;
         setitem ns orgid v)
        is_ValueError (ret tt) ;;;
      company_loop self total (k + 1) rest
  end.

Definition company_mask (clean schemes : Series) (found : list cell)
  : list bool :=
  zip_with andb
    (map (fun c => negb (existsb (cell_eqb c) found)) clean)
    (map (fun c => cell_eqb c (CStr "GB-COH")) schemes).

Definition LookupCompanyDetails_run (self : stage_self) : M stage_result :=
  df <- the_df self ;;
  clean <- lift (df_get df "Recipient Org:0:Identifier:Clean") ;;
  found <- _get_orgid_index self ;;
  schemes <- lift (df_get df "Recipient Org:0:Identifier:Scheme") ;;
  let company_orgids := unique (select (company_mask clean schemes found) clean) in
  company_loop self (length company_orgids) 0 company_orgids ;;;
  ret (self_df self, self_cache self).

(** **** [FetchPostcodes] *)
Definition _get_postcode (self : stage_self) (pc : cell) : M pyval :=
  ns <- namespace (self_cache self) "postcode" ;;
  hit <- cached_truthy ns pc ;;
  if hit then
    ns <- namespace (self_cache self) "postcode" ;;
    ret (VRef ns)                      (* [return self.cache["postcode"]] *)
  else fetch_json (PC_URL_format (py_format pc)).

Fixpoint postcode_loop (self : stage_self) (total k : nat)
    (postcodes : list cell) : M unit :=
  match postcodes with
  | [] => ret tt
  | pc :: rest =>
      stage_progress_job (k + 1) total ;;;
      try_except
        (v <- _get_postcode self pc ;;
         ns <- namespace (self_cache self) "postcode" ;;
         setitem ns pc v)
        is_JSONDecodeError (ret tt) ;;;
      postcode_loop self total (k + 1) rest
  end.

(** Lines 403-406: the postal code of the recipient, completed from or
    replaced by the postcode of the organisation. *)
Definition with_postal_code (df : DataFrame) : result DataFrame :=
  (* check for recipient org postcode field first *)
  if has_column df "Recipient Org:0:Postal Code" then
    own <~ df_get df "Recipient Org:0:Postal Code" ;;
    org <~ df_get df "__org_postcode" ;;
    Ok (df_set df "Recipient Org:0:Postal Code" (fillna own org))
  else
    org <~ df_get df "__org_postcode" ;;
    Ok (df_set df "Recipient Org:0:Postal Code" org).

Definition FetchPostcodes_run (self : stage_self) : M stage_result :=
  df <- the_df self ;;
  df <- lift (with_postal_code df) ;;
  (* fetch postcode data *)
  col <- lift (df_get df "Recipient Org:0:Postal Code") ;;
  let postcodes := unique (dropna col) in
  postcode_loop self (length postcodes) 0 postcodes ;;;
  ret (Some df, self_cache self).

(** **** [MergeCompanyAndCharityDetails]

    The date conversion, the age against the clock, the conversion of
    the income and the join are pandas calls on the built table. *)
Variable table_to_datetime : bool -> string -> Table -> result Table.
Variable table_add_age : Table -> result Table.
Variable table_income_float : Table -> result Table.
Variable df_join : DataFrame -> Table -> string -> result DataFrame.

Definition COMPANY_REPLACE : list (string * string) :=
  [("PRI/LBG/NSC (Private, Limited by guarantee, no share capital, use of 'Limited' exemption)",
    "Company Limited by Guarantee");
   ("PRI/LTD BY GUAR/NSC (Private, limited by guarantee, no share capital)",
    "Company Limited by Guarantee");
   ("PRIV LTD SECT. 30 (Private limited company, section 30 of the Companies Act)",
    "Private Limited Company")].

(** The record of one charity entry, lines 324-333. *)
Definition charity_record (k : cell) (c : pyval)
  : M (list (string * pyval)) :=
  charity_number <- py_get c "id" None_ ;;
  numbers <- py_get c "company_number" None_ ;;
  has_number <- truthyM numbers ;;
  company_number <-
    (if has_number then
       first <- py_first numbers ;; py_get first "number" None_
     else ret None_) ;;
  date_registered <- py_get c "date_registered" None_ ;;
  date_removed <- py_get c "date_removed" None_ ;;
  geo <- py_get c "geo" empty_dict ;;
  postcode <- py_get geo "postcode" None_ ;;
  latest_income <- py_get c "latest_income" None_ ;;
  ret [("orgid", val_of_cell k);
       ("charity_number", charity_number);
       ("company_number", company_number);
       ("date_registered", date_registered);
       ("date_removed", date_removed);
       ("postcode", postcode);
       ("latest_income", latest_income);
       ("org_type", str_ "Registered Charity")].

(** The comprehension over [self.cache["charity"].items()] with its
    filter [if c.get('id')]. *)
Fixpoint charity_records (items : pydict)
  : M (list (list (string * pyval))) :=
  match items with
  | [] => ret []
  | (k, c) :: rest =>
      id <- py_get c "id" None_ ;;
      keep <- truthyM id ;;
      if keep then
        r <- charity_record k c ;;
        rs <- charity_records rest ;;
        ret (r :: rs)
      else charity_records rest
  end.

Definition _create_orgid_df (self : stage_self) : M Table :=
  ns <- namespace (self_cache self) "charity" ;;
  items <- load_dict ns ;;
  records <- charity_records items ;;
  orgid_df <- lift (set_index (pd_DataFrame records) "orgid") ;;
  orgid_df <- lift (table_to_datetime false "date_registered" orgid_df) ;;
  orgid_df <- lift (table_to_datetime false "date_removed" orgid_df) ;;
  ret orgid_df.

(** [self.COMPANY_REPLACE.get(category, category)] *)
Definition replace_category (category : pyval) : M pyval :=
  match category with
  | VJson (JStr s) =>
      ret (match assoc_get COMPANY_REPLACE s with
           | Some s' => str_ s'
           | None => category
           end)
  | VJson (JArr _) | VJson (JObj _) | VRef _ => raise TypeError (* unhashable *)
  | _ => ret category
  end.

Definition company_record (k : cell) (c : pyval)
  : M (list (string * pyval)) :=
  company <- py_get c "primaryTopic" empty_dict ;;
  let company := match company with
                 | VJson JNull => empty_dict
                 | _ => company
                 end in
  topic <- py_get c "primaryTopic" empty_dict ;;
  address <- py_get topic "RegAddress" empty_dict ;;
  let address := match address with
                 | VJson JNull => empty_dict
                 | _ => address
                 end in
  company_number <- py_get company "CompanyNumber" None_ ;;
  date_registered <- py_get company "IncorporationDate" None_ ;;
  date_removed <- py_get company "DissolutionDate" None_ ;;
  postcode <- py_get address "Postcode" None_ ;;
  category <- py_get company "CompanyCategory" None_ ;;
  org_type <- replace_category category ;;
  ret [("orgid", val_of_cell k);
       ("charity_number", None_);
       ("company_number", company_number);
       ("date_registered", date_registered);
       ("date_removed", date_removed);
       ("postcode", postcode);
       ("latest_income", None_);
       ("org_type", org_type)].

Fixpoint company_records (items : pydict)
  : M (list (list (string * pyval))) :=
  match items with
  | [] => ret []
  | (k, c) :: rest =>
      r <- company_record k c ;;
      rs <- company_records rest ;;
      ret (r :: rs)
  end.

Definition _create_company_df (self : stage_self) : M (option Table) :=
  ns <- namespace (self_cache self) "company" ;;
  items <- load_dict ns ;;
  match items with
  | [] => ret None                       (* [if not self.cache["company"]] *)
  | _ =>
      company_rows <- company_records items ;;
      companies_df <- lift (set_index (pd_DataFrame company_rows) "orgid") ;;
      companies_df <-
        lift (table_to_datetime true "date_registered" companies_df) ;;
      companies_df <-
        lift (table_to_datetime true "date_removed" companies_df) ;;
      ret (Some companies_df)
  end.

(** The branches of lines 374-379: which table goes on, or [None] for the
    early [return (self.df, self.cache)]. *)
Definition choose_orgid_df (orgid_df companies_df : option Table)
  : option (option Table) :=
  if isinstance_DataFrame orgid_df && isinstance_DataFrame companies_df then
    match orgid_df, companies_df with
    | Some a, Some b => Some (Some (pd_concat a b))
    | _, _ => Some orgid_df
    end
  else if isinstance_DataFrame companies_df then Some companies_df
  else if int_truthy (invert (isinstance_DataFrame orgid_df)) then None
  else Some orgid_df.

Definition MergeCompanyAndCharityDetails_run (self : stage_self)
  : M stage_result :=
  (* create orgid dataframes *)
  orgid_df <- _create_orgid_df self ;;
  companies_df <- _create_company_df self ;;
  match choose_orgid_df (Some orgid_df) companies_df with
  | None => ret (self_df self, self_cache self)
  | Some None => raise AttributeError
  | Some (Some orgid_df) =>
      (* create some extra fields *)
      orgid_df <- lift (table_add_age orgid_df) ;;
      orgid_df <- lift (table_income_float orgid_df) ;;
      (* merge org details into main dataframe *)
      df <- the_df self ;;
      df <- lift (df_join df
                    (table_rename (fun x => "__org_" ++ x) orgid_df)
                    "Recipient Org:0:Identifier:Clean") ;;
      ret (Some df, self_cache self)
  end.

(** **** [MergeGeoData]

    [swap_names geocodes c t] is the body of the loop of lines 432-439 on
    column [c]: codes replaced by their names from [geocodes], the
    placeholder removed and the sentinel nulled in a column of strings. *)
Variable swap_names : pydict -> string -> Table -> result Table.

(** The record of one postcode entry, lines 426-429. *)
Fixpoint postcode_fields (c : pyval) (fields : list string)
  : M (list (string * pyval)) :=
  match fields with
  | [] => ret []
  | j :: rest =>
      data <- py_get c "data" empty_dict ;;
      attrs <- py_get data "attributes" empty_dict ;;
      v <- py_get attrs j None_ ;;
      vs <- postcode_fields c rest ;;
      ret ((j, v) :: vs)
  end.

Fixpoint postcode_records (items : pydict)
  : M (list (list (string * pyval))) :=
  match items with
  | [] => ret []
  | (k, c) :: rest =>
      fields <- postcode_fields c POSTCODE_FIELDS ;;
      rs <- postcode_records rest ;;
      ret ((("postcode", val_of_cell k) :: fields) :: rs)
  end.

Fixpoint swap_columns (self : stage_self) (columns : list string)
    (t : Table) : M Table :=
  match columns with
  | [] => ret t
  | c :: rest =>
      match t_rows t with
      | [] => swap_columns self rest t
      | _ =>
          ns <- namespace (self_cache self) "geocodes" ;;
          geocodes <- load_dict ns ;;
          t <- lift (swap_names geocodes c t) ;;
          swap_columns self rest t
      end
  end.

Definition _create_postcode_df (self : stage_self) : M Table :=
  ns <- namespace (self_cache self) "postcode" ;;
  items <- load_dict ns ;;
  records <- postcode_records items ;;
  postcode_df <- lift (set_index (pd_DataFrame records) "postcode") ;;
  postcode_df <- lift (select_columns postcode_df POSTCODE_FIELDS) ;;
  (* swap out names for codes *)
  swap_columns self (t_columns postcode_df) postcode_df.

Definition MergeGeoData_run (self : stage_self) : M stage_result :=
  postcode_df <- _create_postcode_df self ;;
  df <- the_df self ;;
  df <- lift (df_join df
                (table_rename (fun x => "__geo_" ++ x) postcode_df)
                "Recipient Org:0:Postal Code") ;;
  ret (Some df, self_cache self).

(** **** [AddExtraFieldsExternal.run]

    [__org_age] holds durations, here in days. *)
Definition AddExtraFieldsExternal_run (self : stage_self)
  : M stage_result :=
  df <- the_df self ;;
  amount <- lift (df_get df "Amount Awarded") ;;
  bands <- lift (pd_cut amount AMOUNT_BINS AMOUNT_BIN_LABELS) ;;
  let df := df_set df "Amount Awarded:Bands" bands in
  income <- lift (df_get df "__org_latest_income") ;;
  income <- lift (astype_float income) ;;
  bands <- lift (pd_cut income INCOME_BINS INCOME_BIN_LABELS) ;;
  let df := df_set df "__org_latest_income_bands" bands in
  age <- lift (df_get df "__org_age") ;;
  bands <- lift (pd_cut age AGE_BINS AGE_BIN_LABELS) ;;
  let df := df_set df "__org_age_bands" bands in
  let df :=
    if negb (has_column df "Grant Programme:0:Title")
    then df_set df "Grant Programme:0:Title"
           (repeat (CStr "All grants") (nrows df))
    else df in
  ret (Some df, self_cache self).

(** *** The stage classes

    [class LoadDataset():] has no base; [CheckColumnsExist] extends
    [CheckColumnNames]; every other stage extends
    [DataPreparationStage], the only class that defines [__init__]. *)
Inductive stage_class :=
| LoadDataset
| CheckColumnNames
| CheckColumnsExist
| CheckColumnTypes
| AddExtraColumns
| CleanRecipientIdentifiers
| LookupCharityDetails
| LookupCompanyDetails
| MergeCompanyAndCharityDetails
| FetchPostcodes
| MergeGeoData
| AddExtraFieldsExternal.

Inductive pyclass :=
| object
| DataPreparationStage
| StageClass (c : stage_class).

(** The base named in the [class] statement. *)
Definition base (c : pyclass) : option pyclass :=
  match c with
  | object => None
  | DataPreparationStage => Some object
  | StageClass LoadDataset => Some object
  | StageClass CheckColumnsExist => Some (StageClass CheckColumnNames)
  | StageClass _ => Some DataPreparationStage
  end.

Definition defines_init (c : pyclass) : bool :=
  match c with
  | DataPreparationStage => true
  | _ => false
  end.

(** The class whose [__init__] an instantiation of [c] runs, found along
    the bases; the chains here have at most four classes. *)
Fixpoint resolve_init (fuel : nat) (c : pyclass) : pyclass :=
  if defines_init c then c
  else match fuel, base c with
       | S fuel', Some b => resolve_init fuel' b
       | _, _ => object
       end.

(** The class attribute [name]. *)
Definition name (c : stage_class) : string :=
  match c with
  | LoadDataset => "Load data to be prepared"
  | CheckColumnNames => "Check column names"
  | CheckColumnsExist => "Check columns exist"
  | CheckColumnTypes => "Check column types"
  | AddExtraColumns => "Add extra columns"
  | CleanRecipientIdentifiers => "Clean recipient identifiers"
  | LookupCharityDetails => "Look up charity data"
  | LookupCompanyDetails => "Look up company data"
  | MergeCompanyAndCharityDetails => "Add charity and company details to data"
  | FetchPostcodes => "Look up postcode data"
  | MergeGeoData => "Add geo data"
  | AddExtraFieldsExternal => "Add extra fields from external data"
  end.

(** [Stage(df, cache, job, **attributes)]: with arguments, the
    [__init__] of [object] raises [TypeError]. *)
Definition instantiate (c : stage_class) (df : option DataFrame)
    (cache : loc) (attrs : attributes) : M stage_self :=
  match resolve_init 4 (StageClass c) with
  | DataPreparationStage =>
      ret {| self_df := df; self_cache := cache; self_attributes := attrs |}
  | _ => raise TypeError
  end.

(** [stage.run()] *)
Definition stage_run (c : stage_class) : stage_self -> M stage_result :=
  match c with
  | LoadDataset => LoadDataset_run
  | CheckColumnNames => CheckColumnNames_run
  | CheckColumnsExist => CheckColumnsExist_run
  | CheckColumnTypes => CheckColumnTypes_run
  | AddExtraColumns => AddExtraColumns_run
  | CleanRecipientIdentifiers => CleanRecipientIdentifiers_run
  | LookupCharityDetails => LookupCharityDetails_run
  | LookupCompanyDetails => LookupCompanyDetails_run
  | MergeCompanyAndCharityDetails => MergeCompanyAndCharityDetails_run
  | FetchPostcodes => FetchPostcodes_run
  | MergeGeoData => MergeGeoData_run
  | AddExtraFieldsExternal => AddExtraFieldsExternal_run
  end.

(** *** [DataPreparation] *)
Record DataPreparation := {
  dp_stages : list stage_class;
  dp_df : option DataFrame;
  dp_cache : loc;
  dp_attributes : attributes
}.

(** [self.stages] as [__init__] sets it *)
Definition stages : list stage_class :=
  [LoadDataset; CheckColumnNames; CheckColumnsExist; CheckColumnTypes;
   AddExtraColumns; CleanRecipientIdentifiers; LookupCharityDetails;
   LookupCompanyDetails; MergeCompanyAndCharityDetails; FetchPostcodes;
   MergeGeoData; AddExtraFieldsExternal].

(** [DataPreparation.__init__(df, cache, job, **kwargs)]; the job is the
    job of the world.  [cache if cache else {}] makes a new dictionary
    when none or an empty one is given. *)
Definition DataPreparation_init (df : option DataFrame)
    (cache : option loc) (attrs : attributes) : M DataPreparation :=
  h <- get_heap ;;
  cache <-
    (match cache with
     | Some l => if truthy h (VRef l) then ret l
                 else let l' := fresh (dom h) in
                      put_heap (<[l' := []]> h) ;;; ret l'
     | None => let l' := fresh (dom h) in
               put_heap (<[l' := []]> h) ;;; ret l'
     end) ;;
  ret {| dp_stages := stages; dp_df := df; dp_cache := cache;
         dp_attributes := attrs |}.

(** [DataPreparation._progress_job(self, stage_id, progress=None)].  An
    argument the caller leaves out is [None] here: [stage_id] has no
    default, so a call without it raises [TypeError] before the body
    runs; [progress] defaults to [None]. *)
Definition DataPreparation_progress_job (stage_id : option nat)
    (progress_arg : option (option (nat * nat))) : M unit :=
  match stage_id with
  | None => raise TypeError
  | Some stage_id =>
      job <- get_job ;;
      match job with
      | None => ret tt
      | Some j =>
          match meta_progress (meta j) with
          | None => raise (KeyError "progress")
          | Some _ =>
              put_job (save_meta
                {| meta := {| meta_stages := meta_stages (meta j);
                              meta_progress :=
                                Some {| stage := stage_id;
                                        progress := default None progress_arg |} |};
                   saved := saved j |})
          end
      end
  end.

(** [DataPreparation._setup_job_meta] *)
Definition _setup_job_meta (self : DataPreparation) : M unit :=
  job <- get_job ;;
  match job with
  | None => ret tt
  | Some j =>
      put_job (save_meta
        {| meta := {| meta_stages := Some (map name (dp_stages self));
                      meta_progress :=
                        Some {| stage := 0; progress := None |} |};
           saved := saved j |})
  end.

(** The loop of [DataPreparation.run]; [self._progress_job()] is called
    without arguments. *)
Fixpoint run_stages (self : DataPreparation) (todo : list stage_class)
    (df : option DataFrame) (cache : loc) : M stage_result :=
  match todo with
  | [] => ret (df, cache)
  | Stage :: rest =>
      stage <- instantiate Stage df cache (dp_attributes self) ;;
      r <- stage_run Stage stage ;;
      DataPreparation_progress_job None None ;;;
      run_stages self rest (fst r) (snd r)
  end.

Definition DataPreparation_run (self : DataPreparation) : M stage_result :=
  _setup_job_meta self ;;;
  run_stages self (dp_stages self) None (dp_cache self).

End Stages.

(** ** The lookup cache kept between runs, lines 38-53

    [get_cache()] is the key-value store of [data/cache.py]; what it holds
    under ["lookup_cache"] is read with [r.get], decoded and parsed.  The
    cache is a decoded JSON document here, as [json.loads] returns it. *)

(** [p in x] for two strings: [p] occurs in [x]. *)
Fixpoint str_contains (x p : string) : bool :=
  if String.prefix p x then true
  else match x with
       | EmptyString => false
       | String _ x' => str_contains x' p
       end.

(** ["geocodes" not in cache]: a key of a [dict], an item of a [list], a
    part of a [str]; anything else is not iterable. *)
Definition lacks_geocodes (cache : json) : result bool :=
  match cache with
  | JObj fields => Ok (match assoc_get fields "geocodes" with
                       | Some _ => false
                       | None => true
                       end)
  | JArr items =>
      Ok (negb (existsb (fun j => match j with
                                  | JStr x => String.eqb x "geocodes"
                                  | _ => false
                                  end) items))
  | JStr x => Ok (negb (str_contains x "geocodes"))
  | _ => Raise TypeError
  end.

(** [len(cache["geocodes"]) == 0] *)
Definition geocodes_empty (cache : json) : result bool :=
  match cache with
  | JObj fields =>
      match assoc_get fields "geocodes" with
      | Some (JObj f) => Ok (match f with [] => true | _ => false end)
      | Some (JArr l) => Ok (match l with [] => true | _ => false end)
      | Some (JStr x) => Ok (String.eqb x "")
      | Some _ => Raise TypeError               (* no [len] *)
      | None => Raise (KeyError "geocodes")
      end
  | _ => Raise TypeError           (* indices must be integers *)
  end.

(** [cache["geocodes"] = g] *)
Definition set_geocodes (cache g : json) : result json :=
  match cache with
  | JObj fields => Ok (JObj (assoc_set fields "geocodes" g))
  | _ => Raise TypeError           (* no item assignment by name *)
  end.

(** The cache of a first run. *)
Definition new_lookup_cache : json :=
  JObj [("charity", JObj []); ("company", JObj []); ("postcode", JObj []);
        ("geocodes", JObj [])].

Section LookupCache.

(** [get_cache().get("lookup_cache")]: the bytes stored, [None] when
    there are none *)
Variable stored_cache : option string.
(** [json.loads(b.decode("utf8"))] *)
Variable json_loads : string -> result json.
(** [fetch_geocodes()] *)
Variable fetch_geocodes : M json.

Definition prepare_lookup_cache : M json :=
  cache <- (match stored_cache with
            | None => ret new_lookup_cache
            | Some b => lift (json_loads b)
            end) ;;
  lacks <- lift (lacks_geocodes cache) ;;
  refetch <- (if lacks then ret true else lift (geocodes_empty cache)) ;;
  if refetch then
    g <- fetch_geocodes ;;
    lift (set_geocodes cache g)
  else ret cache.

End LookupCache.

(** * Properties *)

(** ** Strings: segments and prefixes *)
Section SplitFacts.
Variable sep : ascii.

Lemma split_not_nil (x : string) : PyStr.split sep x <> [].
Proof.
  destruct x as [|a x]; simpl; [discriminate|].
  destruct (Ascii.eqb a sep); [discriminate|].
  destruct (PyStr.split sep x); discriminate.
Qed.

Lemma join_cons_char (a : ascii) (h : string) (t : list string) :
  PyStr.join (String sep "") (String a h :: t)
  = String a (PyStr.join (String sep "") (h :: t)).
Proof. destruct t; reflexivity. Qed.

(** The first [n] segments joined again are the text before the [n]-th
    separator. *)
Lemma join_take_split (x : string) (n : nat) :
  PyStr.join (String sep "") (take (S n) (PyStr.split sep x))
  = PyStr.before_nth sep (S n) x.
Proof.
  revert n. induction x as [|a x IH]; intros n.
  - simpl. now rewrite take_nil.
  - simpl. destruct (Ascii.eqb a sep) eqn:Ha.
    + destruct n as [|m]; [reflexivity|].
      rewrite <- IH.
      destruct (PyStr.split sep x) as [|h t] eqn:Hs;
        [exfalso; exact (split_not_nil x Hs)|].
      apply Ascii.eqb_eq in Ha. subst a. reflexivity.
    + rewrite <- IH.
      destruct (PyStr.split sep x) as [|h t] eqn:Hs;
        [exfalso; exact (split_not_nil x Hs)|].
      cbn [firstn]. apply join_cons_char.
Qed.

(** What [before_nth] returns is a prefix of its argument, and what it
    leaves out is nothing or starts at a separator. *)
Lemma before_nth_prefix (x : string) (n : nat) :
  exists rest, x = PyStr.before_nth sep n x ++ rest
               /\ (rest = "" \/ exists r, rest = String sep r).
Proof.
  revert n. induction x as [|a x IH]; intros n.
  - exists "". split; [reflexivity | now left].
  - simpl. destruct (Ascii.eqb a sep) eqn:Ha.
    + apply Ascii.eqb_eq in Ha. subst a.
      destruct n as [|[|m]].
      * exists (String sep x). split; [reflexivity | right; eauto].
      * exists (String sep x). split; [reflexivity | right; eauto].
      * destruct (IH (S m)) as (rest & Hx & Hr).
        exists rest. split; [|exact Hr].
        change (String sep x
                = String sep (PyStr.before_nth sep (S m) x ++ rest)).
        f_equal. exact Hx.
    + destruct (IH n) as (rest & Hx & Hr).
      exists rest. split; [|exact Hr].
      change (String a x = String a (PyStr.before_nth sep n x ++ rest)).
      f_equal. exact Hx.
Qed.
End SplitFacts.

Lemma scheme_of_segments (id : string) :
  scheme_of id
  = if PyStr.startswith id "360G-" then "360G"
    else PyStr.before_nth "-" 2 id.
Proof.
  unfold scheme_of. destruct (PyStr.startswith id "360G-"); [reflexivity|].
  apply (join_take_split "-" id 1).
Qed.

(** C2, as stated, fails: the identifier ["360G"] does not start with
    ["360G-"], and its scheme is ["360G"] all the same. *)
Lemma scheme_of_360G_without_prefix :
  scheme_of "360G" = "360G" /\ PyStr.startswith "360G" "360G-" = false.
Proof. split; reflexivity. Qed.

(** C2 (amended): the scheme is ["360G"] exactly when the identifier
    starts with ["360G-"] or is ["360G"] itself; for an identifier that
    does not start with ["360G-"] the scheme is its first two
    ['-']-delimited segments joined by ['-'], which is the text before its
    second ['-']. *)
Theorem scheme_of_spec (id : string) :
  (scheme_of id = "360G"
   <-> (PyStr.startswith id "360G-" = true \/ id = "360G"))
  /\ scheme_of id
     = (if PyStr.startswith id "360G-" then "360G"
        else PyStr.join "-" (take 2 (PyStr.split "-" id)))
  /\ PyStr.join "-" (take 2 (PyStr.split "-" id)) = PyStr.before_nth "-" 2 id.
Proof.
  split; [|split; [reflexivity | apply (join_take_split "-" id 1)]].
  rewrite scheme_of_segments.
  destruct (PyStr.startswith id "360G-") eqn:Hp.
  - split; [now left | reflexivity].
  - split.
    + intros H. right.
      destruct (before_nth_prefix "-" id 2) as (rest & Hx & [Hr | [r Hr]]).
      * rewrite H, Hr in Hx. exact Hx.
      * rewrite H, Hr in Hx. subst id. destruct r; discriminate Hp.
    + intros [H | H]; [discriminate H | subst id; reflexivity].
Qed.

(** ** Running a stage: unfolding the monad *)
Ltac run_monad :=
  unfold bind, ret, raise, lift, try_except, get_heap, put_heap, get_job,
    put_job, log_request in *.

(** ** [CheckColumnsExist] *)

(** The required columns a frame lacks, in the order they are checked. *)
Definition missing_columns (df : DataFrame) : list string :=
  List.filter (fun c => negb (has_column df c)) columns_to_check.

Lemma check_columns_first_missing (df : DataFrame) (to_check : list string) :
  check_columns to_check df
  = match List.filter (fun c => negb (has_column df c)) to_check with
    | [] => Ok tt
    | c :: _ => Raise (ValueError (missing_column_message c (df_columns df)))
    end.
Proof.
  induction to_check as [|c rest IH]; [reflexivity|].
  simpl. destruct (has_column df c); simpl; [exact IH | reflexivity].
Qed.

Lemma missing_columns_nil (df : DataFrame) :
  missing_columns df = []
  <-> forall c, In c columns_to_check -> has_column df c = true.
Proof.
  unfold missing_columns. generalize columns_to_check as l.
  induction l as [|c rest IH]; simpl.
  - split; [intros _ c [] | reflexivity].
  - destruct (has_column df c) eqn:Hc; simpl.
    + rewrite IH. split.
      * intros H c' [<- | Hin]; [exact Hc | now apply H].
      * intros H c' Hin. apply H. now right.
    + split; [discriminate|].
      intros H. specialize (H c (or_introl eq_refl)). congruence.
Qed.

Lemma missing_columns_head (df : DataFrame) (c : string) (rest : list string) :
  missing_columns df = c :: rest ->
  In c columns_to_check /\ has_column df c = false.
Proof.
  unfold missing_columns. intros H.
  assert (Hin : In c (List.filter (fun c => negb (has_column df c))
                        columns_to_check)) by (rewrite H; now left).
  apply List.filter_In in Hin. destruct Hin as [Hin Hc].
  split; [exact Hin|]. now destruct (has_column df c).
Qed.

(** C4: on a dataset that lacks a required column, [CheckColumnsExist]
    raises a [ValueError] whose message names a missing column (the first
    one in checking order) and lists all the columns of the dataset; when
    the five are present it returns the dataset and the cache it was given,
    and changes nothing. *)
Theorem CheckColumnsExist_run_spec (df : DataFrame) (cache : loc)
    (attrs : attributes) (w : world) :
  let self := {| self_df := Some df; self_cache := cache;
                 self_attributes := attrs |} in
  (missing_columns df = []
   <-> forall c, In c columns_to_check -> has_column df c = true)
  /\ match missing_columns df with
     | [] => CheckColumnsExist_run self w = (Ok (Some df, cache), w)
     | c :: _ =>
         In c columns_to_check /\ has_column df c = false
         /\ CheckColumnsExist_run self w
            = (Raise (ValueError
                 ("Column " ++ c ++ " not found in data. Columns: ["
                    ++ PyStr.join ", " (df_columns df) ++ "]")), w)
     end.
Proof.
  intros self. split; [apply missing_columns_nil|].
  assert (Hrun : CheckColumnsExist_run self w
                 = match check_columns columns_to_check df with
                   | Ok _ => (Ok (Some df, cache), w)
                   | Raise e => (Raise e, w)
                   end).
  { unfold CheckColumnsExist_run, the_df. run_monad. cbn [self_df self].
    destruct (check_columns columns_to_check df); reflexivity. }
  rewrite Hrun, check_columns_first_missing.
  fold (missing_columns df).
  destruct (missing_columns df) as [|c rest] eqn:Hm; [reflexivity|].
  destruct (missing_columns_head df c rest Hm) as [Hin Hc].
  repeat split; assumption.
Qed.

Example CheckColumnsExist_names_first_missing :
  CheckColumnsExist_run
    {| self_df := Some {| nrows := 0;
                          cols := [("Amount Awarded", []); ("Award Date", [])] |};
       self_cache := 1%positive;
       self_attributes := {| attr_filename := None; attr_contents := None |} |}
    {| w_heap := ∅; w_job := None; w_requests := [] |}
  = (Raise (ValueError
       "Column Funding Org:0:Name not found in data. Columns: [Amount Awarded, Award Date]"),
     {| w_heap := ∅; w_job := None; w_requests := [] |}).
Proof. reflexivity. Qed.


(** ** [AddExtraFieldsExternal]: the bands of [pd.cut] *)

Lemma edge_ltb_Fin (y x : Q) : edge_ltb (Fin y) x = true <-> (y < x)%Q.
Proof.
  unfold edge_ltb. rewrite negb_true_iff.
  destruct (Qle_bool x y) eqn:H.
  - apply Qle_bool_iff in H. split; [discriminate | intros; lra].
  - split; [intros _ | reflexivity].
    apply Qnot_le_lt. intros Hle. apply Qle_bool_iff in Hle. congruence.
Qed.

Lemma edge_ltb_Fin_false (y x : Q) : edge_ltb (Fin y) x = false <-> (x <= y)%Q.
Proof.
  destruct (edge_ltb (Fin y) x) eqn:H.
  - apply edge_ltb_Fin in H. split; [discriminate | intros; lra].
  - split; [intros _ | reflexivity].
    apply Qnot_lt_le. intros Hlt. apply edge_ltb_Fin in Hlt. congruence.
Qed.

(** Case analysis on where [x] lies among the edges of a list of bins. *)
Ltac cut_cases x :=
  unfold cut_value; cbn [searchsorted_left AMOUNT_BINS];
  repeat match goal with
         | |- context [edge_ltb (Fin ?y) x] =>
             let H := fresh "H" in
             destruct (edge_ltb (Fin y) x) eqn:H;
             [apply edge_ltb_Fin in H | apply edge_ltb_Fin_false in H]
         end;
  cbn.

Lemma amount_band_under_500 (x : Q) :
  cut_value AMOUNT_BINS AMOUNT_BIN_LABELS x = Some "Under £500"
  <-> (-1 < x /\ x <= 500)%Q.
Proof.
  cut_cases x; (split; [intros E; try discriminate E; split; lra
                       | intros [? ?]; try reflexivity; exfalso; lra]).
Qed.

Lemma amount_band_500_1000 (x : Q) :
  cut_value AMOUNT_BINS AMOUNT_BIN_LABELS x = Some "£500 - £1,000"
  <-> (500 < x /\ x <= 1000)%Q.
Proof.
  cut_cases x; (split; [intros E; try discriminate E; split; lra
                       | intros [? ?]; try reflexivity; exfalso; lra]).
Qed.

Lemma amount_band_none (x : Q) :
  cut_value AMOUNT_BINS AMOUNT_BIN_LABELS x = None <-> (x <= -1)%Q.
Proof.
  cut_cases x; (split; [intros E; try discriminate E; lra
                       | intros ?; try reflexivity; exfalso; lra]).
Qed.

(** ** Columns of a frame *)
Lemma assoc_get_set_eq {A} (l : list (string * A)) (c : string) (s : A) :
  assoc_get (assoc_set l c s) c = Some s.
Proof.
  induction l as [|[c' s'] l IH]; simpl.
  - now rewrite String.eqb_refl.
  - destruct (String.eqb c' c) eqn:E; simpl; rewrite E; [reflexivity | exact IH].
Qed.

Lemma assoc_get_set_ne {A} (l : list (string * A)) (c c' : string) (s : A) :
  c <> c' -> assoc_get (assoc_set l c s) c' = assoc_get l c'.
Proof.
  intros Hne. induction l as [|[c0 s0] l IH]; simpl.
  - destruct (String.eqb c c') eqn:E; [|reflexivity].
    apply String.eqb_eq in E. contradiction.
  - destruct (String.eqb c0 c) eqn:E; simpl.
    + apply String.eqb_eq in E. subst c0.
      destruct (String.eqb c c') eqn:E'; [|reflexivity].
      apply String.eqb_eq in E'. contradiction.
    + destruct (String.eqb c0 c'); [reflexivity | exact IH].
Qed.

Lemma df_get_set_eq (df : DataFrame) (c : string) (s : Series) :
  df_get (df_set df c s) c = Ok s.
Proof. unfold df_get, df_set. simpl. now rewrite assoc_get_set_eq. Qed.

Lemma df_get_set_ne (df : DataFrame) (c c' : string) (s : Series) :
  c <> c' -> df_get (df_set df c s) c' = df_get df c'.
Proof.
  intros H. unfold df_get, df_set. simpl. now rewrite assoc_get_set_ne.
Qed.

(** The bands column that [AddExtraFieldsExternal] leaves is [pd.cut] of
    the amounts it found. *)
Lemma AddExtraFieldsExternal_amount_bands
    (astype_float : Series -> result Series) (self : stage_self)
    (w w' : world) (r : DataFrame) (cache' : loc) :
  AddExtraFieldsExternal_run astype_float self w = (Ok (Some r, cache'), w') ->
  exists df amount bands,
    self_df self = Some df
    /\ df_get df "Amount Awarded" = Ok amount
    /\ pd_cut amount AMOUNT_BINS AMOUNT_BIN_LABELS = Ok bands
    /\ df_get r "Amount Awarded:Bands" = Ok bands.
Proof.
  unfold AddExtraFieldsExternal_run, the_df. run_monad.
  destruct (self_df self) as [df|]; [|discriminate].
  destruct (df_get df "Amount Awarded") as [amount|] eqn:Ha; [|discriminate].
  destruct (pd_cut amount AMOUNT_BINS AMOUNT_BIN_LABELS) as [bands|] eqn:Hb;
    [|discriminate].
  destruct (df_get _ "__org_latest_income") as [income|]; [|discriminate].
  destruct (astype_float income) as [income'|]; [|discriminate].
  destruct (pd_cut income' _ _) as [ibands|]; [|discriminate].
  destruct (df_get _ "__org_age") as [age|]; [|discriminate].
  destruct (pd_cut age _ _) as [abands|]; [|discriminate].
  intros H. injection H as Hr _ _.
  exists df, amount, bands. repeat split; try assumption.
  match type of Hr with
  | (if ?b then _ else _) = _ => destruct b
  end; subst r;
    repeat (rewrite df_get_set_ne by discriminate);
    apply df_get_set_eq.
Qed.

(** C6, as stated, fails: in a run of [AddExtraFieldsExternal] the row with
    an amount of exactly [500] gets the band ["Under £500"], not
    ["£500 - £1,000"]. *)
Lemma amount_500_is_under_500 :
  match fst (AddExtraFieldsExternal_run (fun s => Ok s)
               {| self_df := Some
                    {| nrows := 3;
                       cols := [("Amount Awarded",
                                 [CNum 500; CNum (49999 # 100); CNum (-1)]);
                                ("__org_latest_income", [CNull; CNull; CNull]);
                                ("__org_age", [CNull; CNull; CNull])] |};
                  self_cache := 1%positive;
                  self_attributes := {| attr_filename := None;
                                        attr_contents := None |} |}
               {| w_heap := ∅; w_job := None; w_requests := [] |}) with
  | Ok (Some r, _) => df_get r "Amount Awarded:Bands"
  | _ => Raise TypeError
  end = Ok [CStr "Under £500"; CStr "Under £500"; CNull].
Proof. vm_compute. reflexivity. Qed.

(** C6 (amended): [pd.cut] closes each band on the right, so that the
    edges are (-1, 500], (500, 1000] and so on: an amount of exactly 500
    falls in ["Under £500"], as 499.99 does, ["£500 - £1,000"] holds the
    amounts above 500 up to 1000 included, and -1 (as anything not above
    it) gets no band.  The bands column of the stage is [pd.cut] of the
    amounts. *)
Theorem amount_bands_right_closed :
  cut_cell AMOUNT_BINS AMOUNT_BIN_LABELS (CNum 500) = Ok (CStr "Under £500")
  /\ cut_cell AMOUNT_BINS AMOUNT_BIN_LABELS (CNum (49999 # 100))
     = Ok (CStr "Under £500")
  /\ cut_cell AMOUNT_BINS AMOUNT_BIN_LABELS (CNum (-1)) = Ok CNull
  /\ (forall x : Q,
        cut_value AMOUNT_BINS AMOUNT_BIN_LABELS x = Some "Under £500"
        <-> (-1 < x /\ x <= 500)%Q)
  /\ (forall x : Q,
        cut_value AMOUNT_BINS AMOUNT_BIN_LABELS x = Some "£500 - £1,000"
        <-> (500 < x /\ x <= 1000)%Q)
  /\ (forall x : Q,
        cut_value AMOUNT_BINS AMOUNT_BIN_LABELS x = None <-> (x <= -1)%Q)
  /\ (forall astype_float self w w' r cache',
        AddExtraFieldsExternal_run astype_float self w
        = (Ok (Some r, cache'), w') ->
        exists df amount bands,
          self_df self = Some df
          /\ df_get df "Amount Awarded" = Ok amount
          /\ pd_cut amount AMOUNT_BINS AMOUNT_BIN_LABELS = Ok bands
          /\ df_get r "Amount Awarded:Bands" = Ok bands).
Proof.
  split; [reflexivity|]. split; [reflexivity|]. split; [reflexivity|].
  split; [exact amount_band_under_500|].
  split; [exact amount_band_500_1000|].
  split; [exact amount_band_none|].
  intros. eapply AddExtraFieldsExternal_amount_bands; eassumption.
Qed.

(** ** The run loop of [DataPreparation] *)
Section RunLoop.
Variable requests_get_json : string -> result json.
Variable charity_number_to_org_id : cell -> result cell.
Variable format_num : Q -> string.
Variable str_lower : string -> string.
Variable b64decode : string -> result string.
Variable from_csv from_excel from_json : string -> result DataFrame.
Variable to_datetime dt_year astype_float : Series -> result Series.
Variable table_to_datetime : bool -> string -> Table -> result Table.
Variable table_add_age table_income_float : Table -> result Table.
Variable df_join : DataFrame -> Table -> string -> result DataFrame.
Variable swap_names : pydict -> string -> Table -> result Table.

Let run_stages' :=
  run_stages requests_get_json charity_number_to_org_id format_num str_lower
    b64decode from_csv from_excel from_json to_datetime dt_year astype_float
    table_to_datetime table_add_age table_income_float df_join swap_names.
Let stage_run' :=
  stage_run requests_get_json charity_number_to_org_id format_num str_lower
    b64decode from_csv from_excel from_json to_datetime dt_year astype_float
    table_to_datetime table_add_age table_income_float df_join swap_names.
Let run' :=
  DataPreparation_run requests_get_json charity_number_to_org_id format_num
    str_lower b64decode from_csv from_excel from_json to_datetime dt_year
    astype_float table_to_datetime table_add_age table_income_float df_join
    swap_names.

(** A stage class other than [LoadDataset] is instantiated with the
    arguments the loop passes. *)
Lemma instantiate_with_base (c : stage_class) (df : option DataFrame)
    (cache : loc) (attrs : attributes) (w : world) :
  c <> LoadDataset ->
  instantiate c df cache attrs w
  = (Ok {| self_df := df; self_cache := cache; self_attributes := attrs |}, w).
Proof. destruct c; intros H; try reflexivity. contradiction. Qed.

Lemma instantiate_LoadDataset (df : option DataFrame) (cache : loc)
    (attrs : attributes) (w : world) :
  instantiate LoadDataset df cache attrs w = (Raise TypeError, w).
Proof. reflexivity. Qed.

(** The loop never gets past its first stage: when the stage is
    instantiated and returns, the call [self._progress_job()] that follows
    raises [TypeError], [stage_id] missing. *)
Lemma run_stages_raises_after_first_stage (self : DataPreparation)
    (c : stage_class) (rest : list stage_class) (df : option DataFrame)
    (cache : loc) (w w1 : world) (r : stage_result) :
  c <> LoadDataset ->
  stage_run' c {| self_df := df; self_cache := cache;
                  self_attributes := dp_attributes self |} w = (Ok r, w1) ->
  run_stages' self (c :: rest) df cache w = (Raise TypeError, w1).
Proof.
  intros Hc Hrun. unfold run_stages', stage_run' in *. cbn [run_stages].
  unfold bind at 1. rewrite instantiate_with_base by exact Hc.
  unfold bind at 1. rewrite Hrun. reflexivity.
Qed.

Lemma run_stages_never_returns (self : DataPreparation) (c : stage_class)
    (rest : list stage_class) (df : option DataFrame) (cache : loc)
    (w : world) :
  exists e w', run_stages' self (c :: rest) df cache w = (Raise e, w').
Proof.
  unfold run_stages'. cbn [run_stages]. unfold bind at 1.
  destruct (instantiate c df cache (dp_attributes self) w) as [[s|e] w1];
    [|eauto].
  unfold bind at 1.
  match goal with
  | |- context [stage_run ?a ?b ?c0 ?d ?e0 ?f ?g ?h ?i ?j ?k ?l ?m ?n ?o ?p c s w1] =>
      destruct (stage_run a b c0 d e0 f g h i j k l m n o p c s w1)
        as [[r|e] w2]
  end; [|eauto].
  exists TypeError, w2. reflexivity.
Qed.

(** C1: with a job handle present, [DataPreparation.run] first records the
    twelve stage names and the progress state {stage: 0, progress: None} in
    the job meta and saves it; then it raises [TypeError] on instantiating
    the first stage, [LoadDataset], a class without the base class whose
    [__init__] takes the arguments.  No stage executes and the stage index
    is never advanced. *)
Theorem DataPreparation_run_stops_at_LoadDataset (df : option DataFrame)
    (cache : loc) (attrs : attributes) (h : heap) (j : job_handle)
    (requests : list string) :
  let recorded :=
    {| meta_stages :=
         Some ["Load data to be prepared"; "Check column names";
               "Check columns exist"; "Check column types";
               "Add extra columns"; "Clean recipient identifiers";
               "Look up charity data"; "Look up company data";
               "Add charity and company details to data";
               "Look up postcode data"; "Add geo data";
               "Add extra fields from external data"];
       meta_progress := Some {| stage := 0; progress := None |} |} in
  run' {| dp_stages := stages; dp_df := df; dp_cache := cache;
          dp_attributes := attrs |}
       {| w_heap := h; w_job := Some j; w_requests := requests |}
  = (Raise TypeError,
     {| w_heap := h;
        w_job := Some {| meta := recorded; saved := recorded :: saved j |};
        w_requests := requests |}).
Proof. reflexivity. Qed.

End RunLoop.

(** ** Reading the cache *)

(** [cache[ns]] is the dictionary at [l], holding [d]. *)
Definition namespace_at (w : world) (cache : loc) (ns : string) (l : loc)
    (d : pydict) : Prop :=
  exists top, w_heap w !! cache = Some top
              /\ dict_get top (CStr ns) = Some (VRef l)
              /\ w_heap w !! l = Some d.

Lemma namespace_resolves (w : world) (cache : loc) (ns : string) (l : loc)
    (d : pydict) :
  namespace_at w cache ns l d -> namespace cache ns w = (Ok l, w).
Proof.
  intros (top & Ht & Hg & _).
  unfold namespace, getitem, load_dict. run_monad. now rewrite Ht, Hg.
Qed.

Lemma load_dict_at (w : world) (l : loc) (d : pydict) :
  w_heap w !! l = Some d -> load_dict l w = (Ok d, w).
Proof. intros H. unfold load_dict. run_monad. now rewrite H. Qed.

(** ** [MergeGeoData] *)
Section GeoData.
Variable df_join : DataFrame -> Table -> string -> result DataFrame.
Variable swap_names : pydict -> string -> Table -> result Table.

Lemma create_postcode_df_empty (self : stage_self) (w : world) (ns : loc) :
  namespace_at w (self_cache self) "postcode" ns [] ->
  _create_postcode_df swap_names self w = (Raise (KeyError "postcode"), w).
Proof.
  intros H. unfold _create_postcode_df.
  unfold bind at 1. rewrite (namespace_resolves _ _ _ _ _ H).
  destruct H as (top & _ & _ & Hd).
  unfold bind at 1. rewrite (load_dict_at _ _ _ Hd). reflexivity.
Qed.

(** C10: with no entry in the postcode namespace [MergeGeoData] raises a
    [KeyError] while it builds the geo table (the frame built from no
    record has no column ["postcode"] to index by), leaving the world as it
    was; so whenever the stage returns, the namespace had an entry. *)
Theorem MergeGeoData_needs_postcode_entry (self : stage_self) (w : world)
    (ns : loc) (d : pydict) :
  namespace_at w (self_cache self) "postcode" ns d ->
  (d = [] ->
   MergeGeoData_run df_join swap_names self w
   = (Raise (KeyError "postcode"), w))
  /\ (forall r w', MergeGeoData_run df_join swap_names self w = (Ok r, w') ->
                   d <> []).
Proof.
  intros H.
  assert (Hempty : d = [] ->
                   MergeGeoData_run df_join swap_names self w
                   = (Raise (KeyError "postcode"), w)).
  { intros ->. unfold MergeGeoData_run. unfold bind at 1.
    now rewrite (create_postcode_df_empty _ _ _ H). }
  split; [exact Hempty|].
  intros r w' Hrun Hd. rewrite (Hempty Hd) in Hrun. discriminate Hrun.
Qed.

End GeoData.

(** A cache with one postcode entry, on which the stage returns. *)
Definition geo_example_postcodes : pydict :=
  [(CStr "SW1A 1AA",
    VJson (JObj [("data",
                  JObj [("attributes",
                         JObj [("ctry", JStr "E92000001");
                               ("lat", JNum (515 # 10))])])]))].

Definition geo_example_heap : heap :=
  list_to_map
    [(1%positive,
      [(CStr "postcode", VRef 2%positive); (CStr "geocodes", VRef 3%positive)]);
     (2%positive, geo_example_postcodes);
     (3%positive, [(CStr "ctry-E92000001", VJson (JStr "England"))])].

Definition geo_example_world : world :=
  {| w_heap := geo_example_heap; w_job := None; w_requests := [] |}.

Definition geo_example_self : stage_self :=
  {| self_df := Some {| nrows := 1;
                        cols := [("Recipient Org:0:Postal Code",
                                  [CStr "SW1A 1AA"])] |};
     self_cache := 1%positive;
     self_attributes := {| attr_filename := None; attr_contents := None |} |}.

Lemma geo_example_namespace :
  namespace_at geo_example_world (self_cache geo_example_self) "postcode"
    2%positive geo_example_postcodes.
Proof.
  eexists. split; [vm_compute; reflexivity|].
  split; vm_compute; reflexivity.
Defined.

Lemma MergeGeoData_needs_postcode_entry_witness :
  exists r w',
    MergeGeoData_run (fun df _ _ => Ok df) (fun _ _ t => Ok t)
      geo_example_self geo_example_world = (Ok r, w')
    /\ geo_example_postcodes <> [].
Proof.
  eexists. eexists. split.
  - vm_compute. reflexivity.
  - eapply (proj2 (MergeGeoData_needs_postcode_entry
                     (fun df _ _ => Ok df) (fun _ _ t => Ok t)
                     geo_example_self geo_example_world 2%positive
                     geo_example_postcodes geo_example_namespace)).
    vm_compute. reflexivity.
Defined.

(** ** [MergeCompanyAndCharityDetails] *)
Section OrgDetails.
Variable table_to_datetime : bool -> string -> Table -> result Table.
Variable table_add_age table_income_float : Table -> result Table.
Variable df_join : DataFrame -> Table -> string -> result DataFrame.

Let run :=
  MergeCompanyAndCharityDetails_run table_to_datetime table_add_age
    table_income_float df_join.

Lemma create_orgid_df_no_record (self : stage_self) (w : world) (ns : loc)
    (items : pydict) :
  namespace_at w (self_cache self) "charity" ns items ->
  charity_records items w = (Ok [], w) ->
  _create_orgid_df table_to_datetime self w = (Raise (KeyError "orgid"), w).
Proof.
  intros H Hrec. unfold _create_orgid_df.
  unfold bind at 1. rewrite (namespace_resolves _ _ _ _ _ H).
  destruct H as (top & _ & _ & Hd).
  unfold bind at 1. rewrite (load_dict_at _ _ _ Hd).
  unfold bind at 1. rewrite Hrec. reflexivity.
Qed.

(** With charity entries and no company entry the branch
    [elif ~isinstance(orgid_df, pd.DataFrame)] is taken, [~True] being
    [-2]: the stage returns what it was given, without the join. *)
Lemma charity_only_returns_unchanged (self : stage_self) (w w1 : world)
    (t : Table) (ns : loc) :
  _create_orgid_df table_to_datetime self w = (Ok t, w1) ->
  namespace_at w1 (self_cache self) "company" ns [] ->
  run self w = (Ok (self_df self, self_cache self), w1).
Proof.
  intros Ht H. unfold run, MergeCompanyAndCharityDetails_run.
  unfold bind at 1. rewrite Ht.
  unfold bind at 1. unfold _create_company_df.
  unfold bind at 1. rewrite (namespace_resolves _ _ _ _ _ H).
  destruct H as (top & _ & _ & Hd).
  unfold bind at 1. rewrite (load_dict_at _ _ _ Hd). reflexivity.
Qed.

(** C9: when the charity namespace yields no usable entry (it is empty or
    no entry has an [id]), the stage raises [KeyError] while it builds the
    charity table, whatever the company namespace holds: the company table
    is never used alone, and with neither kind of entry the dataset is not
    passed through. *)
Theorem MergeCompanyAndCharityDetails_raises_without_charity
    (self : stage_self) (w : world) (ns : loc) (items : pydict) :
  namespace_at w (self_cache self) "charity" ns items ->
  charity_records items w = (Ok [], w) ->
  run self w = (Raise (KeyError "orgid"), w).
Proof.
  intros H Hrec. unfold run, MergeCompanyAndCharityDetails_run.
  unfold bind at 1.
  now rewrite (create_orgid_df_no_record self w ns items H Hrec).
Qed.

End OrgDetails.

(** A cache with one company entry and no usable charity entry. *)
Definition unusable_charities : pydict :=
  [(CStr "GB-CHC-1", VJson (JObj [("name", JStr "A")]))].

Definition company_only_heap (charities : pydict) : heap :=
  list_to_map
    [(1%positive,
      [(CStr "charity", VRef 2%positive); (CStr "company", VRef 3%positive);
       (CStr "postcode", VRef 4%positive); (CStr "geocodes", VRef 5%positive)]);
     (2%positive, charities);
     (3%positive,
      [(CStr "GB-COH-01234567",
        VJson (JObj [("primaryTopic",
                      JObj [("CompanyNumber", JStr "01234567");
                            ("IncorporationDate", JStr "01/02/2003")])]))]);
     (4%positive, []);
     (5%positive, [])].

Definition company_only_world (charities : pydict) : world :=
  {| w_heap := company_only_heap charities; w_job := None;
     w_requests := [] |}.

Definition company_only_self : stage_self :=
  {| self_df := Some {| nrows := 1;
                        cols := [("Recipient Org:0:Identifier:Clean",
                                  [CStr "GB-COH-01234567"])] |};
     self_cache := 1%positive;
     self_attributes := {| attr_filename := None; attr_contents := None |} |}.

Lemma company_only_namespace (charities : pydict) :
  namespace_at (company_only_world charities) (self_cache company_only_self)
    "charity" 2%positive charities.
Proof.
  eexists. split; [vm_compute; reflexivity|].
  split; vm_compute; reflexivity.
Defined.

Lemma MergeCompanyAndCharityDetails_raises_without_charity_witness :
  MergeCompanyAndCharityDetails_run
    (fun _ _ t => Ok t) (fun t => Ok t) (fun t => Ok t) (fun df _ _ => Ok df)
    company_only_self (company_only_world unusable_charities)
  = (Raise (KeyError "orgid"), company_only_world unusable_charities).
Proof.
  apply (MergeCompanyAndCharityDetails_raises_without_charity
           (fun _ _ t => Ok t) (fun t => Ok t) (fun t => Ok t)
           (fun df _ _ => Ok df)
           company_only_self (company_only_world unusable_charities)
           2%positive unusable_charities
           (company_only_namespace unusable_charities)).
  vm_compute. reflexivity.
Defined.

(** With neither kind of entry the outcome is the same. *)
Example no_entry_at_all_raises :
  fst (MergeCompanyAndCharityDetails_run
         (fun _ _ t => Ok t) (fun t => Ok t) (fun t => Ok t)
         (fun df _ _ => Ok df)
         company_only_self
         {| w_heap := <[3%positive := []]> (company_only_heap []);
            w_job := None; w_requests := [] |})
  = Raise (KeyError "orgid").
Proof. vm_compute. reflexivity. Qed.

(** ** The lookup stages

    The three loops have one shape: report progress, then, under a [try],
    take the value for the item (the namespace itself on a hit, a fetch
    otherwise) and store it under the item.  [lookup_loop] is that shape,
    with the fetch given by what it returns and what it requests. *)
Definition job_ready (w : world) : Prop :=
  match w_job w with
  | None => True
  | Some j => is_Some (meta_progress (meta j))
  end.

Definition add_requests (urls : list string) (w : world) : world :=
  {| w_heap := w_heap w; w_job := w_job w;
     w_requests := urls ++ w_requests w |}.

Definition with_heap (h : heap) (w : world) : world :=
  {| w_heap := h; w_job := w_job w; w_requests := w_requests w |}.

Section LookupLoop.
Variable nsn : string.                        (* the namespace *)
Variable outcome : cell -> result pyval.      (* what the fetch returns *)
Variable urls : cell -> list string.          (* what it requests *)
Variable caught : pyexc -> bool.              (* the [except] clause *)

Definition lookup_fetch (key : cell) : M pyval :=
  fun w => (outcome key, add_requests (urls key) w).

Definition lookup_get (self : stage_self) (key : cell) : M pyval :=
  ns <- namespace (self_cache self) nsn ;;
  hit <- cached_truthy ns key ;;
  if hit then ns <- namespace (self_cache self) nsn ;; ret (VRef ns)
  else lookup_fetch key.

Definition lookup_item (self : stage_self) (key : cell) : M unit :=
  try_except
    (v <- lookup_get self key ;;
     ns <- namespace (self_cache self) nsn ;;
     setitem ns key v)
    caught (ret tt).

Fixpoint lookup_loop (self : stage_self) (total k : nat)
    (keys : list cell) : M unit :=
  match keys with
  | [] => ret tt
  | key :: rest =>
      stage_progress_job (k + 1) total ;;;
      lookup_item self key ;;;
      lookup_loop self total (k + 1) rest
  end.

(** Whether [key] is a hit in the dictionary [d]. *)
Definition is_hit (h : heap) (d : pydict) (key : cell) : bool :=
  match dict_get d key with
  | Some v => truthy h v
  | None => false
  end.

Lemma cached_truthy_at (w : world) (ns : loc) (d : pydict) (key : cell) :
  w_heap w !! ns = Some d ->
  cached_truthy ns key w = (Ok (is_hit (w_heap w) d key), w).
Proof.
  intros H. unfold cached_truthy. unfold bind at 1.
  rewrite (load_dict_at _ _ _ H). reflexivity.
Qed.

Lemma setitem_at (w : world) (ns : loc) (d : pydict) (key : cell) (v : pyval) :
  w_heap w !! ns = Some d ->
  setitem ns key v w = (Ok tt, with_heap (<[ns := dict_set d key v]> (w_heap w)) w).
Proof.
  intros H. unfold setitem. unfold bind at 1.
  rewrite (load_dict_at _ _ _ H). reflexivity.
Qed.

Lemma namespace_at_add_requests (w : world) (cache : loc) (ns : loc)
    (d : pydict) (l : list string) :
  namespace_at w cache nsn ns d -> namespace_at (add_requests l w) cache nsn ns d.
Proof. exact (fun H => H). Qed.

(** A hit: nothing is fetched and the entry becomes a reference to the
    namespace dictionary, which is what the getter returns. *)
Lemma lookup_item_hit (self : stage_self) (w : world) (ns : loc)
    (d : pydict) (key : cell) :
  namespace_at w (self_cache self) nsn ns d ->
  is_hit (w_heap w) d key = true ->
  lookup_item self key w
  = (Ok tt, with_heap (<[ns := dict_set d key (VRef ns)]> (w_heap w)) w).
Proof.
  intros H Hhit. pose proof (namespace_resolves _ _ _ _ _ H) as Hns.
  destruct H as (top & _ & _ & Hd).
  unfold lookup_item, try_except, lookup_get.
  unfold bind at 1. unfold bind at 1. rewrite Hns.
  unfold bind at 1. rewrite (cached_truthy_at _ _ _ _ Hd), Hhit.
  unfold bind at 1. rewrite Hns. unfold ret at 1.
  unfold bind at 1. rewrite Hns.
  now rewrite (setitem_at _ _ _ _ _ Hd).
Qed.

(** A miss: the fetch is made; its value is stored, or its exception is
    caught and the cache left alone, or the exception goes on. *)
Lemma lookup_item_miss (self : stage_self) (w : world) (ns : loc)
    (d : pydict) (key : cell) :
  namespace_at w (self_cache self) nsn ns d ->
  is_hit (w_heap w) d key = false ->
  lookup_item self key w
  = match outcome key with
    | Ok v => (Ok tt, with_heap (<[ns := dict_set d key v]> (w_heap w))
                        (add_requests (urls key) w))
    | Raise e => if caught e then (Ok tt, add_requests (urls key) w)
                 else (Raise e, add_requests (urls key) w)
    end.
Proof.
  intros H Hhit. pose proof (namespace_resolves _ _ _ _ _ H) as Hns.
  pose proof (namespace_resolves _ _ _ _ _
                (namespace_at_add_requests _ _ _ _ (urls key) H)) as Hns'.
  destruct H as (top & _ & _ & Hd).
  unfold lookup_item, try_except, lookup_get.
  unfold bind at 1. unfold bind at 1. rewrite Hns.
  unfold bind at 1. rewrite (cached_truthy_at _ _ _ _ Hd), Hhit.
  unfold lookup_fetch.
  destruct (outcome key) as [v|e]; [|reflexivity].
  unfold bind at 1. rewrite Hns'.
  now rewrite (setitem_at (add_requests (urls key) w) _ _ _ _ Hd).
Qed.

End LookupLoop.

(** ** Dictionaries *)
Lemma cell_eqb_eq (a b : cell) : cell_eqb a b = true <-> a = b.
Proof. unfold cell_eqb. apply bool_decide_eq_true. Qed.

Lemma cell_eqb_refl (a : cell) : cell_eqb a a = true.
Proof. now apply cell_eqb_eq. Qed.

Lemma cell_eqb_neq (a b : cell) : cell_eqb a b = false <-> a <> b.
Proof. unfold cell_eqb. apply bool_decide_eq_false. Qed.

Lemma dict_get_set_eq (d : pydict) (k : cell) (v : pyval) :
  dict_get (dict_set d k v) k = Some v.
Proof.
  induction d as [|[k' v'] d IH]; simpl.
  - now rewrite cell_eqb_refl.
  - destruct (cell_eqb k' k) eqn:E; simpl; rewrite E; [reflexivity | exact IH].
Qed.

Lemma dict_get_set_ne (d : pydict) (k k' : cell) (v : pyval) :
  k <> k' -> dict_get (dict_set d k v) k' = dict_get d k'.
Proof.
  intros Hne. induction d as [|[k0 v0] d IH]; simpl.
  - now rewrite (proj2 (cell_eqb_neq k k') Hne).
  - destruct (cell_eqb k0 k) eqn:E; simpl.
    + apply cell_eqb_eq in E. subst k0.
      now rewrite (proj2 (cell_eqb_neq k k') Hne).
    + destruct (cell_eqb k0 k'); [reflexivity | exact IH].
Qed.

(** A value that is false stays false when the dictionary that holds it is
    updated: it is not a reference to that dictionary, which has an entry. *)
Lemma falsy_entry_stable (h : heap) (ns : loc) (d d2 : pydict) (x : cell)
    (v : pyval) :
  h !! ns = Some d -> dict_get d x = Some v -> truthy h v = false ->
  truthy (<[ns := d2]> h) v = false.
Proof.
  intros Hd Hx Hv. destruct v as [j|l]; [exact Hv|].
  cbn [truthy] in *. destruct (decide (l = ns)) as [E|Hne].
  - rewrite E, Hd in Hv. destruct d; [discriminate Hx | discriminate Hv].
  - now rewrite lookup_insert_ne by congruence.
Qed.

Lemma is_hit_stable (h : heap) (ns : loc) (d : pydict) (k x : cell)
    (v : pyval) :
  h !! ns = Some d -> k <> x -> is_hit h d x = false ->
  is_hit (<[ns := dict_set d k v]> h) (dict_set d k v) x = false.
Proof.
  intros Hd Hne Hx. unfold is_hit in *.
  rewrite dict_get_set_ne by exact Hne.
  destruct (dict_get d x) as [vx|] eqn:Hg; [|reflexivity].
  eapply falsy_entry_stable; eassumption.
Qed.

Lemma stage_progress_job_ready (w : world) (a b : nat) :
  job_ready w ->
  exists w1, stage_progress_job a b w = (Ok tt, w1)
             /\ w_heap w1 = w_heap w /\ w_requests w1 = w_requests w
             /\ job_ready w1.
Proof.
  unfold job_ready, stage_progress_job. run_monad.
  destruct (w_job w) as [j|] eqn:Hj.
  - intros [p Hp]. rewrite Hp. eexists.
    split; [reflexivity|]. cbn. eauto.
  - intros _. exists w. rewrite Hj. auto.
Qed.

Lemma namespace_at_same_heap (w w1 : world) (cache : loc) (nsn : string)
    (ns : loc) (d : pydict) :
  w_heap w1 = w_heap w ->
  namespace_at w cache nsn ns d -> namespace_at w1 cache nsn ns d.
Proof. unfold namespace_at. intros ->. exact (fun H => H). Qed.

Lemma namespace_at_update (w : world) (cache : loc) (nsn : string) (ns : loc)
    (d d2 : pydict) :
  cache <> ns ->
  namespace_at w cache nsn ns d ->
  namespace_at (with_heap (<[ns := d2]> (w_heap w)) w) cache nsn ns d2.
Proof.
  intros Hne (top & Ht & Hg & _). exists top. simpl.
  rewrite lookup_insert_ne by congruence.
  rewrite lookup_insert_eq. auto.
Qed.

Section LookupLoopFacts.
Variable nsn : string.
Variable outcome : cell -> result pyval.
Variable urls : cell -> list string.
Variable caught : pyexc -> bool.

(** When every exception a fetch raises is one the [except] clause
    catches, the loop returns; an item that was no hit at the start and
    whose fetch raises keeps the entry it had (none, if it had none). *)
Lemma lookup_loop_returns (self : stage_self) (total : nat)
    (keys : list cell) :
  forall (k : nat) (w : world) (ns : loc) (d : pydict),
  job_ready w ->
  namespace_at w (self_cache self) nsn ns d ->
  self_cache self <> ns ->
  (forall x e, In x keys -> outcome x = Raise e -> caught e = true) ->
  exists w' d',
    lookup_loop nsn outcome urls caught self total k keys w = (Ok tt, w')
    /\ namespace_at w' (self_cache self) nsn ns d'
    /\ job_ready w'
    /\ (forall x e, is_hit (w_heap w) d x = false -> outcome x = Raise e ->
                    dict_get d' x = dict_get d x
                    /\ is_hit (w_heap w') d' x = false).
Proof.
  induction keys as [|key rest IH]; intros k w ns d Hjob Hns Hne Hcaught.
  - exists w, d. cbn. auto.
  - cbn [lookup_loop].
    destruct (stage_progress_job_ready w (k + 1) total Hjob)
      as (w1 & Hp & Hh1 & _ & Hjob1).
    unfold bind at 1. rewrite Hp.
    pose proof (namespace_at_same_heap w w1 _ _ _ _ Hh1 Hns) as Hns1.
    assert (Hd1 : w_heap w1 !! ns = Some d)
      by (destruct Hns1 as (? & _ & _ & H); exact H).
    assert (Hrest : forall x e, In x rest -> outcome x = Raise e ->
                                caught e = true)
      by (intros x e Hin; apply Hcaught; now right).
    unfold bind at 1.
    (* what the item does, and the state the rest of the loop starts in *)
    assert (Hstep :
      exists w2 d2,
        lookup_item nsn outcome urls caught self key w1 = (Ok tt, w2)
        /\ namespace_at w2 (self_cache self) nsn ns d2
        /\ job_ready w2
        /\ (forall x e, is_hit (w_heap w1) d x = false ->
                        outcome x = Raise e ->
                        dict_get d2 x = dict_get d x
                        /\ is_hit (w_heap w2) d2 x = false)).
    { destruct (is_hit (w_heap w1) d key) eqn:Hhit.
      - rewrite (lookup_item_hit _ _ _ _ _ _ _ _ _ Hns1 Hhit).
        eexists. exists (dict_set d key (VRef ns)).
        split; [reflexivity|].
        split; [exact (namespace_at_update w1 _ _ _ _ _ Hne Hns1)|].
        split; [exact Hjob1|].
        intros x e Hx _.
        assert (key <> x) by (intros ->; congruence).
        split; [now apply dict_get_set_ne | now apply is_hit_stable].
      - rewrite (lookup_item_miss _ _ _ _ _ _ _ _ _ Hns1 Hhit).
        destruct (outcome key) as [v|e0] eqn:Hout.
        + eexists. exists (dict_set d key v).
          split; [reflexivity|].
          split; [exact (namespace_at_update
                           (add_requests (urls key) w1) _ _ _ _ _ Hne Hns1)|].
          split; [exact Hjob1|].
          intros x e Hx Hxe.
          assert (key <> x) by (intros ->; congruence).
          split; [now apply dict_get_set_ne | now apply is_hit_stable].
        + rewrite (Hcaught key e0 (or_introl eq_refl) Hout).
          eexists. exists d.
          split; [reflexivity|].
          split; [exact Hns1|]. split; [exact Hjob1|].
          intros x e Hx _. split; [reflexivity | exact Hx]. }
    destruct Hstep as (w2 & d2 & Hitem & Hns2 & Hjob2 & Hkeep2).
    rewrite Hitem.
    destruct (IH (k + 1) w2 ns d2 Hjob2 Hns2 Hne Hrest)
      as (w' & d' & Hloop & Hns' & Hjob' & Hkeep').
    exists w', d'. split; [exact Hloop|].
    split; [exact Hns'|]. split; [exact Hjob'|].
    intros x e Hx Hxe. rewrite <- Hh1 in Hx.
    destruct (Hkeep2 x e Hx Hxe) as [Hg2 Hh2].
    destruct (Hkeep' x e Hh2 Hxe) as [Hg' Hh'].
    split; [congruence | exact Hh'].
Qed.

End LookupLoopFacts.

(** ** The three loops of the source are instances of [lookup_loop] *)
Lemma bind_ext {A B} (m m' : M A) (k k' : A -> M B) (w : world) :
  (forall w, m w = m' w) -> (forall a w, k a w = k' a w) ->
  bind m k w = bind m' k' w.
Proof.
  intros Hm Hk. unfold bind. rewrite Hm.
  destruct (m' w) as [[a|e] w1]; [apply Hk | reflexivity].
Qed.

Lemma try_except_ext {A} (m m' : M A) (c : pyexc -> bool) (h : M A)
    (w : world) :
  (forall w, m w = m' w) -> try_except m c h w = try_except m' c h w.
Proof. intros Hm. unfold try_except. now rewrite Hm. Qed.

Definition json_outcome (r : result json) : result pyval :=
  match r with
  | Ok j => Ok (VJson j)
  | Raise e => Raise e
  end.

Section SourceLoops.
Variable requests_get_json : string -> result json.
Variable format_num : Q -> string.

Lemma fetch_json_eq (url : string) (w : world) :
  fetch_json requests_get_json url w
  = (json_outcome (requests_get_json url), add_requests [url] w).
Proof.
  unfold fetch_json, json_outcome. run_monad.
  destruct (requests_get_json url); reflexivity.
Qed.

(** What each stage fetches for an item, and from where. *)
Definition charity_url (x : cell) : string :=
  FTC_URL_format (py_format format_num x).
Definition charity_outcome (x : cell) : result pyval :=
  json_outcome (requests_get_json (charity_url x)).

Definition company_url (s : string) : string :=
  CH_URL_format (PyStr.remove "GB-COH-" s).
Definition company_outcome (x : cell) : result pyval :=
  match x with
  | CStr s => json_outcome (requests_get_json (company_url s))
  | _ => Raise AttributeError
  end.
Definition company_urls (x : cell) : list string :=
  match x with
  | CStr s => [company_url s]
  | _ => []
  end.

Definition postcode_url (x : cell) : string :=
  PC_URL_format (py_format format_num x).
Definition postcode_outcome (x : cell) : result pyval :=
  json_outcome (requests_get_json (postcode_url x)).

Lemma charity_loop_eq (self : stage_self) (total : nat) (keys : list cell) :
  forall k w,
  charity_loop requests_get_json format_num self total k keys w
  = lookup_loop "charity" charity_outcome (fun x => [charity_url x])
      is_ValueError self total k keys w.
Proof.
  induction keys as [|key rest IH]; intros k w; [reflexivity|].
  cbn [charity_loop lookup_loop].
  apply bind_ext; [reflexivity|]. intros _ w1.
  apply bind_ext; [|intros _ w2; apply IH]. intros w2.
  unfold lookup_item. apply try_except_ext. intros w3.
  apply bind_ext; [|reflexivity]. intros w4.
  unfold _get_charity, lookup_get.
  apply bind_ext; [reflexivity|]. intros ns w5.
  apply bind_ext; [reflexivity|]. intros hit w6.
  destruct hit; [reflexivity | apply fetch_json_eq].
Qed.

Lemma company_loop_eq (self : stage_self) (total : nat) (keys : list cell) :
  forall k w,
  company_loop requests_get_json self total k keys w
  = lookup_loop "company" company_outcome company_urls
      is_ValueError self total k keys w.
Proof.
  induction keys as [|key rest IH]; intros k w; [reflexivity|].
  cbn [company_loop lookup_loop].
  apply bind_ext; [reflexivity|]. intros _ w1.
  apply bind_ext; [|intros _ w2; apply IH]. intros w2.
  unfold lookup_item. apply try_except_ext. intros w3.
  apply bind_ext; [|reflexivity]. intros w4.
  unfold _get_company, lookup_get.
  apply bind_ext; [reflexivity|]. intros ns w5.
  apply bind_ext; [reflexivity|]. intros hit w6.
  destruct hit; [reflexivity|].
  destruct key; [now destruct w6 | apply fetch_json_eq | now destruct w6].
Qed.

Lemma postcode_loop_eq (self : stage_self) (total : nat) (keys : list cell) :
  forall k w,
  postcode_loop requests_get_json format_num self total k keys w
  = lookup_loop "postcode" postcode_outcome (fun x => [postcode_url x])
      is_JSONDecodeError self total k keys w.
Proof.
  induction keys as [|key rest IH]; intros k w; [reflexivity|].
  cbn [postcode_loop lookup_loop].
  apply bind_ext; [reflexivity|]. intros _ w1.
  apply bind_ext; [|intros _ w2; apply IH]. intros w2.
  unfold lookup_item. apply try_except_ext. intros w3.
  apply bind_ext; [|reflexivity]. intros w4.
  unfold _get_postcode, lookup_get.
  apply bind_ext; [reflexivity|]. intros ns w5.
  apply bind_ext; [reflexivity|]. intros hit w6.
  destruct hit; [reflexivity | apply fetch_json_eq].
Qed.

End SourceLoops.

(** ** A hit in a lookup stage *)
Lemma lookup_loop_hit (nsn : string) (outcome : cell -> result pyval)
    (urls : cell -> list string) (caught : pyexc -> bool)
    (self : stage_self) (total k : nat) (key : cell) (rest : list cell)
    (w : world) (ns : loc) (d : pydict) :
  job_ready w ->
  namespace_at w (self_cache self) nsn ns d ->
  self_cache self <> ns ->
  is_hit (w_heap w) d key = true ->
  exists w1,
    lookup_loop nsn outcome urls caught self total k (key :: rest) w
    = lookup_loop nsn outcome urls caught self total (k + 1) rest w1
    /\ w_requests w1 = w_requests w
    /\ namespace_at w1 (self_cache self) nsn ns (dict_set d key (VRef ns))
    /\ dict_get (dict_set d key (VRef ns)) key = Some (VRef ns).
Proof.
  intros Hjob Hns Hne Hhit.
  destruct (stage_progress_job_ready w (k + 1) total Hjob)
    as (w1 & Hp & Hh1 & Hr1 & Hjob1).
  pose proof (namespace_at_same_heap w w1 _ _ _ _ Hh1 Hns) as Hns1.
  rewrite <- Hh1 in Hhit.
  exists (with_heap (<[ns := dict_set d key (VRef ns)]> (w_heap w1)) w1).
  split; [|split; [exact Hr1 | split;
            [exact (namespace_at_update w1 _ _ _ _ _ Hne Hns1)
            | apply dict_get_set_eq]]].
  cbn [lookup_loop]. unfold bind at 1. rewrite Hp.
  unfold bind at 1.
  now rewrite (lookup_item_hit _ _ _ _ _ _ _ _ _ Hns1 Hhit).
Qed.

(** A miss whose fetch raises an exception of the [except] clause: the loop
    goes on with the remaining items, the store as it was. *)
Lemma lookup_loop_skip (nsn : string) (outcome : cell -> result pyval)
    (urls : cell -> list string) (caught : pyexc -> bool)
    (self : stage_self) (total k : nat) (key : cell) (rest : list cell)
    (w : world) (ns : loc) (d : pydict) (e : pyexc) :
  job_ready w ->
  namespace_at w (self_cache self) nsn ns d ->
  is_hit (w_heap w) d key = false ->
  outcome key = Raise e -> caught e = true ->
  exists w1,
    lookup_loop nsn outcome urls caught self total k (key :: rest) w
    = lookup_loop nsn outcome urls caught self total (k + 1) rest w1
    /\ w_heap w1 = w_heap w.
Proof.
  intros Hjob Hns Hhit Hout Hcaught.
  destruct (stage_progress_job_ready w (k + 1) total Hjob)
    as (w1 & Hp & Hh1 & _ & _).
  pose proof (namespace_at_same_heap w w1 _ _ _ _ Hh1 Hns) as Hns1.
  rewrite <- Hh1 in Hhit.
  exists (add_requests (urls key) w1). split; [|exact Hh1].
  cbn [lookup_loop]. unfold bind at 1. rewrite Hp.
  unfold bind at 1.
  now rewrite (lookup_item_miss _ _ _ _ _ _ _ _ _ Hns1 Hhit), Hout, Hcaught.
Qed.

(** C5: for an identifier whose cache entry is true, the lookup stages
    perform no fetch; but the entry does not stay as it was: the getter
    returns the namespace dictionary ([return self.cache["charity"]]), and
    the loop stores that reference under the identifier.  The same for the
    company and the postcode namespaces. *)
Theorem cached_entry_replaced_by_namespace
    (requests_get_json : string -> result json) (format_num : Q -> string)
    (self : stage_self) (total k : nat) (key : cell) (rest : list cell)
    (w : world) (ns : loc) (d : pydict) :
  job_ready w ->
  self_cache self <> ns ->
  is_hit (w_heap w) d key = true ->
  (namespace_at w (self_cache self) "charity" ns d ->
   exists w1,
     charity_loop requests_get_json format_num self total k (key :: rest) w
     = charity_loop requests_get_json format_num self total (k + 1) rest w1
     /\ w_requests w1 = w_requests w
     /\ namespace_at w1 (self_cache self) "charity" ns
          (dict_set d key (VRef ns))
     /\ dict_get (dict_set d key (VRef ns)) key = Some (VRef ns))
  /\ (namespace_at w (self_cache self) "company" ns d ->
      exists w1,
        company_loop requests_get_json self total k (key :: rest) w
        = company_loop requests_get_json self total (k + 1) rest w1
        /\ w_requests w1 = w_requests w
        /\ namespace_at w1 (self_cache self) "company" ns
             (dict_set d key (VRef ns))
        /\ dict_get (dict_set d key (VRef ns)) key = Some (VRef ns))
  /\ (namespace_at w (self_cache self) "postcode" ns d ->
      exists w1,
        postcode_loop requests_get_json format_num self total k (key :: rest) w
        = postcode_loop requests_get_json format_num self total (k + 1) rest w1
        /\ w_requests w1 = w_requests w
        /\ namespace_at w1 (self_cache self) "postcode" ns
             (dict_set d key (VRef ns))
        /\ dict_get (dict_set d key (VRef ns)) key = Some (VRef ns)).
Proof.
  intros Hjob Hne Hhit. split; [|split]; intros Hns.
  - rewrite charity_loop_eq.
    destruct (lookup_loop_hit "charity"
                (charity_outcome requests_get_json format_num)
                (fun x => [charity_url format_num x]) is_ValueError
                self total k key rest w ns d Hjob Hns Hne Hhit)
      as (w1 & H1 & H2).
    exists w1. rewrite charity_loop_eq. auto.
  - rewrite company_loop_eq.
    destruct (lookup_loop_hit "company"
                (company_outcome requests_get_json) company_urls
                is_ValueError
                self total k key rest w ns d Hjob Hns Hne Hhit)
      as (w1 & H1 & H2).
    exists w1. rewrite company_loop_eq. auto.
  - rewrite postcode_loop_eq.
    destruct (lookup_loop_hit "postcode"
                (postcode_outcome requests_get_json format_num)
                (fun x => [postcode_url format_num x]) is_JSONDecodeError
                self total k key rest w ns d Hjob Hns Hne Hhit)
      as (w1 & H1 & H2).
    exists w1. rewrite postcode_loop_eq. auto.
Qed.

(** A cache that knows one charity. *)
Definition known_charity : pydict :=
  [(CStr "GB-CHC-1", VJson (JObj [("id", JStr "GB-CHC-1")]))].

Definition known_charity_heap : heap :=
  list_to_map
    [(1%positive,
      [(CStr "charity", VRef 2%positive); (CStr "company", VRef 3%positive);
       (CStr "postcode", VRef 4%positive); (CStr "geocodes", VRef 5%positive)]);
     (2%positive, known_charity);
     (3%positive, []); (4%positive, []); (5%positive, [])].

Definition known_charity_world : world :=
  {| w_heap := known_charity_heap; w_job := None; w_requests := [] |}.

Definition known_charity_self : stage_self :=
  {| self_df := Some
       {| nrows := 1;
          cols := [("Recipient Org:0:Identifier:Scheme", [CStr "GB-CHC"]);
                   ("Recipient Org:0:Identifier:Clean", [CStr "GB-CHC-1"])] |};
     self_cache := 1%positive;
     self_attributes := {| attr_filename := None; attr_contents := None |} |}.

Lemma known_charity_namespace :
  namespace_at known_charity_world (self_cache known_charity_self) "charity"
    2%positive known_charity.
Proof.
  eexists. split; [vm_compute; reflexivity|].
  split; vm_compute; reflexivity.
Defined.

Lemma cached_entry_replaced_by_namespace_witness :
  exists w1,
    charity_loop (fun _ => Raise RequestException) (fun _ => "")
      known_charity_self 1 0 [CStr "GB-CHC-1"] known_charity_world
    = (Ok tt, w1)
    /\ w_requests w1 = []
    /\ namespace_at w1 1%positive "charity" 2%positive
         [(CStr "GB-CHC-1", VRef 2%positive)]
    /\ dict_get known_charity (CStr "GB-CHC-1")
       = Some (VJson (JObj [("id", JStr "GB-CHC-1")])).
Proof.
  destruct (proj1 (cached_entry_replaced_by_namespace
                     (fun _ => Raise RequestException) (fun _ => "")
                     known_charity_self 1 0 (CStr "GB-CHC-1") []
                     known_charity_world 2%positive known_charity
                     I ltac:(discriminate) eq_refl)
                  known_charity_namespace)
    as (w1 & Hrun & Hreq & Hns & _).
  exists w1. split; [exact Hrun|]. split; [exact Hreq|].
  split; [exact Hns | reflexivity].
Defined.

(** The whole stage on that cache: no request, and the entry of the
    charity is now the namespace dictionary itself. *)
Example LookupCharityDetails_overwrites_cached_entry :
  let r := LookupCharityDetails_run (fun _ => Raise RequestException)
             (fun _ => "") known_charity_self known_charity_world in
  fst r = Ok (self_df known_charity_self, 1%positive)
  /\ w_requests (snd r) = []
  /\ w_heap (snd r) !! 2%positive = Some [(CStr "GB-CHC-1", VRef 2%positive)].
Proof. vm_compute. auto. Qed.

(** ** A malformed response in a lookup stage *)
Section MalformedResponses.
Variable requests_get_json : string -> result json.
Variable format_num : Q -> string.

Lemma json_outcome_raise (r : result json) (e : pyexc) :
  json_outcome r = Raise e -> r = Raise e.
Proof.
  destruct r; [discriminate|]. cbn. intros H. injection H as ->. reflexivity.
Qed.

Lemma json_outcome_of_raise (r : result json) (e : pyexc) :
  r = Raise e -> json_outcome r = Raise e.
Proof. now intros ->. Qed.

(** C3, as stated, fails: the identifier below is in the charity namespace
    with an empty record, so it is fetched again; the fetch raises the
    malformed-response error, which is caught, and the identifier is
    still a key of the namespace after the stage. *)
Lemma malformed_fetch_keeps_existing_key :
  let w := {| w_heap := <[2%positive := [(CStr "GB-CHC-1", VJson (JObj []))]]>
                          known_charity_heap;
              w_job := None; w_requests := [] |} in
  let r := LookupCharityDetails_run (fun _ => Raise JSONDecodeError)
             (fun _ => "") known_charity_self w in
  fst r = Ok (self_df known_charity_self, 1%positive)
  /\ w_requests (snd r) = ["https://findthatcharity.uk/orgid/GB-CHC-1.json"]
  /\ w_heap (snd r) !! 2%positive
     = Some [(CStr "GB-CHC-1", VJson (JObj []))].
Proof. vm_compute. auto. Qed.

(** C3 (amended): in each lookup stage, a malformed-response error raised
    by the fetch of one item is caught, and the loop goes on with the
    remaining items from an unchanged cache; when the fetches raise no
    other kind of exception the stage returns normally, and an item that
    was fetched (no hit at the start) and whose fetch raised has after the
    stage the entry it had before: none, when it was not a key. *)
Theorem malformed_responses_are_skipped (self : stage_self) (df : DataFrame)
    (w : world) (ns : loc) (d : pydict) (keys : list cell) :
  job_ready w ->
  self_cache self <> ns ->
  self_df self = Some df ->
  (* LookupCharityDetails *)
  (namespace_at w (self_cache self) "charity" ns d ->
   charity_orgids df = Ok keys ->
   (forall x e, In x keys ->
      requests_get_json (charity_url format_num x) = Raise e ->
      is_ValueError e = true) ->
   exists w' d',
     LookupCharityDetails_run requests_get_json format_num self w
     = (Ok (Some df, self_cache self), w')
     /\ namespace_at w' (self_cache self) "charity" ns d'
     /\ forall x e, is_hit (w_heap w) d x = false ->
          requests_get_json (charity_url format_num x) = Raise e ->
          dict_get d' x = dict_get d x)
  (* LookupCompanyDetails *)
  /\ (forall clean schemes nc dc,
      namespace_at w (self_cache self) "company" ns d ->
      namespace_at w (self_cache self) "charity" nc dc ->
      df_get df "Recipient Org:0:Identifier:Clean" = Ok clean ->
      df_get df "Recipient Org:0:Identifier:Scheme" = Ok schemes ->
      keys = unique (select (company_mask clean schemes (map fst dc)) clean) ->
      (forall x, In x keys -> exists s, x = CStr s) ->
      (forall s e, In (CStr s) keys ->
         requests_get_json (company_url s) = Raise e ->
         is_ValueError e = true) ->
      exists w' d',
        LookupCompanyDetails_run requests_get_json self w
        = (Ok (Some df, self_cache self), w')
        /\ namespace_at w' (self_cache self) "company" ns d'
        /\ forall s e, is_hit (w_heap w) d (CStr s) = false ->
             requests_get_json (company_url s) = Raise e ->
             dict_get d' (CStr s) = dict_get d (CStr s))
  (* FetchPostcodes *)
  /\ (forall df' col,
      namespace_at w (self_cache self) "postcode" ns d ->
      with_postal_code df = Ok df' ->
      df_get df' "Recipient Org:0:Postal Code" = Ok col ->
      keys = unique (dropna col) ->
      (forall x e, In x keys ->
         requests_get_json (postcode_url format_num x) = Raise e ->
         e = JSONDecodeError) ->
      exists w' d',
        FetchPostcodes_run requests_get_json format_num self w
        = (Ok (Some df', self_cache self), w')
        /\ namespace_at w' (self_cache self) "postcode" ns d'
        /\ forall x e, is_hit (w_heap w) d x = false ->
             requests_get_json (postcode_url format_num x) = Raise e ->
             dict_get d' x = dict_get d x)
  (* one item: the loop goes on with the rest, the cache untouched *)
  /\ (forall x rest total k e,
      is_hit (w_heap w) d x = false ->
      (namespace_at w (self_cache self) "charity" ns d ->
       requests_get_json (charity_url format_num x) = Raise e ->
       is_ValueError e = true ->
       exists w1,
         charity_loop requests_get_json format_num self total k (x :: rest) w
         = charity_loop requests_get_json format_num self total (k + 1) rest w1
         /\ w_heap w1 = w_heap w)
      /\ (namespace_at w (self_cache self) "company" ns d ->
          forall s, x = CStr s ->
          requests_get_json (company_url s) = Raise e ->
          is_ValueError e = true ->
          exists w1,
            company_loop requests_get_json self total k (x :: rest) w
            = company_loop requests_get_json self total (k + 1) rest w1
            /\ w_heap w1 = w_heap w)
      /\ (namespace_at w (self_cache self) "postcode" ns d ->
          requests_get_json (postcode_url format_num x) = Raise e ->
          e = JSONDecodeError ->
          exists w1,
            postcode_loop requests_get_json format_num self total k (x :: rest) w
            = postcode_loop requests_get_json format_num self total (k + 1)
                rest w1
            /\ w_heap w1 = w_heap w)).
Proof.
  intros Hjob Hne Hdf. split; [|split; [|split]].
  - intros Hns Hkeys Hmal.
    destruct (lookup_loop_returns "charity"
                (charity_outcome requests_get_json format_num)
                (fun x => [charity_url format_num x]) is_ValueError
                self (length keys) keys 0 w ns d Hjob Hns Hne)
      as (w' & d' & Hloop & Hns' & _ & Hkeep).
    { intros x e Hin Hout. apply (Hmal x e Hin).
      now apply json_outcome_raise. }
    exists w', d'. split; [|split; [exact Hns'|]].
    + unfold LookupCharityDetails_run, the_df. rewrite Hdf.
      unfold bind at 1. unfold ret at 1.
      unfold bind at 1. unfold lift at 1. rewrite Hkeys.
      unfold bind at 1. rewrite charity_loop_eq, Hloop. reflexivity.
    + intros x e Hx Hxe. apply (Hkeep x e Hx).
      now apply json_outcome_of_raise.
  - intros clean schemes nc dc Hns Hnc Hclean Hschemes Hkeys Hstr Hmal.
    destruct (lookup_loop_returns "company"
                (company_outcome requests_get_json) company_urls
                is_ValueError
                self (length keys) keys 0 w ns d Hjob Hns Hne)
      as (w' & d' & Hloop & Hns' & _ & Hkeep).
    { intros x e Hin Hout. destruct (Hstr x Hin) as [s ->].
      apply (Hmal s e Hin). now apply json_outcome_raise. }
    exists w', d'. split; [|split; [exact Hns'|]].
    + unfold LookupCompanyDetails_run, the_df. rewrite Hdf.
      unfold bind at 1. unfold ret at 1.
      unfold bind at 1. unfold lift at 1. rewrite Hclean.
      unfold bind at 1. unfold _get_orgid_index.
      unfold bind at 1. rewrite (namespace_resolves _ _ _ _ _ Hnc).
      destruct Hnc as (top & _ & _ & Hdc).
      unfold bind at 1. rewrite (load_dict_at _ _ _ Hdc). unfold ret at 1.
      unfold bind at 1. unfold lift at 1. rewrite Hschemes.
      rewrite <- Hkeys.
      unfold bind at 1. rewrite company_loop_eq, Hloop. reflexivity.
    + intros s e Hx Hxe. apply (Hkeep (CStr s) e Hx).
      now apply json_outcome_of_raise.
  - intros df' col Hns Hprep Hcol Hkeys Hmal.
    destruct (lookup_loop_returns "postcode"
                (postcode_outcome requests_get_json format_num)
                (fun x => [postcode_url format_num x]) is_JSONDecodeError
                self (length keys) keys 0 w ns d Hjob Hns Hne)
      as (w' & d' & Hloop & Hns' & _ & Hkeep).
    { intros x e Hin Hout.
      now rewrite (Hmal x e Hin (json_outcome_raise _ _ Hout)). }
    exists w', d'. split; [|split; [exact Hns'|]].
    + unfold FetchPostcodes_run, the_df. rewrite Hdf.
      unfold bind at 1. unfold ret at 1.
      unfold bind at 1. unfold lift at 1. rewrite Hprep.
      unfold bind at 1. unfold lift at 1. rewrite Hcol.
      rewrite <- Hkeys.
      unfold bind at 1. rewrite postcode_loop_eq, Hloop. reflexivity.
    + intros x e Hx Hxe. apply (Hkeep x e Hx).
      now apply json_outcome_of_raise.
  - intros x rest total k e Hhit. split; [|split].
    + intros Hns Hraise Hcaught.
      destruct (lookup_loop_skip "charity"
                  (charity_outcome requests_get_json format_num)
                  (fun x => [charity_url format_num x]) is_ValueError
                  self total k x rest w ns d e Hjob Hns Hhit
                  (json_outcome_of_raise _ _ Hraise) Hcaught)
        as (w1 & Hloop & Hheap).
      exists w1. rewrite !charity_loop_eq. auto.
    + intros Hns s -> Hraise Hcaught.
      destruct (lookup_loop_skip "company"
                  (company_outcome requests_get_json) company_urls
                  is_ValueError
                  self total k (CStr s) rest w ns d e Hjob Hns Hhit
                  (json_outcome_of_raise _ _ Hraise) Hcaught)
        as (w1 & Hloop & Hheap).
      exists w1. rewrite !company_loop_eq. auto.
    + intros Hns Hraise ->.
      destruct (lookup_loop_skip "postcode"
                  (postcode_outcome requests_get_json format_num)
                  (fun x => [postcode_url format_num x]) is_JSONDecodeError
                  self total k x rest w ns d JSONDecodeError Hjob Hns Hhit
                  (json_outcome_of_raise _ _ Hraise) eq_refl)
        as (w1 & Hloop & Hheap).
      exists w1. rewrite !postcode_loop_eq. auto.
Qed.

End MalformedResponses.

(** Two charities to look up in an empty cache; the registry answers the
    first with a malformed response. *)
Definition empty_cache_world : world :=
  {| w_heap := <[2%positive := []]> known_charity_heap;
     w_job := None; w_requests := [] |}.

Definition two_charities : DataFrame :=
  {| nrows := 2;
     cols := [("Recipient Org:0:Identifier:Scheme",
               [CStr "GB-CHC"; CStr "GB-CHC"]);
              ("Recipient Org:0:Identifier:Clean",
               [CStr "GB-CHC-2"; CStr "GB-CHC-3"])] |}.

Definition two_charities_self : stage_self :=
  {| self_df := Some two_charities;
     self_cache := 1%positive;
     self_attributes := {| attr_filename := None; attr_contents := None |} |}.

Definition malformed_for_2 (url : string) : result json :=
  if String.eqb url "https://findthatcharity.uk/orgid/GB-CHC-2.json"
  then Raise JSONDecodeError
  else Ok (JObj [("id", JStr "GB-CHC-3")]).

Lemma empty_cache_namespace :
  namespace_at empty_cache_world (self_cache two_charities_self) "charity"
    2%positive [].
Proof.
  eexists. split; [vm_compute; reflexivity|].
  split; vm_compute; reflexivity.
Defined.

Lemma malformed_for_2_only_malformed (x : cell) (e : pyexc) :
  In x [CStr "GB-CHC-2"; CStr "GB-CHC-3"] ->
  malformed_for_2 (charity_url (fun _ => "") x) = Raise e ->
  is_ValueError e = true.
Proof.
  intros _. unfold malformed_for_2.
  destruct (String.eqb _ _); [|discriminate].
  intros H. injection H as <-. reflexivity.
Defined.

Lemma malformed_responses_are_skipped_witness :
  exists w' d',
    LookupCharityDetails_run malformed_for_2 (fun _ => "")
      two_charities_self empty_cache_world
    = (Ok (Some two_charities, 1%positive), w')
    /\ namespace_at w' 1%positive "charity" 2%positive d'
    /\ dict_get d' (CStr "GB-CHC-2") = None.
Proof.
  destruct (proj1 (malformed_responses_are_skipped
                     malformed_for_2 (fun _ => "")
                     two_charities_self two_charities empty_cache_world
                     2%positive [] [CStr "GB-CHC-2"; CStr "GB-CHC-3"]
                     I ltac:(discriminate) eq_refl)
                  empty_cache_namespace eq_refl
                  malformed_for_2_only_malformed)
    as (w' & d' & Hrun & Hns & Hkeep).
  exists w', d'. split; [exact Hrun|]. split; [exact Hns|].
  exact (Hkeep (CStr "GB-CHC-2") JSONDecodeError eq_refl eq_refl).
Defined.

(** The run of that witness: one request per charity, and only the second
    charity in the namespace. *)
Example malformed_response_run :
  let r := LookupCharityDetails_run malformed_for_2 (fun _ => "")
             two_charities_self empty_cache_world in
  fst r = Ok (Some two_charities, 1%positive)
  /\ w_requests (snd r)
     = ["https://findthatcharity.uk/orgid/GB-CHC-3.json";
        "https://findthatcharity.uk/orgid/GB-CHC-2.json"]
  /\ w_heap (snd r) !! 2%positive
     = Some [(CStr "GB-CHC-3", VJson (JObj [("id", JStr "GB-CHC-3")]))].
Proof. vm_compute. auto. Qed.

(** ** [CleanRecipientIdentifiers] *)

(** *** Series, row by row *)
Lemma mask_assign_lookup (mask : list bool) (old rhs : Series) (i : nat)
    (m : bool) (o r : cell) :
  mask !! i = Some m -> old !! i = Some o -> rhs !! i = Some r ->
  mask_assign mask old rhs !! i = Some (if m then r else o).
Proof.
  revert old rhs i.
  induction mask as [|m0 mask IH]; intros [|o0 old] [|r0 rhs] [|i];
    try discriminate; cbn.
  - now intros [= ->] [= ->] [= ->].
  - apply IH.
Qed.

Lemma mask_assign_length (mask : list bool) (old rhs : Series) (n : nat) :
  length mask = n -> length old = n -> length rhs = n ->
  length (mask_assign mask old rhs) = n.
Proof.
  revert old rhs n.
  induction mask as [|m0 mask IH]; intros [|o0 old] [|r0 rhs] [|n];
    try discriminate; cbn; [reflexivity|].
  intros [= H1] [= H2] [= H3]. f_equal. now apply IH.
Qed.

Lemma fillna_lookup (s other : Series) (i : nat) (a b : cell) :
  s !! i = Some a -> other !! i = Some b ->
  fillna s other !! i = Some (if notnull a then a else b).
Proof.
  revert other i.
  induction s as [|a0 s IH]; intros [|b0 other] [|i]; try discriminate; cbn.
  - now intros [= ->] [= ->].
  - apply IH.
Qed.

Lemma fillna_length (s other : Series) (n : nat) :
  length s = n -> length other = n -> length (fillna s other) = n.
Proof.
  revert other n.
  induction s as [|a0 s IH]; intros [|b0 other] [|n]; try discriminate; cbn;
    [reflexivity|].
  intros [= H1] [= H2]. f_equal. now apply IH.
Qed.

Lemma apply_lookup (f : cell -> result cell) (s r : Series) (i : nat)
    (x : cell) :
  apply f s = Ok r -> s !! i = Some x ->
  exists y, f x = Ok y /\ r !! i = Some y.
Proof.
  revert r i. induction s as [|c s IH]; intros r i; [discriminate 2|].
  cbn. destruct (f c) as [c'|] eqn:Hc; [|discriminate].
  destruct (apply f s) as [r'|] eqn:Hs; [|discriminate].
  intros [= <-]. destruct i as [|i]; cbn.
  - intros [= <-]. eauto.
  - now apply IH.
Qed.

Lemma apply_length (f : cell -> result cell) (s r : Series) :
  apply f s = Ok r -> length r = length s.
Proof.
  revert r. induction s as [|c s IH]; intros r; cbn.
  - now intros [= <-].
  - destruct (f c) as [c'|]; [|discriminate].
    destruct (apply f s) as [r'|]; [|discriminate].
    intros [= <-]. cbn. f_equal. now apply IH.
Qed.

Lemma apply_total (f : cell -> cell) (s : Series) :
  apply (fun c => Ok (f c)) s = Ok (map f s).
Proof. induction s as [|c s IH]; cbn; [reflexivity | now rewrite IH]. Qed.

Lemma has_column_assoc (df : DataFrame) (c : string) :
  has_column df c = match assoc_get (cols df) c with
                    | Some _ => true
                    | None => false
                    end.
Proof.
  unfold has_column, df_columns.
  induction (cols df) as [|[c' s] l IH]; [reflexivity|].
  cbn. rewrite String.eqb_sym.
  destruct (String.eqb c' c); [reflexivity | exact IH].
Qed.

(** All the columns of a frame have its number of rows. *)
Definition well_formed (df : DataFrame) : Prop :=
  forall c s, assoc_get (cols df) c = Some s -> length s = nrows df.

Lemma well_formed_set (df : DataFrame) (c : string) (s : Series) :
  well_formed df -> length s = nrows df -> well_formed (df_set df c s).
Proof.
  intros Hwf Hs c' s'. unfold df_set. cbn.
  destruct (String.eqb_spec c c') as [->|Hne].
  - rewrite assoc_get_set_eq. now intros [= <-].
  - rewrite assoc_get_set_ne by exact Hne. apply Hwf.
Qed.

(** *** The columns the stage computes *)
Abbreviation SCHEME := ("Recipient Org:0:Identifier:Scheme") (only parsing).
Abbreviation IDENT := ("Recipient Org:0:Identifier") (only parsing).
Abbreviation CLEAN := ("Recipient Org:0:Identifier:Clean") (only parsing).
Abbreviation COMPANY := ("Recipient Org:0:Company Number") (only parsing).
Abbreviation CHARITY := ("Recipient Org:0:Charity Number") (only parsing).

Section CleanIdentifiers.
Variable charity_number_to_org_id : cell -> result cell.
Variable format_num : Q -> string.


Let clean_ids := clean_identifiers charity_number_to_org_id format_num.

(** ["GB-COH-{}".format(number)] *)
Definition company_id (number : cell) : cell :=
  CStr ("GB-COH-" ++ py_format format_num number).

(** The [Clean] column after the three assignments, from the columns
    found: the schemes, the identifiers, the [Clean] column before (nulls
    if there was none), the company numbers and the organisation
    identifiers of the charity numbers, where those columns exist. *)
Definition clean_column (schemes ids old : Series)
    (company charity : option Series) : Series :=
  let c1 := mask_assign (isin schemes FTC_SCHEMES) old ids in
  let c2 := match company with
            | Some numbers =>
                mask_assign (map notnull numbers) c1
                  (fillna c1 (map company_id numbers))
            | None => c1
            end in
  match charity with
  | Some synthesized => fillna c2 synthesized
  | None => c2
  end.

Definition scheme_column (clean schemes : Series) : Series :=
  fillna (map rescheme clean) schemes.

(** The organisation identifiers of the charity-number column, if any. *)
Definition charity_ids (df : DataFrame) (ids : option Series) : Prop :=
  match assoc_get (cols df) CHARITY with
  | Some numbers =>
      exists synthesized,
        apply charity_number_to_org_id numbers = Ok synthesized
        /\ ids = Some synthesized
  | None => ids = None
  end.

Lemma df_get_assoc (df : DataFrame) (c : string) (s : Series) :
  df_get df c = Ok s <-> assoc_get (cols df) c = Some s.
Proof.
  unfold df_get. destruct (assoc_get (cols df) c); split; congruence.
Qed.

(** What [clean_identifiers] computes on a frame that has the scheme and
    the identifier columns: it fails only where
    [charity_number_to_org_id] does, and otherwise returns a frame [F] of
    the columns above. *)
Lemma clean_identifiers_eq (df : DataFrame) (schemes ids : Series) :
  df_get df SCHEME = Ok schemes ->
  df_get df IDENT = Ok ids ->
  exists F : option Series -> DataFrame,
    clean_ids df
    = match assoc_get (cols df) CHARITY with
      | Some numbers =>
          synthesized <~ apply charity_number_to_org_id numbers ;;
          Ok (F (Some synthesized))
      | None => Ok (F None)
      end
    /\ forall charity,
         let clean := clean_column schemes ids (df_get_or_null df CLEAN)
                        (assoc_get (cols df) COMPANY) charity in
         df_get (F charity) CLEAN = Ok clean
         /\ df_get (F charity) SCHEME = Ok (scheme_column clean schemes)
         /\ nrows (F charity) = nrows df
         /\ (forall c, c <> CLEAN -> c <> SCHEME ->
                       assoc_get (cols (F charity)) c = assoc_get (cols df) c).
Proof.
  intros Hs Hi.
  unfold clean_ids, clean_identifiers, clean_column.
  rewrite Hs, Hi. cbn [rbind].
  set (c1 := mask_assign (isin schemes FTC_SCHEMES) (df_get_or_null df CLEAN) ids).
  set (df1 := df_loc_set df (isin schemes FTC_SCHEMES) CLEAN ids).
  assert (Hdf1 : df1 = df_set df CLEAN c1) by reflexivity.
  assert (H1 : forall c, c <> CLEAN ->
                         assoc_get (cols df1) c = assoc_get (cols df) c).
  { intros c Hc. rewrite Hdf1. unfold df_set. cbn.
    now apply assoc_get_set_ne. }
  assert (Hg1 : df_get df1 CLEAN = Ok c1)
    by (rewrite Hdf1; apply df_get_set_eq).
  rewrite (has_column_assoc df1 COMPANY), (H1 COMPANY) by discriminate.
  (* the company numbers *)
  set (c2 := match assoc_get (cols df) COMPANY with
             | Some numbers =>
                 mask_assign (map notnull numbers) c1
                   (fillna c1 (map company_id numbers))
             | None => c1
             end).
  assert (Hstep2 :
    exists df2,
      (if match assoc_get (cols df) COMPANY with
          | Some _ => true | None => false end
       then
         clean <~ df_get df1 CLEAN ;;
         numbers <~ df_get df1 COMPANY ;;
         synthesized <~
           apply (fun c => Ok (CStr ("GB-COH-" ++ py_format format_num c)))
             numbers ;;
         Ok (df_loc_set df1 (map notnull numbers) CLEAN
               (fillna clean synthesized))
       else Ok df1) = Ok df2
      /\ df_get df2 CLEAN = Ok c2
      /\ nrows df2 = nrows df
      /\ forall c, c <> CLEAN -> assoc_get (cols df2) c = assoc_get (cols df) c).
  { subst c2. destruct (assoc_get (cols df) COMPANY) as [numbers|] eqn:Hco.
    - rewrite Hg1. cbn [rbind].
      assert (Hn : df_get df1 COMPANY = Ok numbers)
        by (apply df_get_assoc; rewrite H1 by discriminate; exact Hco).
      rewrite Hn. cbn [rbind].
      rewrite (apply_total
                 (fun c => CStr ("GB-COH-" ++ py_format format_num c)) numbers).
      cbn [rbind].
      eexists. split; [reflexivity|].
      unfold df_loc_set, df_get_or_null.
      replace (assoc_get (cols df1) CLEAN) with (Some c1)
        by (symmetry; now apply df_get_assoc).
      split; [apply df_get_set_eq|]. split; [reflexivity|].
      intros c Hc. cbn. rewrite assoc_get_set_ne by congruence.
      now apply H1.
    - exists df1. split; [reflexivity|].
      split; [exact Hg1|].
      split; [reflexivity | exact H1]. }
  destruct Hstep2 as (df2 & -> & Hc2 & Hn2 & H2). cbn [rbind].
  rewrite (has_column_assoc df2 CHARITY), (H2 CHARITY) by discriminate.
  assert (Hs2 : df_get df2 SCHEME = Ok schemes).
  { apply df_get_assoc. rewrite H2 by discriminate. now apply df_get_assoc. }
  (* the charity numbers, and the schemes *)
  exists (fun charity =>
            let clean := match charity with
                         | Some synthesized => fillna c2 synthesized
                         | None => c2
                         end in
            df_set (match charity with
                    | Some _ => df_set df2 CLEAN clean
                    | None => df2
                    end) SCHEME (fillna (map rescheme clean) schemes)).
  split.
  - destruct (assoc_get (cols df) CHARITY) as [numbers|] eqn:Hcha.
    + rewrite Hc2. cbn [rbind].
      assert (Hn : df_get df2 CHARITY = Ok numbers)
        by (apply df_get_assoc; rewrite H2 by discriminate; exact Hcha).
      rewrite Hn. cbn [rbind].
      destruct (apply charity_number_to_org_id numbers) as [synthesized|];
        [|reflexivity].
      cbn [rbind]. rewrite df_get_set_eq. cbn [rbind].
      rewrite df_get_set_ne by discriminate. rewrite Hs2. reflexivity.
    + cbn [rbind]. rewrite Hc2. cbn [rbind]. rewrite Hs2. reflexivity.
  - intros [synthesized|]; cbn zeta.
    + split; [rewrite df_get_set_ne by discriminate; apply df_get_set_eq|].
      split; [apply df_get_set_eq|]. split; [exact Hn2|].
      intros c Hc Hc'. cbn. rewrite !assoc_get_set_ne by congruence.
      now apply H2.
    + split; [rewrite df_get_set_ne by discriminate; exact Hc2|].
      split; [apply df_get_set_eq|]. split; [exact Hn2|].
      intros c Hc Hc'. cbn. rewrite assoc_get_set_ne by congruence.
      now apply H2.
Qed.

(** The frames on which the stage returns. *)
Lemma clean_identifiers_returns (df df' : DataFrame) :
  clean_ids df = Ok df' ->
  exists schemes ids charity,
    df_get df SCHEME = Ok schemes
    /\ df_get df IDENT = Ok ids
    /\ charity_ids df charity
    /\ let clean := clean_column schemes ids (df_get_or_null df CLEAN)
                      (assoc_get (cols df) COMPANY) charity in
       df_get df' CLEAN = Ok clean
       /\ df_get df' SCHEME = Ok (scheme_column clean schemes)
       /\ nrows df' = nrows df
       /\ (forall c, c <> CLEAN -> c <> SCHEME ->
                     assoc_get (cols df') c = assoc_get (cols df) c).
Proof.
  intros Hrun.
  destruct (df_get df SCHEME) as [schemes|] eqn:Hs;
    [|unfold clean_ids, clean_identifiers in Hrun; rewrite Hs in Hrun;
      discriminate Hrun].
  destruct (df_get df IDENT) as [ids|] eqn:Hi;
    [|unfold clean_ids, clean_identifiers in Hrun; rewrite Hs, Hi in Hrun;
      discriminate Hrun].
  destruct (clean_identifiers_eq df schemes ids Hs Hi) as (F & Heq & HF).
  rewrite Heq in Hrun. exists schemes, ids. unfold charity_ids.
  destruct (assoc_get (cols df) CHARITY) as [numbers|].
  - destruct (apply charity_number_to_org_id numbers) as [synthesized|];
      [|discriminate Hrun].
    cbn in Hrun. injection Hrun as <-.
    exists (Some synthesized). repeat split; eauto; apply HF.
  - injection Hrun as <-. exists None. repeat split; eauto; apply HF.
Qed.

(** *** One row *)

(** [scheme in FTC_SCHEMES] *)
Definition in_ftc (scheme : cell) : bool :=
  match scheme with
  | CStr x => existsb (String.eqb x) FTC_SCHEMES
  | _ => false
  end.

(** The [Clean] identifier of a row with the given scheme, identifier and
    earlier [Clean] value ([CNull] when the column is new), company number
    and organisation identifier of its charity number ([None] when the
    data has no such column):
    - the identifier itself when the scheme is one of [FTC_SCHEMES], the
      earlier value otherwise;
    - if that is null and the company number is not, ["GB-COH-<number>"];
    - if that is still null, the organisation identifier of the charity
      number. *)
Definition clean_cell (scheme id old : cell) (company charity : option cell)
  : cell :=
  let c1 := if in_ftc scheme then id else old in
  let c2 := match company with
            | Some number =>
                if notnull number
                then (if notnull c1 then c1 else company_id number)
                else c1
            | None => c1
            end in
  match charity with
  | Some org_id => if notnull c2 then c2 else org_id
  | None => c2
  end.

(** The scheme of the row after the stage. *)
Definition scheme_cell_after (clean scheme : cell) : cell :=
  if notnull (rescheme clean) then rescheme clean else scheme.

(** The cell of an optional column at row [i]. *)
Definition optional_at (col : option Series) (i : nat) (c : option cell)
  : Prop :=
  match col with
  | Some l => exists x, l !! i = Some x /\ c = Some x
  | None => c = None
  end.

Lemma map_lookup {A B} (f : A -> B) (l : list A) (i : nat) (x : A) :
  l !! i = Some x -> map f l !! i = Some (f x).
Proof.
  revert i. induction l as [|a l IH]; intros [|i]; try discriminate; cbn.
  - now intros [= ->].
  - apply IH.
Qed.

Lemma isin_lookup (schemes : Series) (i : nat) (s : cell) :
  schemes !! i = Some s -> isin schemes FTC_SCHEMES !! i = Some (in_ftc s).
Proof.
  intros H. unfold isin. rewrite (map_lookup _ _ _ _ H). now destruct s.
Qed.

Lemma clean_column_lookup (schemes ids old : Series)
    (company charity : option Series) (i : nat) (s id o : cell)
    (n y : option cell) :
  schemes !! i = Some s -> ids !! i = Some id -> old !! i = Some o ->
  optional_at company i n -> optional_at charity i y ->
  clean_column schemes ids old company charity !! i
  = Some (clean_cell s id o n y).
Proof.
  intros Hs Hi Ho Hn Hy. unfold clean_column, clean_cell.
  pose proof (mask_assign_lookup _ _ _ _ _ _ _
                (isin_lookup _ _ _ Hs) Ho Hi) as H1.
  set (c1 := mask_assign (isin schemes FTC_SCHEMES) old ids) in *.
  set (x1 := if in_ftc s then id else o) in *.
  assert (H2 :
    match company with
    | Some numbers =>
        mask_assign (map notnull numbers) c1
          (fillna c1 (map company_id numbers))
    | None => c1
    end !! i
    = Some match n with
           | Some number =>
               if notnull number
               then (if notnull x1 then x1 else company_id number)
               else x1
           | None => x1
           end).
  { destruct company as [numbers|]; cbn in Hn.
    - destruct Hn as (x & Hx & ->).
      apply mask_assign_lookup.
      + now apply map_lookup.
      + exact H1.
      + apply fillna_lookup; [exact H1|]. now apply map_lookup.
    - subst n. exact H1. }
  destruct charity as [synthesized|]; cbn in Hy.
  - destruct Hy as (x & Hx & ->). now apply fillna_lookup.
  - subst y. exact H2.
Qed.

Lemma scheme_column_lookup (clean schemes : Series) (i : nat) (c s : cell) :
  clean !! i = Some c -> schemes !! i = Some s ->
  scheme_column clean schemes !! i = Some (scheme_cell_after c s).
Proof.
  intros Hc Hs. unfold scheme_column, scheme_cell_after.
  apply fillna_lookup; [|exact Hs]. now apply map_lookup.
Qed.

(** The cells of row [i] that the stage reads. *)
Definition company_number_at (df : DataFrame) (i : nat) (n : option cell)
  : Prop :=
  optional_at (assoc_get (cols df) COMPANY) i n.

Definition charity_id_at (df : DataFrame) (i : nat) (y : option cell)
  : Prop :=
  match assoc_get (cols df) CHARITY with
  | Some numbers =>
      exists number org_id,
        numbers !! i = Some number
        /\ charity_number_to_org_id number = Ok org_id
        /\ y = Some org_id
  | None => y = None
  end.

Lemma charity_ids_at (df : DataFrame) (charity : option Series) (i : nat)
    (y : option cell) :
  charity_ids df charity -> charity_id_at df i y -> optional_at charity i y.
Proof.
  unfold charity_ids, charity_id_at.
  destruct (assoc_get (cols df) CHARITY) as [numbers|].
  - intros (synthesized & Happ & ->) (number & org_id & Hn & Ho & ->).
    destruct (apply_lookup _ _ _ _ _ Happ Hn) as (y' & Hy' & Hl).
    exists org_id. split; [congruence | reflexivity].
  - now intros -> ->.
Qed.

(** A second pass over a row leaves it alone when, after the first pass,
    a scheme among [FTC_SCHEMES] goes with a [Clean] identifier that is the
    identifier of the row. *)
Lemma clean_cell_stable (s id o : cell) (n y : option cell) :
  let c := clean_cell s id o n y in
  let s1 := scheme_cell_after c s in
  (in_ftc s1 = true -> c = id) ->
  clean_cell s1 id c n y = c /\ scheme_cell_after c s1 = s1.
Proof.
  intros c s1 Hstable.
  assert (Hs1 : scheme_cell_after c s1 = s1).
  { subst s1. unfold scheme_cell_after.
    destruct (notnull (rescheme c)); reflexivity. }
  split; [|exact Hs1].
  assert (Hc1 : (if in_ftc s1 then id else c) = c)
    by (destruct (in_ftc s1); [symmetry; now apply Hstable | reflexivity]).
  unfold clean_cell at 1. rewrite Hc1.
  destruct (notnull c) eqn:Hnull.
  - destruct n as [number|], y as [org_id|];
      repeat match goal with
             | |- context [notnull number] => destruct (notnull number)
             end; try rewrite Hnull; reflexivity.
  - (* the first pass left the cell null: there was nothing to fill it *)
    assert (Hc : c = CNull) by (destruct c; [reflexivity | discriminate..]).
    assert (Hn : match n with
                 | Some number => notnull number = false
                 | None => True
                 end).
    { destruct n as [number|]; [|exact I].
      destruct (notnull number) eqn:Hnum; [|reflexivity].
      exfalso. subst c. unfold clean_cell in Hnull. rewrite Hnum in Hnull.
      set (c1 := if in_ftc s then id else o) in *.
      destruct c1, y as [org_id|]; cbn in Hnull; discriminate Hnull. }
    assert (Hy : match y with
                 | Some org_id => org_id = CNull
                 | None => True
                 end).
    { destruct y as [org_id|]; [|exact I].
      subst c. unfold clean_cell in Hc.
      match type of Hc with
      | (if ?b then _ else _) = _ => destruct b eqn:H2
      end; [|exact Hc].
      rewrite Hc in H2. discriminate H2. }
    rewrite Hc in *.
    destruct n as [number|], y as [org_id|];
      try rewrite Hn; try rewrite Hy; reflexivity.
Qed.

(** *** The stage, row by row *)

(** The cell of column [c] at row [i]. *)
Definition cell_at (df : DataFrame) (c : string) (i : nat) : option cell :=
  match assoc_get (cols df) c with
  | Some l => l !! i
  | None => None
  end.

Lemma cell_at_get (df : DataFrame) (c : string) (l : Series) (i : nat) :
  df_get df c = Ok l -> cell_at df c i = l !! i.
Proof. intros H. apply df_get_assoc in H. unfold cell_at. now rewrite H. Qed.

(** C8 (amended): in [CleanRecipientIdentifiers], for every row, the
    [Clean] identifier is the original identifier when the scheme is one
    of GB-CHC, GB-NIC, GB-SC, GB-COH (the earlier [Clean] value, null in a
    new column, otherwise); it is fallback-filled, not overwritten, with
    ["GB-COH-<company number>"] when a company-number column exists, the
    company number of the row is not null and the [Clean] value is still
    missing; and it is further fallback-filled from the charity org-id
    when a charity-number column is present and the [Clean] value is still
    missing.  So a row with a scheme of the four and an identifier keeps
    that identifier, whatever its company number. *)
Theorem clean_identifier_of_row (df df' : DataFrame) (i : nat)
    (scheme id old : cell) (company charity : option cell) :
  clean_ids df = Ok df' ->
  cell_at df SCHEME i = Some scheme ->
  cell_at df IDENT i = Some id ->
  df_get_or_null df CLEAN !! i = Some old ->
  company_number_at df i company ->
  charity_id_at df i charity ->
  cell_at df' CLEAN i = Some (clean_cell scheme id old company charity)
  /\ (in_ftc scheme = true -> notnull id = true ->
      cell_at df' CLEAN i = Some id)
  /\ (in_ftc scheme = false -> old = CNull ->
      forall number, company = Some number -> notnull number = true ->
      cell_at df' CLEAN i = Some (company_id number)).
Proof.
  intros Hrun Hs Hi Ho Hn Hy.
  destruct (clean_identifiers_returns df df' Hrun)
    as (schemes & ids & synthesized & Hgs & Hgi & Hch & Hclean & _).
  rewrite (cell_at_get _ _ _ _ Hgs) in Hs.
  rewrite (cell_at_get _ _ _ _ Hgi) in Hi.
  assert (Hcell : cell_at df' CLEAN i
                  = Some (clean_cell scheme id old company charity)).
  { rewrite (cell_at_get _ _ _ _ Hclean).
    apply clean_column_lookup; try assumption.
    eapply charity_ids_at; eassumption. }
  split; [exact Hcell|]. split.
  - intros Hftc Hid. rewrite Hcell. f_equal.
    unfold clean_cell. rewrite Hftc.
    destruct company as [number|], charity as [org_id|];
      try destruct (notnull number); rewrite ?Hid; reflexivity.
  - intros Hftc -> number -> Hnum. rewrite Hcell. f_equal.
    unfold clean_cell. rewrite Hftc, Hnum. cbn.
    destruct charity; reflexivity.
Qed.

Lemma df_get_or_null_length (df : DataFrame) (c : string) :
  well_formed df -> length (df_get_or_null df c) = nrows df.
Proof.
  intros Hwf. unfold df_get_or_null.
  destruct (assoc_get (cols df) c) as [l|] eqn:Hc.
  - now apply Hwf with c.
  - apply repeat_length.
Qed.

Lemma clean_column_length (schemes ids old : Series)
    (company charity : option Series) (n : nat) :
  length schemes = n -> length ids = n -> length old = n ->
  (forall l, company = Some l -> length l = n) ->
  (forall l, charity = Some l -> length l = n) ->
  length (clean_column schemes ids old company charity) = n.
Proof.
  intros Hs Hi Ho Hc Hy. unfold clean_column.
  assert (H1 : length (mask_assign (isin schemes FTC_SCHEMES) old ids) = n).
  { apply mask_assign_length; try assumption.
    unfold isin. now rewrite length_map. }
  assert (H2 : length match company with
                      | Some numbers =>
                          mask_assign (map notnull numbers)
                            (mask_assign (isin schemes FTC_SCHEMES) old ids)
                            (fillna
                               (mask_assign (isin schemes FTC_SCHEMES) old ids)
                               (map company_id numbers))
                      | None => mask_assign (isin schemes FTC_SCHEMES) old ids
                      end = n).
  { destruct company as [numbers|]; [|exact H1].
    pose proof (Hc numbers eq_refl) as Hl.
    apply mask_assign_length; [now rewrite length_map | exact H1 |].
    apply fillna_length; [exact H1 | now rewrite length_map]. }
  destruct charity as [synthesized|]; [|exact H2].
  apply fillna_length; [exact H2 | now apply Hy].
Qed.

Lemma repeat_lookup {A} (x : A) (n i : nat) :
  i < n -> repeat x n !! i = Some x.
Proof.
  revert i. induction n as [|n IH]; intros i Hi; [lia|].
  destruct i as [|i]; cbn; [reflexivity|]. apply IH. lia.
Qed.

(** After the first pass, a scheme among [FTC_SCHEMES] goes with a [Clean]
    identifier that is the identifier of the row. *)
Definition settled (df1 : DataFrame) : Prop :=
  forall i s, cell_at df1 SCHEME i = Some s -> in_ftc s = true ->
              cell_at df1 CLEAN i = cell_at df1 IDENT i.

(** What the first pass reads and leaves, on a well-formed frame. *)
Lemma first_pass (df df1 : DataFrame) :
  well_formed df ->
  clean_ids df = Ok df1 ->
  exists schemes ids charity,
    let old := df_get_or_null df CLEAN in
    let company := assoc_get (cols df) COMPANY in
    let clean1 := clean_column schemes ids old company charity in
    let schemes1 := scheme_column clean1 schemes in
    charity_ids df charity
    /\ df_get df1 CLEAN = Ok clean1
    /\ df_get df1 SCHEME = Ok schemes1
    /\ df_get df1 IDENT = Ok ids
    /\ assoc_get (cols df1) COMPANY = company
    /\ assoc_get (cols df1) CHARITY = assoc_get (cols df) CHARITY
    /\ length schemes = nrows df /\ length ids = nrows df
    /\ length old = nrows df
    /\ (forall l, company = Some l -> length l = nrows df)
    /\ (forall l, charity = Some l -> length l = nrows df)
    /\ length clean1 = nrows df /\ length schemes1 = nrows df.
Proof.
  intros Hwf Hrun.
  destruct (clean_identifiers_returns df df1 Hrun)
    as (schemes & ids & charity & Hgs & Hgi & Hch & Hclean & Hscheme & _
        & Hother).
  exists schemes, ids, charity. cbn zeta.
  assert (Ls : length schemes = nrows df)
    by (apply df_get_assoc in Hgs; now apply Hwf with SCHEME).
  assert (Li : length ids = nrows df)
    by (apply df_get_assoc in Hgi; now apply Hwf with IDENT).
  assert (Lo : length (df_get_or_null df CLEAN) = nrows df)
    by now apply df_get_or_null_length.
  assert (Lc : forall l, assoc_get (cols df) COMPANY = Some l ->
                         length l = nrows df)
    by (intros l Hl; now apply Hwf with COMPANY).
  assert (Ly : forall l, charity = Some l -> length l = nrows df).
  { intros l ->. unfold charity_ids in Hch.
    destruct (assoc_get (cols df) CHARITY) as [numbers|] eqn:Hc;
      [|discriminate Hch].
    destruct Hch as (synthesized & Happ & [= ->]).
    rewrite (apply_length _ _ _ Happ). now apply Hwf with CHARITY. }
  assert (L1 : length (clean_column schemes ids (df_get_or_null df CLEAN)
                         (assoc_get (cols df) COMPANY) charity) = nrows df)
    by now apply clean_column_length.
  repeat split; try assumption.
  - apply df_get_assoc. rewrite Hother by discriminate.
    now apply df_get_assoc.
  - now apply Hother.
  - now apply Hother.
  - unfold scheme_column. apply fillna_length; [|exact Ls].
    now rewrite length_map.
Qed.

Lemma optional_at_exists (col : option Series) (n i : nat) :
  (forall l, col = Some l -> length l = n) -> i < n ->
  exists c, optional_at col i c.
Proof.
  intros Hl Hi. destruct col as [l|]; cbn; [|now exists None].
  destruct (lookup_lt_is_Some_2 l i) as [x Hx];
    [rewrite (Hl l eq_refl); exact Hi|].
  exists (Some x), x. auto.
Qed.

(** The second pass computes, row by row, what the first pass left. *)
Lemma second_pass_columns (schemes ids old : Series)
    (company charity : option Series) (n : nat) :
  length schemes = n -> length ids = n -> length old = n ->
  (forall l, company = Some l -> length l = n) ->
  (forall l, charity = Some l -> length l = n) ->
  let clean1 := clean_column schemes ids old company charity in
  let schemes1 := scheme_column clean1 schemes in
  (forall i s, schemes1 !! i = Some s -> in_ftc s = true ->
               clean1 !! i = ids !! i) ->
  clean_column schemes1 ids clean1 company charity = clean1
  /\ scheme_column clean1 schemes1 = schemes1.
Proof.
  intros Ls Li Lo Lc Ly clean1 schemes1 Hsettled.
  assert (L1 : length clean1 = n) by now apply clean_column_length.
  assert (Ls1 : length schemes1 = n).
  { unfold schemes1, scheme_column. apply fillna_length; [|exact Ls].
    now rewrite length_map. }
  assert (Hrow : forall i, i < n ->
            clean_column schemes1 ids clean1 company charity !! i
            = clean1 !! i
            /\ scheme_column clean1 schemes1 !! i = schemes1 !! i).
  { intros i Hi.
    destruct (lookup_lt_is_Some_2 schemes i) as [s Hs]; [lia|].
    destruct (lookup_lt_is_Some_2 ids i) as [id Hid]; [lia|].
    destruct (lookup_lt_is_Some_2 old i) as [o Ho]; [lia|].
    destruct (optional_at_exists company n i Lc Hi) as [ni Hni].
    destruct (optional_at_exists charity n i Ly Hi) as [yi Hyi].
    pose proof (clean_column_lookup schemes ids old company charity
                  i s id o ni yi Hs Hid Ho Hni Hyi) as Hc1.
    fold clean1 in Hc1.
    pose proof (scheme_column_lookup clean1 schemes i _ _ Hc1 Hs) as Hs1.
    fold schemes1 in Hs1.
    destruct (clean_cell_stable s id o ni yi) as [Hc Hsch].
    { intros Hftc. specialize (Hsettled i _ Hs1 Hftc).
      rewrite Hc1, Hid in Hsettled. now injection Hsettled. }
    split.
    - rewrite (clean_column_lookup schemes1 ids clean1 company charity
                 i _ id _ ni yi Hs1 Hid Hc1 Hni Hyi).
      rewrite Hc1. f_equal. exact Hc.
    - rewrite (scheme_column_lookup clean1 schemes1 i _ _ Hc1 Hs1).
      rewrite Hs1. f_equal. exact Hsch. }
  split; apply list_eq; intros i; destruct (decide (i < n)) as [Hi|Hi];
    try (now apply Hrow).
  - rewrite !lookup_ge_None_2; [reflexivity | lia |].
    rewrite clean_column_length with (n := n); [lia | assumption..].
  - rewrite !lookup_ge_None_2; [reflexivity | lia |].
    unfold scheme_column. rewrite fillna_length with (n := n);
      [lia | now rewrite length_map | exact Ls1].
Qed.

(** C7 (amended): a second run of [CleanRecipientIdentifiers] yields the
    same [Clean] and [Scheme] columns as the first for every well-formed
    dataset on which the first run succeeds and leaves, in each row whose
    scheme is then one of GB-CHC, GB-NIC, GB-SC, GB-COH, a [Clean]
    identifier equal to the identifier of the row; the datasets with no
    earlier [Clean] column, no company-number and no charity-number column
    are of that kind. *)
Theorem clean_identifiers_idempotent_when_settled (df df1 : DataFrame) :
  well_formed df ->
  clean_ids df = Ok df1 ->
  (settled df1 ->
   exists df2,
     clean_ids df1 = Ok df2
     /\ df_get df2 CLEAN = df_get df1 CLEAN
     /\ df_get df2 SCHEME = df_get df1 SCHEME)
  /\ (has_column df CLEAN = false ->
      has_column df COMPANY = false ->
      has_column df CHARITY = false ->
      settled df1).
Proof.
  intros Hwf Hrun.
  destruct (first_pass df df1 Hwf Hrun)
    as (schemes & ids & charity & Hch & Hg1c & Hg1s & Hg1i & Hco1 & Hcha1
        & Ls & Li & Lo & Lc & Ly & L1 & Ls1).
  cbn zeta in *.
  set (old := df_get_or_null df CLEAN) in *.
  set (company := assoc_get (cols df) COMPANY) in *.
  set (clean1 := clean_column schemes ids old company charity) in *.
  set (schemes1 := scheme_column clean1 schemes) in *.
  split.
  - intros Hsettled.
    destruct (clean_identifiers_eq df1 schemes1 ids Hg1s Hg1i)
      as (F & Heq & HF).
    exists (F charity).
    destruct (HF charity) as (Hc2 & Hs2 & _). cbn zeta in *.
    assert (Hold1 : df_get_or_null df1 CLEAN = clean1).
    { unfold df_get_or_null. apply df_get_assoc in Hg1c. now rewrite Hg1c. }
    rewrite Hold1, Hco1 in Hc2, Hs2.
    destruct (second_pass_columns schemes ids old company charity (nrows df)
                Ls Li Lo Lc Ly) as [Hclean Hscheme].
    { intros i s Hs Hftc.
      pose proof (Hsettled i s) as H.
      rewrite (cell_at_get _ _ _ _ Hg1s), (cell_at_get _ _ _ _ Hg1c),
        (cell_at_get _ _ _ _ Hg1i) in H.
      exact (H Hs Hftc). }
    fold clean1 schemes1 in Hclean, Hscheme.
    rewrite Hclean in Hc2, Hs2. rewrite Hscheme in Hs2.
    split; [|split; congruence].
    rewrite Heq, Hcha1. unfold charity_ids in Hch.
    destruct (assoc_get (cols df) CHARITY) as [numbers|].
    + destruct Hch as (synthesized & -> & ->). reflexivity.
    + now subst charity.
  - intros Hnc Hnco Hncha i s1 Hs1 Hftc.
    rewrite has_column_assoc in Hnc, Hnco, Hncha.
    assert (Hold : old = repeat CNull (nrows df)).
    { unfold old, df_get_or_null.
      destruct (assoc_get (cols df) CLEAN); [discriminate Hnc | reflexivity]. }
    assert (Hcompany : company = None)
      by (unfold company; destruct (assoc_get (cols df) COMPANY);
          [discriminate Hnco | reflexivity]).
    assert (Hcharity : charity = None).
    { unfold charity_ids in Hch.
      destruct (assoc_get (cols df) CHARITY);
        [discriminate Hncha | exact Hch]. }
    rewrite (cell_at_get _ _ _ _ Hg1s) in Hs1.
    rewrite (cell_at_get _ _ _ _ Hg1c), (cell_at_get _ _ _ _ Hg1i).
    assert (Hi : i < nrows df).
    { rewrite <- Ls1. apply lookup_lt_is_Some_1. eauto. }
    destruct (lookup_lt_is_Some_2 schemes i) as [s Hs]; [lia|].
    destruct (lookup_lt_is_Some_2 ids i) as [id Hid]; [lia|].
    assert (Ho : old !! i = Some CNull)
      by (rewrite Hold; now apply repeat_lookup).
    assert (Hni : optional_at company i None) by now rewrite Hcompany.
    assert (Hyi : optional_at charity i None) by now rewrite Hcharity.
    pose proof (clean_column_lookup schemes ids old company charity
                  i s id CNull None None Hs Hid Ho Hni Hyi) as Hc1.
    pose proof (scheme_column_lookup _ schemes i _ _ Hc1 Hs) as Hsch.
    change (schemes1 !! i = Some (scheme_cell_after
                                    (clean_cell s id CNull None None) s))
      in Hsch.
    change (clean1 !! i = Some (clean_cell s id CNull None None)) in Hc1.
    rewrite Hs1 in Hsch. injection Hsch as ->.
    rewrite Hc1, Hid. f_equal.
    unfold clean_cell in *. cbn in *.
    destruct (in_ftc s) eqn:Hs0; [reflexivity|].
    unfold scheme_cell_after in Hftc. cbn in Hftc. congruence.
Qed.

End CleanIdentifiers.

(** *** Examples of the stage *)
Definition frame_of (columns : list (string * Series)) (n : nat) : DataFrame :=
  {| nrows := n; cols := columns |}.

(** A charity that is also a company. *)
Definition charity_with_company_number : DataFrame :=
  frame_of [(SCHEME, [CStr "GB-CHC"]);
            (IDENT, [CStr "GB-CHC-1234"]);
            (COMPANY, [CStr "5678"])] 1.

(** A recipient known by an identifier of the publisher and a company
    number. *)
Definition publisher_id_with_company_number : DataFrame :=
  frame_of [(SCHEME, [CStr "360G"]);
            (IDENT, [CStr "360G-abc"]);
            (COMPANY, [CStr "123"])] 1.

(** Recipients with identifiers only. *)
Definition identifiers_only : DataFrame :=
  frame_of [(SCHEME, [CStr "GB-CHC"; CStr "360G"]);
            (IDENT, [CStr "GB-CHC-1"; CStr "360G-x"])] 2.

(** C8, as stated, fails: the row has a company number that is not null,
    and its [Clean] identifier is the original identifier, not
    ["GB-COH-5678"]. *)
Lemma company_number_does_not_override :
  (df' <~ clean_identifiers (fun _ => Ok CNull) (fun _ => "")
            charity_with_company_number ;;
   df_get df' CLEAN) = Ok [CStr "GB-CHC-1234"].
Proof. vm_compute. reflexivity. Qed.

Lemma clean_identifier_of_row_witness :
  exists df',
    clean_identifiers (fun _ => Ok CNull) (fun _ => "")
      charity_with_company_number = Ok df'
    /\ cell_at df' CLEAN 0 = Some (CStr "GB-CHC-1234").
Proof.
  eexists. split; [vm_compute; reflexivity|].
  eapply (proj1 (proj2 (clean_identifier_of_row
                          (fun _ => Ok CNull) (fun _ => "")
                          charity_with_company_number _ 0
                          (CStr "GB-CHC") (CStr "GB-CHC-1234") CNull
                          (Some (CStr "5678")) None _ _ _ _ _ _)));
    reflexivity.
  Unshelve.
  - vm_compute. reflexivity.
  - reflexivity.
  - reflexivity.
  - reflexivity.
  - exists (CStr "5678"). split; reflexivity.
  - reflexivity.
Defined.

(** C7, as stated, fails: the first run synthesizes ["GB-COH-123"] with
    the scheme ["GB-COH"]; the second run, finding that scheme among
    [FTC_SCHEMES], puts the original identifier back, and its scheme. *)
Lemma second_run_resets_synthesized_identifier :
  let run := clean_identifiers (fun _ => Ok CNull) (fun _ => "") in
  (df1 <~ run publisher_id_with_company_number ;; df_get df1 CLEAN)
  = Ok [CStr "GB-COH-123"]
  /\ (df1 <~ run publisher_id_with_company_number ;; df_get df1 SCHEME)
     = Ok [CStr "GB-COH"]
  /\ (df1 <~ run publisher_id_with_company_number ;;
      df2 <~ run df1 ;; df_get df2 CLEAN)
     = Ok [CStr "360G-abc"]
  /\ (df1 <~ run publisher_id_with_company_number ;;
      df2 <~ run df1 ;; df_get df2 SCHEME)
     = Ok [CStr "360G"].
Proof. vm_compute. auto. Qed.

Lemma identifiers_only_well_formed : well_formed identifiers_only.
Proof.
  intros c s. unfold identifiers_only, frame_of. cbn [assoc_get cols nrows].
  destruct (String.eqb SCHEME c); [now intros [= <-]|].
  destruct (String.eqb IDENT c); [now intros [= <-] | discriminate].
Defined.

Lemma clean_identifiers_idempotent_when_settled_witness :
  exists df1 df2,
    clean_identifiers (fun _ => Ok CNull) (fun _ => "") identifiers_only
    = Ok df1
    /\ clean_identifiers (fun _ => Ok CNull) (fun _ => "") df1 = Ok df2
    /\ df_get df2 CLEAN = df_get df1 CLEAN
    /\ df_get df2 SCHEME = df_get df1 SCHEME.
Proof.
  eexists.
  assert (Hrun : clean_identifiers (fun _ => Ok CNull) (fun _ => "")
                   identifiers_only = Ok _) by (vm_compute; reflexivity).
  destruct (clean_identifiers_idempotent_when_settled
              (fun _ => Ok CNull) (fun _ => "") identifiers_only _
              identifiers_only_well_formed Hrun) as [Hidem Hsettled].
  destruct (Hidem (Hsettled eq_refl eq_refl eq_refl))
    as (df2 & Hrun2 & Hclean & Hscheme).
  exists df2. auto.
Defined.

(** * Further properties of the pipeline *)

(** ** The identifier scheme is stable *)

Lemma prefix_split (p s : string) :
  String.prefix p s = true -> exists r, s = p ++ r.
Proof.
  revert s. induction p as [|a p IH]; intros s H.
  - now exists s.
  - destruct s as [|b s]; [discriminate H|].
    cbn in H. destruct (ascii_dec a b) as [->|]; [|discriminate H].
    destruct (IH s H) as [r ->]. now exists r.
Qed.

Lemma prefix_app (p s rest : string) :
  String.prefix p s = true -> String.prefix p (s ++ rest) = true.
Proof.
  revert s. induction p as [|a p IH]; intros s H.
  - now destruct (s ++ rest).
  - destruct s as [|b s]; [discriminate H|].
    change (String.prefix (String a p) (String b (s ++ rest)) = true).
    cbn [String.prefix] in *.
    destruct (ascii_dec a b); [now apply IH | discriminate H].
Qed.

Lemma before_nth_idem (sep : ascii) (x : string) (n : nat) :
  PyStr.before_nth sep n (PyStr.before_nth sep n x) = PyStr.before_nth sep n x.
Proof.
  revert n. induction x as [|a x IH]; intros n; [reflexivity|].
  cbn [PyStr.before_nth]. destruct (Ascii.eqb a sep) eqn:Ha.
  - destruct n as [|[|m]]; [reflexivity | reflexivity |].
    cbn [PyStr.before_nth]. rewrite Ha. now rewrite IH.
  - cbn [PyStr.before_nth]. rewrite Ha. now rewrite IH.
Qed.

(** X1: The scheme is an initial part of the identifier, and what follows it
    is nothing or starts with a hyphen. *)
Theorem scheme_of_prefix (id : string) :
  exists rest, id = scheme_of id ++ rest
               /\ (rest = "" \/ exists r, rest = String "-" r).
Proof.
  rewrite scheme_of_segments.
  destruct (PyStr.startswith id "360G-") eqn:Hp.
  - destruct (prefix_split _ _ Hp) as [r ->].
    exists (String "-" r). split; [reflexivity | right; eauto].
  - apply before_nth_prefix.
Qed.

(** X2: Taking the scheme of a scheme changes nothing: the column that
    [CleanRecipientIdentifiers] recomputes from identifiers that are already
    schemes would be the same. *)
Theorem scheme_of_idempotent (id : string) :
  scheme_of (scheme_of id) = scheme_of id.
Proof.
  rewrite (scheme_of_segments id).
  destruct (PyStr.startswith id "360G-") eqn:Hp; [reflexivity|].
  rewrite scheme_of_segments.
  destruct (PyStr.startswith (PyStr.before_nth "-" 2 id) "360G-") eqn:Hs.
  - exfalso. destruct (before_nth_prefix "-" id 2) as (rest & Hx & _).
    unfold PyStr.startswith in *. rewrite Hx in Hp.
    rewrite (prefix_app _ _ rest Hs) in Hp. discriminate Hp.
  - apply before_nth_idem.
Qed.

(** ** [AddExtraFieldsExternal]: what a run that returns has done *)
Abbreviation TITLE := ("Grant Programme:0:Title") (only parsing).

Lemma AddExtraFieldsExternal_run_inv
    (astype_float : Series -> result Series) (self : stage_self)
    (w w' : world) (r : DataFrame) (cache' : loc) :
  AddExtraFieldsExternal_run astype_float self w = (Ok (Some r, cache'), w') ->
  exists df amount ab income income' ib age gb,
    self_df self = Some df
    /\ df_get df "Amount Awarded" = Ok amount
    /\ pd_cut amount AMOUNT_BINS AMOUNT_BIN_LABELS = Ok ab
    /\ df_get df "__org_latest_income" = Ok income
    /\ astype_float income = Ok income'
    /\ pd_cut income' INCOME_BINS INCOME_BIN_LABELS = Ok ib
    /\ df_get df "__org_age" = Ok age
    /\ pd_cut age AGE_BINS AGE_BIN_LABELS = Ok gb
    /\ r = (let df3 :=
              df_set (df_set (df_set df "Amount Awarded:Bands" ab)
                        "__org_latest_income_bands" ib)
                "__org_age_bands" gb in
            if negb (has_column df3 TITLE)
            then df_set df3 TITLE (repeat (CStr "All grants") (nrows df3))
            else df3)
    /\ w' = w /\ cache' = self_cache self.
Proof.
  unfold AddExtraFieldsExternal_run, the_df. run_monad.
  destruct (self_df self) as [df|]; [|discriminate].
  destruct (df_get df "Amount Awarded") as [amount|] eqn:Ha; [|discriminate].
  destruct (pd_cut amount AMOUNT_BINS AMOUNT_BIN_LABELS) as [ab|] eqn:Hb;
    [|discriminate].
  rewrite df_get_set_ne by discriminate.
  destruct (df_get df "__org_latest_income") as [income|] eqn:Hi;
    [|discriminate].
  destruct (astype_float income) as [income'|] eqn:Hf; [|discriminate].
  destruct (pd_cut income' _ _) as [ib|] eqn:Hib; [|discriminate].
  rewrite !df_get_set_ne by discriminate.
  destruct (df_get df "__org_age") as [age|] eqn:Hg; [|discriminate].
  destruct (pd_cut age _ _) as [gb|] eqn:Hgb; [|discriminate].
  intros H. injection H as Hr Hc Hw.
  exists df, amount, ab, income, income', ib, age, gb.
  repeat (split; [first [reflexivity | eassumption | now symmetry]|]).
  now symmetry.
Qed.

(** Case analysis on where [x] lies among the edges of [bins]. *)
Ltac cut_bands bins x :=
  unfold cut_value; cbn [searchsorted_left bins];
  repeat match goal with
         | |- context [edge_ltb (Fin ?y) x] =>
             let H := fresh "H" in
             destruct (edge_ltb (Fin y) x) eqn:H;
             [apply edge_ltb_Fin in H | apply edge_ltb_Fin_false in H]
         end;
  cbn.

Ltac band_solve :=
  match goal with
  | |- _ <-> _ => split; band_solve
  | |- _ /\ _ => split; band_solve
  | |- _ -> _ => let H := fresh in intros H; band_solve
  | H : _ /\ _ |- _ => destruct H; band_solve
  | H : _ \/ _ |- _ => destruct H; band_solve
  | H : Some _ = None |- _ => discriminate H
  | H : None = Some _ |- _ => discriminate H
  | H : Some _ = Some _ |- _ => first [discriminate H | clear H; band_solve]
  | H : None = None |- _ => clear H; band_solve
  | |- _ = _ => first [reflexivity | exfalso; lra]
  | |- _ \/ _ => first [left; lra | right; lra]
  | |- _ => lra
  end.

(** *** The income bands *)
Lemma income_band_table (x : Q) :
  (cut_value INCOME_BINS INCOME_BIN_LABELS x = None <-> (x <= -1)%Q)
  /\ (cut_value INCOME_BINS INCOME_BIN_LABELS x = Some "Under £10k"
      <-> (-1 < x /\ x <= 10000)%Q)
  /\ (cut_value INCOME_BINS INCOME_BIN_LABELS x = Some "£10k - £100k"
      <-> (10000 < x /\ x <= 100000)%Q)
  /\ (cut_value INCOME_BINS INCOME_BIN_LABELS x = Some "£100k - £1m"
      <-> (100000 < x /\ x <= 1000000)%Q)
  /\ (cut_value INCOME_BINS INCOME_BIN_LABELS x = Some "£1m - £10m"
      <-> (1000000 < x /\ x <= 10000000)%Q)
  /\ (cut_value INCOME_BINS INCOME_BIN_LABELS x = Some "Over £10m"
      <-> (10000000 < x)%Q).
Proof.
  cut_bands INCOME_BINS x; band_solve.
Qed.

Lemma pd_cut_lookup (bins : list edge) (labels : list string)
    (s bands : Series) (i : nat) (c : cell) :
  pd_cut s bins labels = Ok bands -> s !! i = Some c ->
  exists b, cut_cell bins labels c = Ok b /\ bands !! i = Some b.
Proof. apply apply_lookup. Qed.

(** X3: [__org_latest_income_bands]: the bands are closed on the right, an
    income of exactly 10000 is ["Under £10k"]; an income of -1 or less has
    no band, there is no upper limit.  The column a run leaves is [pd.cut]
    of the incomes converted to [float], row by row, a null income giving a
    null band. *)
Theorem income_bands_right_closed :
  (forall x : Q,
     (cut_value INCOME_BINS INCOME_BIN_LABELS x = None <-> (x <= -1)%Q)
     /\ (cut_value INCOME_BINS INCOME_BIN_LABELS x = Some "Under £10k"
         <-> (-1 < x /\ x <= 10000)%Q)
     /\ (cut_value INCOME_BINS INCOME_BIN_LABELS x = Some "£10k - £100k"
         <-> (10000 < x /\ x <= 100000)%Q)
     /\ (cut_value INCOME_BINS INCOME_BIN_LABELS x = Some "£100k - £1m"
         <-> (100000 < x /\ x <= 1000000)%Q)
     /\ (cut_value INCOME_BINS INCOME_BIN_LABELS x = Some "£1m - £10m"
         <-> (1000000 < x /\ x <= 10000000)%Q)
     /\ (cut_value INCOME_BINS INCOME_BIN_LABELS x = Some "Over £10m"
         <-> (10000000 < x)%Q))
  /\ (forall astype_float self w w' r cache',
        AddExtraFieldsExternal_run astype_float self w
        = (Ok (Some r, cache'), w') ->
        exists df income income' bands,
          self_df self = Some df
          /\ df_get df "__org_latest_income" = Ok income
          /\ astype_float income = Ok income'
          /\ df_get r "__org_latest_income_bands" = Ok bands
          /\ (forall i x, income' !! i = Some (CNum x) ->
                bands !! i
                = Some (match cut_value INCOME_BINS INCOME_BIN_LABELS x with
                        | Some l => CStr l
                        | None => CNull
                        end))
          /\ (forall i, income' !! i = Some CNull -> bands !! i = Some CNull)).
Proof.
  split; [exact income_band_table|].
  intros astype_float self w w' r cache' Hrun.
  destruct (AddExtraFieldsExternal_run_inv _ _ _ _ _ _ Hrun)
    as (df & amount & ab & income & income' & ib & age & gb & Hdf & _ & _
        & Hi & Hf & Hib & _ & _ & Hr & _ & _).
  exists df, income, income', ib.
  repeat (split; [assumption|]).
  split.
  - subst r. cbv zeta.
    match goal with |- context [if ?b then _ else _] => destruct b end;
      repeat (rewrite df_get_set_ne by discriminate); apply df_get_set_eq.
  - split.
    + intros i x Hx.
      destruct (pd_cut_lookup _ _ _ _ _ _ Hib Hx) as (b & Hb & Hbi).
      cbn in Hb. injection Hb as <-. exact Hbi.
    + intros i Hx.
      destruct (pd_cut_lookup _ _ _ _ _ _ Hib Hx) as (b & Hb & Hbi).
      cbn in Hb. injection Hb as <-. exact Hbi.
Qed.

(** *** The age bands *)
Lemma AGE_BINS_eq :
  AGE_BINS = [Fin (-365); Fin 365; Fin 730; Fin 1825; Fin 3650; Fin 9125;
              Fin 73000].
Proof. reflexivity. Qed.

Lemma age_band_table (x : Q) :
  (cut_value AGE_BINS AGE_BIN_LABELS x = None
   <-> (x <= -365 \/ 73000 < x)%Q)
  /\ (cut_value AGE_BINS AGE_BIN_LABELS x = Some "Under 1 year"
      <-> (-365 < x /\ x <= 365)%Q)
  /\ (cut_value AGE_BINS AGE_BIN_LABELS x = Some "1-2 years"
      <-> (365 < x /\ x <= 730)%Q)
  /\ (cut_value AGE_BINS AGE_BIN_LABELS x = Some "2-5 years"
      <-> (730 < x /\ x <= 1825)%Q)
  /\ (cut_value AGE_BINS AGE_BIN_LABELS x = Some "5-10 years"
      <-> (1825 < x /\ x <= 3650)%Q)
  /\ (cut_value AGE_BINS AGE_BIN_LABELS x = Some "10-25 years"
      <-> (3650 < x /\ x <= 9125)%Q)
  /\ (cut_value AGE_BINS AGE_BIN_LABELS x = Some "Over 25 years"
      <-> (9125 < x /\ x <= 73000)%Q).
Proof.
  unfold cut_value. rewrite AGE_BINS_eq. cbn [searchsorted_left].
  repeat match goal with
         | |- context [edge_ltb (Fin ?y) x] =>
             let H := fresh "H" in
             destruct (edge_ltb (Fin y) x) eqn:H;
             [apply edge_ltb_Fin in H | apply edge_ltb_Fin_false in H]
         end;
  cbn; band_solve.
Qed.

(** X4: [__org_age_bands], ages in days: the bands are closed on the right and
    the last one ends at 200 years of 365 days, so that an organisation
    older than 73000 days has no band, as one registered 365 days or more
    in the future.  The column a run leaves is [pd.cut] of [__org_age], row
    by row. *)
Theorem age_bands_end_at_200_years :
  (forall x : Q,
     (cut_value AGE_BINS AGE_BIN_LABELS x = None
      <-> (x <= -365 \/ 73000 < x)%Q)
     /\ (cut_value AGE_BINS AGE_BIN_LABELS x = Some "Under 1 year"
         <-> (-365 < x /\ x <= 365)%Q)
     /\ (cut_value AGE_BINS AGE_BIN_LABELS x = Some "1-2 years"
         <-> (365 < x /\ x <= 730)%Q)
     /\ (cut_value AGE_BINS AGE_BIN_LABELS x = Some "2-5 years"
         <-> (730 < x /\ x <= 1825)%Q)
     /\ (cut_value AGE_BINS AGE_BIN_LABELS x = Some "5-10 years"
         <-> (1825 < x /\ x <= 3650)%Q)
     /\ (cut_value AGE_BINS AGE_BIN_LABELS x = Some "10-25 years"
         <-> (3650 < x /\ x <= 9125)%Q)
     /\ (cut_value AGE_BINS AGE_BIN_LABELS x = Some "Over 25 years"
         <-> (9125 < x /\ x <= 73000)%Q))
  /\ (forall astype_float self w w' r cache',
        AddExtraFieldsExternal_run astype_float self w
        = (Ok (Some r, cache'), w') ->
        exists df age bands,
          self_df self = Some df
          /\ df_get df "__org_age" = Ok age
          /\ df_get r "__org_age_bands" = Ok bands
          /\ (forall i x, age !! i = Some (CNum x) ->
                bands !! i
                = Some (match cut_value AGE_BINS AGE_BIN_LABELS x with
                        | Some l => CStr l
                        | None => CNull
                        end))
          /\ (forall i, age !! i = Some CNull -> bands !! i = Some CNull)).
Proof.
  split; [exact age_band_table|].
  intros astype_float self w w' r cache' Hrun.
  destruct (AddExtraFieldsExternal_run_inv _ _ _ _ _ _ Hrun)
    as (df & amount & ab & income & income' & ib & age & gb & Hdf & _ & _
        & _ & _ & _ & Hg & Hgb & Hr & _ & _).
  exists df, age, gb.
  repeat (split; [assumption|]).
  split.
  - subst r. cbv zeta.
    match goal with |- context [if ?b then _ else _] => destruct b end;
      repeat (rewrite df_get_set_ne by discriminate); apply df_get_set_eq.
  - split.
    + intros i x Hx.
      destruct (pd_cut_lookup _ _ _ _ _ _ Hgb Hx) as (b & Hb & Hbi).
      cbn [cut_cell] in Hb. injection Hb as <-. exact Hbi.
    + intros i Hx.
      destruct (pd_cut_lookup _ _ _ _ _ _ Hgb Hx) as (b & Hb & Hbi).
      cbn [cut_cell] in Hb. injection Hb as <-. exact Hbi.
Qed.

(** *** The default grant programme *)

(** X5: A run of [AddExtraFieldsExternal] that returns leaves a column
    ["Grant Programme:0:Title"]: the one the dataset had, untouched, or,
    when it had none, ["All grants"] on every row.  It keeps the number of
    rows, returns the cache it was given and changes nothing else. *)
Theorem AddExtraFieldsExternal_programme_title
    (astype_float : Series -> result Series) (self : stage_self)
    (w w' : world) (r : DataFrame) (cache' : loc) :
  AddExtraFieldsExternal_run astype_float self w = (Ok (Some r, cache'), w') ->
  exists df,
    self_df self = Some df
    /\ df_get r TITLE
       = Ok (match assoc_get (cols df) TITLE with
             | Some s => s
             | None => repeat (CStr "All grants") (nrows df)
             end)
    /\ nrows r = nrows df /\ w' = w /\ cache' = self_cache self.
Proof.
  intros Hrun.
  destruct (AddExtraFieldsExternal_run_inv _ _ _ _ _ _ Hrun)
    as (df & amount & ab & income & income' & ib & age & gb & Hdf & _ & _
        & _ & _ & _ & _ & _ & Hr & Hw & Hc).
  exists df. split; [exact Hdf|].
  split; [|split; [|split; assumption]].
  - subst r. cbv zeta. rewrite has_column_assoc.
    unfold df_set at 1 2 3. cbn [cols].
    rewrite !assoc_get_set_ne by discriminate.
    destruct (assoc_get (cols df) TITLE) as [s|] eqn:Ht; cbn [negb].
    + unfold df_get, df_set. cbn [cols].
      now rewrite !assoc_get_set_ne, Ht by discriminate.
    + apply df_get_set_eq.
  - subst r. cbv zeta.
    match goal with |- context [if ?b then _ else _] => destruct b end;
      reflexivity.
Qed.

Definition no_job_world : world :=
  {| w_heap := ∅; w_job := None; w_requests := [] |}.

Definition no_attributes : attributes :=
  {| attr_filename := None; attr_contents := None |}.

Definition two_grants : stage_self :=
  {| self_df := Some {| nrows := 2;
                        cols := [("Amount Awarded", [CNum 100; CNum 2500]);
                                 ("__org_latest_income", [CNum 10000; CNull]);
                                 ("__org_age", [CNum 365; CNum 80000])] |};
     self_cache := 1%positive;
     self_attributes := no_attributes |}.

Lemma AddExtraFieldsExternal_programme_title_witness :
  exists r,
    AddExtraFieldsExternal_run (fun s => Ok s) two_grants no_job_world
    = (Ok (Some r, 1%positive), no_job_world)
    /\ df_get r TITLE = Ok [CStr "All grants"; CStr "All grants"]
    /\ df_get r "__org_latest_income_bands" = Ok [CStr "Under £10k"; CNull]
    /\ df_get r "__org_age_bands" = Ok [CStr "Under 1 year"; CNull].
Proof.
  eexists. split; [vm_compute; reflexivity|].
  split; [|split; vm_compute; reflexivity].
  destruct (AddExtraFieldsExternal_programme_title
              (fun s => Ok s) two_grants no_job_world no_job_world _
              1%positive eq_refl) as (df & Hdf & Hget & _).
  injection Hdf as <-. exact Hget.
Defined.

(** ** [CheckColumnNames]: what is renamed, and to what *)
Section ColumnNames.
Variable str_lower : string -> string.

(** The test of line 181 for a column [c] and a required name [w]. *)
Definition name_matches (c w : string) : bool :=
  String.eqb (normalise str_lower c) (normalise str_lower w)
  && negb (String.eqb c w).

(** The entry of [renames] for [c] after the inner loop, [acc] before it:
    the last required name that matches. *)
Definition last_match (c : string) (ws : list string) (acc : option string)
  : option string :=
  fold_left (fun acc w => if name_matches c w then Some w else acc) ws acc.

(** The name a column has after the stage. *)
Definition canonical_name (c : string) : string :=
  default c (last_match c columns_to_check None).

Lemma last_match_acc (c : string) (ws : list string) (acc : option string) :
  last_match c ws acc
  = match last_match c ws None with
    | Some w => Some w
    | None => acc
    end.
Proof.
  revert acc. induction ws as [|a ws IH]; intros acc; [reflexivity|].
  unfold last_match in *. cbn [fold_left].
  rewrite (IH (if name_matches c a then Some a else acc)).
  rewrite (IH (if name_matches c a then Some a else None)).
  destruct (name_matches c a), (fold_left _ ws None); reflexivity.
Qed.

Lemma last_match_cons (c a : string) (ws : list string) :
  last_match c (a :: ws) None
  = match last_match c ws None with
    | Some w => Some w
    | None => if name_matches c a then Some a else None
    end.
Proof.
  unfold last_match at 1. cbn [fold_left].
  exact (last_match_acc c ws _).
Qed.

Lemma last_match_Some (c w : string) (ws : list string) :
  last_match c ws None = Some w -> In w ws /\ name_matches c w = true.
Proof.
  induction ws as [|a ws IH]; [discriminate|].
  rewrite last_match_cons.
  destruct (last_match c ws None) as [w'|].
  - intros [= ->]. destruct (IH eq_refl). split; [now right | assumption].
  - destruct (name_matches c a) eqn:Ha; [|discriminate].
    intros [= <-]. split; [now left | exact Ha].
Qed.

Lemma last_match_None (c : string) (ws : list string) :
  (forall w, In w ws -> name_matches c w = false) ->
  last_match c ws None = None.
Proof.
  induction ws as [|a ws IH]; intros H; [reflexivity|].
  rewrite last_match_cons, IH by (intros w Hw; apply H; now right).
  now rewrite (H a (or_introl eq_refl)).
Qed.

Lemma last_match_exists (c w : string) (ws : list string) :
  In w ws -> name_matches c w = true ->
  exists w', last_match c ws None = Some w'.
Proof.
  induction ws as [|a ws IH]; [intros []|].
  intros [<-|Hin] Hm; rewrite last_match_cons.
  - rewrite Hm. destruct (last_match c ws None); eauto.
  - destruct (IH Hin Hm) as [w' ->]. eauto.
Qed.

Lemma renames_for_get (c : string) (renames : list (string * string))
    (c' : string) :
  assoc_get (renames_for str_lower c renames) c'
  = if String.eqb c c'
    then last_match c columns_to_check (assoc_get renames c')
    else assoc_get renames c'.
Proof.
  unfold renames_for, last_match. revert renames.
  induction columns_to_check as [|a ws IH]; intros renames; cbn [fold_left].
  - now destruct (String.eqb c c').
  - rewrite IH. fold (name_matches c a).
    destruct (String.eqb_spec c c') as [<-|Hne].
    + destruct (name_matches c a); [|reflexivity].
      now rewrite assoc_get_set_eq.
    + destruct (name_matches c a); [|reflexivity].
      now rewrite assoc_get_set_ne.
Qed.

Lemma renames_get (cs : list string) (renames : list (string * string))
    (c' : string) :
  assoc_get (fold_left (fun r c => renames_for str_lower c r) cs renames) c'
  = if existsb (String.eqb c') cs
    then last_match c' columns_to_check (assoc_get renames c')
    else assoc_get renames c'.
Proof.
  revert renames. induction cs as [|c cs IH]; intros renames; [reflexivity|].
  cbn [fold_left existsb]. rewrite IH, renames_for_get.
  rewrite (String.eqb_sym c' c).
  destruct (String.eqb_spec c c') as [->|Hne]; cbn [orb].
  - destruct (existsb (String.eqb c') cs); [|reflexivity].
    rewrite (last_match_acc c' _ (last_match _ _ _)).
    rewrite (last_match_acc c' _ (assoc_get _ _)).
    now destruct (last_match c' columns_to_check None).
  - reflexivity.
Qed.

Lemma canonical_name_cases (c : string) :
  canonical_name c = c
  \/ (In (canonical_name c) columns_to_check
      /\ normalise str_lower (canonical_name c) = normalise str_lower c
      /\ canonical_name c <> c).
Proof.
  unfold canonical_name.
  destruct (last_match c columns_to_check None) as [w|] eqn:Hm;
    [right | now left].
  destruct (last_match_Some _ _ _ Hm) as [Hin Hw].
  unfold name_matches in Hw. apply andb_true_iff in Hw.
  destruct Hw as [He Hne]. apply String.eqb_eq in He.
  cbn. split; [exact Hin|]. split; [now symmetry|].
  intros ->. now rewrite String.eqb_refl in Hne.
Qed.

Lemma CheckColumnNames_run_eq (df : DataFrame) (cache : loc)
    (attrs : attributes) (w : world) :
  CheckColumnNames_run str_lower
    {| self_df := Some df; self_cache := cache; self_attributes := attrs |} w
  = (Ok (Some {| nrows := nrows df;
                 cols := map (fun '(c, s) => (canonical_name c, s))
                           (cols df) |}, cache), w).
Proof.
  unfold CheckColumnNames_run, the_df. run_monad. cbn [self_df self_cache].
  unfold df_rename. do 5 f_equal.
  apply map_ext_in. intros [c s] Hin. f_equal.
  rewrite renames_get.
  assert (Hc : existsb (String.eqb c) (df_columns df) = true).
  { apply existsb_exists. exists c. split; [|apply String.eqb_refl].
    unfold df_columns. apply in_map_iff. now exists (c, s). }
  rewrite Hc. reflexivity.
Qed.

(** X6: [CheckColumnNames] only renames: it keeps the rows, the columns in
    their order and their data; a column gets the last required name that
    equals its own once spaces are removed and case is ignored, and keeps
    its name when there is none or when it has that name already.  So a
    new name is always a required name with the same normal form. *)
Theorem CheckColumnNames_run_renames (df : DataFrame) (cache : loc)
    (attrs : attributes) (w : world) :
  exists df',
    CheckColumnNames_run str_lower
      {| self_df := Some df; self_cache := cache; self_attributes := attrs |} w
    = (Ok (Some df', cache), w)
    /\ nrows df' = nrows df
    /\ map snd (cols df') = map snd (cols df)
    /\ df_columns df' = map canonical_name (df_columns df)
    /\ (forall c,
          canonical_name c = c
          \/ (In (canonical_name c) columns_to_check
              /\ normalise str_lower (canonical_name c)
                 = normalise str_lower c
              /\ canonical_name c <> c))
    /\ (forall c, In c columns_to_check ->
          (forall w0, In w0 columns_to_check ->
             normalise str_lower c = normalise str_lower w0 -> c = w0) ->
          canonical_name c = c).
Proof.
  eexists. split; [apply CheckColumnNames_run_eq|].
  split; [reflexivity|]. cbn [cols]. unfold df_columns. cbn [cols].
  rewrite !map_map.
  split; [apply map_ext; now intros [c s]|].
  split; [apply map_ext; now intros [c s]|].
  split; [exact canonical_name_cases|].
  intros c Hc Hinj. unfold canonical_name.
  rewrite last_match_None; [reflexivity|].
  intros w0 Hw0. unfold name_matches.
  destruct (String.eqb_spec (normalise str_lower c) (normalise str_lower w0))
    as [He|]; [|reflexivity].
  rewrite (Hinj w0 Hw0 He). now rewrite String.eqb_refl.
Qed.

Lemma CheckColumnsExist_run_eq (df : DataFrame) (cache : loc)
    (attrs : attributes) (w : world) :
  CheckColumnsExist_run
    {| self_df := Some df; self_cache := cache; self_attributes := attrs |} w
  = match check_columns columns_to_check df with
    | Ok _ => (Ok (Some df, cache), w)
    | Raise e => (Raise e, w)
    end.
Proof.
  unfold CheckColumnsExist_run, the_df. run_monad. cbn [self_df self_cache].
  destruct (check_columns columns_to_check df); reflexivity.
Qed.

Lemma check_columns_Ok (df : DataFrame) :
  check_columns columns_to_check df = Ok tt
  <-> forall c, In c columns_to_check -> has_column df c = true.
Proof.
  rewrite <- missing_columns_nil, check_columns_first_missing.
  fold (missing_columns df).
  destruct (missing_columns df); split; (reflexivity || discriminate).
Qed.

(** X7: The two checks together: when the required names differ once spaces
    are removed and case is ignored, a dataset passes [CheckColumnsExist]
    after [CheckColumnNames] exactly when it has, for every required name,
    a column with that name up to spaces and case. *)
Theorem required_columns_up_to_case_and_spaces (df : DataFrame)
    (cache : loc) (attrs : attributes) (w : world) :
  (forall w1 w2, In w1 columns_to_check -> In w2 columns_to_check ->
     normalise str_lower w1 = normalise str_lower w2 -> w1 = w2) ->
  exists df',
    CheckColumnNames_run str_lower
      {| self_df := Some df; self_cache := cache; self_attributes := attrs |} w
    = (Ok (Some df', cache), w)
    /\ ((forall w0, In w0 columns_to_check ->
           exists c, In c (df_columns df)
                     /\ normalise str_lower c = normalise str_lower w0)
        <-> CheckColumnsExist_run
              {| self_df := Some df'; self_cache := cache;
                 self_attributes := attrs |} w
            = (Ok (Some df', cache), w)).
Proof.
  intros Hinj. eexists. split; [apply CheckColumnNames_run_eq|].
  rewrite CheckColumnsExist_run_eq.
  match goal with
  | |- _ <-> match check_columns _ ?d with _ => _ end = _ =>
      set (df' := d);
      assert (Hcols : df_columns df' = map canonical_name (df_columns df))
  end.
  { unfold df_columns, df'. cbn [cols]. rewrite !map_map.
    apply map_ext. now intros [c s]. }
  assert (Hpass : check_columns columns_to_check df' = Ok tt
                  <-> match check_columns columns_to_check df' with
                      | Ok _ => (Ok (Some df', cache), w)
                      | Raise e => (Raise e, w)
                      end = (Ok (Some df', cache), w)).
  { destruct (check_columns columns_to_check df') as [[]|e];
      split; (reflexivity || discriminate). }
  rewrite <- Hpass, check_columns_Ok. unfold has_column. rewrite Hcols.
  split.
  - intros H w0 Hw0. destruct (H w0 Hw0) as (c & Hc & He).
    apply existsb_exists. exists (canonical_name c).
    split; [now apply in_map|]. apply String.eqb_eq.
    unfold canonical_name.
    destruct (String.eqb_spec c w0) as [->|Hne].
    + rewrite last_match_None; [reflexivity|].
      intros w1 Hw1. unfold name_matches.
      destruct (String.eqb_spec (normalise str_lower w0)
                  (normalise str_lower w1)) as [He1|]; [|reflexivity].
      rewrite (Hinj _ _ Hw0 Hw1 He1). now rewrite String.eqb_refl.
    + assert (Hm : name_matches c w0 = true).
      { unfold name_matches. rewrite He, String.eqb_refl.
        now destruct (String.eqb_spec c w0). }
      destruct (last_match_exists _ _ _ Hw0 Hm) as [w1 Hw1].
      rewrite Hw1. cbn.
      destruct (last_match_Some _ _ _ Hw1) as [Hin1 Hm1].
      unfold name_matches in Hm1. apply andb_true_iff in Hm1.
      destruct Hm1 as [He1 _]. apply String.eqb_eq in He1.
      apply (Hinj _ _ Hw0 Hin1). congruence.
  - intros H w0 Hw0. specialize (H w0 Hw0).
    apply existsb_exists in H. destruct H as (c' & Hin & He).
    apply String.eqb_eq in He. subst c'.
    apply in_map_iff in Hin. destruct Hin as (c & Hc & Hin).
    exists c. split; [exact Hin|].
    destruct (canonical_name_cases c) as [E | (_ & E & _)]; congruence.
Qed.

End ColumnNames.

(** [str.lower] on ASCII text. *)
Definition ascii_lower (a : ascii) : ascii :=
  let n := nat_of_ascii a in
  if (65 <=? n)%nat && (n <=? 90)%nat then ascii_of_nat (n + 32) else a.

Fixpoint lower_ascii (s : string) : string :=
  match s with
  | EmptyString => EmptyString
  | String a s' => String (ascii_lower a) (lower_ascii s')
  end.

Lemma required_names_differ :
  forall w1 w2, In w1 columns_to_check -> In w2 columns_to_check ->
    normalise lower_ascii w1 = normalise lower_ascii w2 -> w1 = w2.
Proof.
  intros w1 w2 H1 H2.
  cbn [In columns_to_check] in H1, H2.
  repeat (destruct H1 as [<-|H1]); try contradiction;
    repeat (destruct H2 as [<-|H2]); try contradiction;
    intros H; try reflexivity; vm_compute in H; discriminate H.
Defined.

Definition sloppy_names : DataFrame :=
  {| nrows := 1;
     cols := [("amount awarded", [CNum 10]);
              ("FundingOrg:0:Name", [CStr "A"]);
              ("Award Date", [CStr "2019-01-01"]);
              ("RECIPIENT ORG:0:NAME", [CStr "B"]);
              ("Recipient Org:0:Identifier", [CStr "GB-CHC-1"]);
              ("Title", [CStr "T"])] |}.

Lemma required_columns_up_to_case_and_spaces_witness :
  exists df',
    CheckColumnNames_run lower_ascii
      {| self_df := Some sloppy_names; self_cache := 1%positive;
         self_attributes := no_attributes |} no_job_world
    = (Ok (Some df', 1%positive), no_job_world)
    /\ ((forall w0, In w0 columns_to_check ->
           exists c, In c (df_columns sloppy_names)
                     /\ normalise lower_ascii c = normalise lower_ascii w0)
        <-> CheckColumnsExist_run
              {| self_df := Some df'; self_cache := 1%positive;
                 self_attributes := no_attributes |} no_job_world
            = (Ok (Some df', 1%positive), no_job_world)).
Proof.
  exact (required_columns_up_to_case_and_spaces lower_ascii sloppy_names
           1%positive no_attributes no_job_world required_names_differ).
Defined.

Example sloppy_names_pass :
  (df <- CheckColumnNames_run lower_ascii
           {| self_df := Some sloppy_names; self_cache := 1%positive;
              self_attributes := no_attributes |} ;;
   r <- CheckColumnsExist_run
          {| self_df := fst df; self_cache := snd df;
             self_attributes := no_attributes |} ;;
   ret (option_map df_columns (fst r))) no_job_world
  = (Ok (Some ["Amount Awarded"; "Funding Org:0:Name"; "Award Date";
               "Recipient Org:0:Name"; "Recipient Org:0:Identifier";
               "Title"]), no_job_world).
Proof. vm_compute. reflexivity. Qed.

(** ** The lookup stages: the whole effect of a loop *)

(** What [DataPreparationStage._progress_job(a, b)] does to a job whose
    meta has a progress entry. *)
Definition progressed (a b : nat) (j : job_handle) : job_handle :=
  match meta_progress (meta j) with
  | Some p =>
      save_meta
        {| meta := {| meta_stages := meta_stages (meta j);
                      meta_progress :=
                        Some {| stage := stage p; progress := Some (a, b) |} |};
           saved := saved j |}
  | None => j
  end.

Definition with_job (f : job_handle -> job_handle) (w : world) : world :=
  {| w_heap := w_heap w; w_job := option_map f (w_job w);
     w_requests := w_requests w |}.

(** The reports of a loop over the items numbered [items]. *)
Definition reports (total : nat) (items : list nat) (j : job_handle)
  : job_handle :=
  fold_left (fun j i => progressed i total j) items j.

(** The meta that a report of item [i] of [total] saves. *)
Definition progress_meta (names : option (list string)) (s : nat)
    (total i : nat) : job_meta :=
  {| meta_stages := names;
     meta_progress := Some {| stage := s; progress := Some (i, total) |} |}.

Lemma stage_progress_job_run (w : world) (a b : nat) :
  job_ready w ->
  stage_progress_job a b w = (Ok tt, with_job (progressed a b) w).
Proof.
  unfold job_ready, stage_progress_job, with_job, progressed. run_monad.
  destruct w as [h [j|] rq]; cbn.
  - intros [p Hp]. now rewrite Hp.
  - reflexivity.
Qed.

Lemma job_ready_progressed (w : world) (a b : nat) :
  job_ready w -> job_ready (with_job (progressed a b) w).
Proof.
  unfold job_ready, with_job, progressed. destruct (w_job w) as [j|]; cbn;
    [|trivial].
  intros [p Hp]. rewrite Hp. cbn. eauto.
Qed.

Lemma reports_cons (total a : nat) (l : list nat) (j : job_handle) :
  reports total (a :: l) j = reports total l (progressed a total j).
Proof. reflexivity. Qed.

Lemma reports_saved (total : nat) (n : nat) :
  forall (a : nat) (j : job_handle) (p : progress_state),
  meta_progress (meta j) = Some p ->
  saved (reports total (seq a n) j)
  = (map (progress_meta (meta_stages (meta j)) (stage p) total)
       (rev (seq a n)) ++ saved j)%list
  /\ meta (reports total (seq a n) j)
     = match n with
       | O => meta j
       | S m => progress_meta (meta_stages (meta j)) (stage p) total (a + m)
       end.
Proof.
  induction n as [|n IH]; intros a j p Hp; [split; reflexivity|].
  cbn [seq]. rewrite reports_cons.
  set (j1 := progressed a total j).
  assert (Hj1 : j1 = save_meta
                  {| meta := progress_meta (meta_stages (meta j)) (stage p)
                               total a;
                     saved := saved j |})
    by (unfold j1, progressed; now rewrite Hp).
  destruct (IH (S a) j1 {| stage := stage p; progress := Some (a, total) |})
    as [Hs Hm]; [now rewrite Hj1|].
  split.
  - rewrite Hs, Hj1. cbn [save_meta meta saved progress_meta meta_stages stage].
    cbn [rev]. rewrite map_app, <- app_assoc. reflexivity.
  - rewrite Hm, Hj1. cbn [save_meta meta progress_meta meta_stages stage].
    destruct n as [|m]; [now rewrite Nat.add_0_r|].
    now rewrite Nat.add_succ_r.
Qed.

Lemma is_hit_update (h : heap) (ns : loc) (d : pydict) (k x : cell)
    (v : pyval) :
  h !! ns = Some d -> k <> x ->
  is_hit (<[ns := dict_set d k v]> h) (dict_set d k v) x = is_hit h d x.
Proof.
  intros Hd Hne. unfold is_hit. rewrite dict_get_set_ne by exact Hne.
  destruct (dict_get d x) as [[j|l]|] eqn:Hx; [reflexivity| |reflexivity].
  cbn [truthy]. destruct (decide (l = ns)) as [->|Hl].
  - rewrite lookup_insert_eq, Hd.
    destruct d as [|[k0 v0] d]; [discriminate Hx|].
    cbn [dict_set]. now destruct (cell_eqb k0 k).
  - now rewrite lookup_insert_ne by congruence.
Qed.

Lemma flat_map_singleton {A B} (f : A -> B) (l : list A) :
  flat_map (fun x => [f x]) l = map f l.
Proof. induction l as [|a l IH]; cbn; [reflexivity | now rewrite IH]. Qed.

Section LookupLoopSpec.
Variable nsn : string.
Variable outcome : cell -> result pyval.
Variable urls : cell -> list string.
Variable caught : pyexc -> bool.
Variable self : stage_self.
Variable ns : loc.
Hypothesis Hcache : self_cache self <> ns.

(** The entry of an item the loop has processed. *)
Definition stored (h : heap) (d : pydict) (x : cell) : option pyval :=
  if is_hit h d x then Some (VRef ns)
  else match outcome x with
       | Ok v => Some v
       | Raise _ => dict_get d x
       end.

Definition is_miss (h : heap) (d : pydict) (x : cell) : bool :=
  negb (is_hit h d x).

Lemma lookup_item_spec (w : world) (d : pydict) (key : cell) :
  namespace_at w (self_cache self) nsn ns d ->
  (forall e, is_hit (w_heap w) d key = false -> outcome key = Raise e ->
             caught e = true) ->
  exists w2 d2,
    lookup_item nsn outcome urls caught self key w = (Ok tt, w2)
    /\ namespace_at w2 (self_cache self) nsn ns d2
    /\ w_job w2 = w_job w
    /\ (forall l, l <> ns -> w_heap w2 !! l = w_heap w !! l)
    /\ (forall x, key <> x ->
          dict_get d2 x = dict_get d x
          /\ is_hit (w_heap w2) d2 x = is_hit (w_heap w) d x)
    /\ dict_get d2 key = stored (w_heap w) d key
    /\ w_requests w2
       = ((if is_hit (w_heap w) d key then [] else urls key)
          ++ w_requests w)%list.
Proof.
  intros Hns Hcaught.
  assert (Hd : w_heap w !! ns = Some d)
    by (destruct Hns as (? & _ & _ & H); exact H).
  unfold stored. destruct (is_hit (w_heap w) d key) eqn:Hhit.
  - rewrite (lookup_item_hit _ _ _ _ _ _ _ _ _ Hns Hhit).
    eexists. exists (dict_set d key (VRef ns)).
    split; [reflexivity|].
    split; [exact (namespace_at_update w _ _ _ _ _ Hcache Hns)|].
    split; [reflexivity|].
    split; [intros l Hl; cbn; now rewrite lookup_insert_ne by congruence|].
    split; [|split; [apply dict_get_set_eq | reflexivity]].
    intros x Hx. split; [now apply dict_get_set_ne|].
    cbn. now apply is_hit_update.
  - rewrite (lookup_item_miss _ _ _ _ _ _ _ _ _ Hns Hhit).
    destruct (outcome key) as [v|e] eqn:Hout.
    + eexists. exists (dict_set d key v).
      split; [reflexivity|].
      split; [exact (namespace_at_update
                       (add_requests (urls key) w) _ _ _ _ _ Hcache Hns)|].
      split; [reflexivity|].
      split; [intros l Hl; cbn; now rewrite lookup_insert_ne by congruence|].
      split; [|split; [apply dict_get_set_eq | reflexivity]].
      intros x Hx. split; [now apply dict_get_set_ne|].
      cbn. now apply is_hit_update.
    + rewrite (Hcaught e eq_refl eq_refl).
      eexists. exists d.
      split; [reflexivity|]. split; [exact Hns|].
      repeat split; reflexivity.
Qed.

(** A loop over distinct items whose fetches raise nothing but what the
    [except] clause catches returns, and this is the state it leaves. *)
Lemma lookup_loop_spec (total : nat) (keys : list cell) :
  forall (k : nat) (w : world) (d : pydict),
  job_ready w ->
  namespace_at w (self_cache self) nsn ns d ->
  NoDup keys ->
  (forall x e, In x keys -> is_hit (w_heap w) d x = false ->
               outcome x = Raise e -> caught e = true) ->
  exists w' d',
    lookup_loop nsn outcome urls caught self total k keys w = (Ok tt, w')
    /\ namespace_at w' (self_cache self) nsn ns d'
    /\ (forall l, l <> ns -> w_heap w' !! l = w_heap w !! l)
    /\ (forall x, ~ In x keys -> dict_get d' x = dict_get d x)
    /\ (forall x, In x keys -> dict_get d' x = stored (w_heap w) d x)
    /\ w_requests w'
       = (flat_map urls (rev (List.filter (is_miss (w_heap w) d) keys))
          ++ w_requests w)%list
    /\ w_job w'
       = option_map (reports total (seq (k + 1) (length keys))) (w_job w).
Proof.
  induction keys as [|key rest IH]; intros k w d Hjob Hns Hnd Hcaught.
  - exists w, d. cbn. repeat split; try tauto.
    now destruct (w_job w).
  - cbn [lookup_loop]. unfold bind at 1.
    rewrite (stage_progress_job_run w (k + 1) total Hjob).
    set (w1 := with_job (progressed (k + 1) total) w).
    assert (Hns1 : namespace_at w1 (self_cache self) nsn ns d)
      by exact Hns.
    apply NoDup_cons in Hnd. destruct Hnd as [Hkey Hnd].
    destruct (lookup_item_spec w1 d key Hns1) as
      (w2 & d2 & Hitem & Hns2 & Hjob2 & Hheap2 & Hother & Hkeyd & Hreq2).
    { intros e He Ho. exact (Hcaught key e (or_introl eq_refl) He Ho). }
    unfold bind at 1. rewrite Hitem.
    assert (Hne : forall x, In x rest -> key <> x)
      by (intros x Hx ->; apply Hkey; now apply list_elem_of_In).
    destruct (IH (k + 1) w2 d2) as
      (w' & d' & Hloop & Hns' & Hheap' & Hout' & Hin' & Hreq' & Hjob').
    { unfold job_ready. rewrite Hjob2.
      exact (job_ready_progressed w (k + 1) total Hjob). }
    { exact Hns2. }
    { exact Hnd. }
    { intros x e Hx Hh Ho. apply (Hcaught x e (or_intror Hx)); [|exact Ho].
      rewrite (proj2 (Hother x (Hne x Hx))) in Hh. exact Hh. }
    exists w', d'. split; [exact Hloop|]. split; [exact Hns'|].
    split; [intros l Hl; rewrite (Hheap' l Hl); exact (Hheap2 l Hl)|].
    split.
    { intros x Hx. rewrite Hout' by (intros H; apply Hx; now right).
      apply Hother. intros ->. apply Hx. now left. }
    split.
    { intros x [<-|Hx].
      - rewrite Hout'; [exact Hkeyd|].
        intros H. apply Hkey. now apply list_elem_of_In.
      - rewrite (Hin' x Hx). unfold stored.
        destruct (Hother x (Hne x Hx)) as [-> ->]. reflexivity. }
    split.
    { rewrite Hreq', Hreq2.
      rewrite (List.filter_ext_in (is_miss (w_heap w2) d2)
                 (is_miss (w_heap w) d) rest)
        by (intros x Hx; unfold is_miss;
            now rewrite (proj2 (Hother x (Hne x Hx)))).
      cbn [List.filter].
      change (is_miss (w_heap w) d key) with (negb (is_hit (w_heap w) d key)).
      change (w_heap w1) with (w_heap w).
      change (w_requests w1) with (w_requests w).
      destruct (is_hit (w_heap w) d key); cbn [negb]; [reflexivity|].
      cbn [rev]. rewrite flat_map_app. cbn [flat_map].
      now rewrite app_nil_r, <- app_assoc. }
    rewrite Hjob', Hjob2. unfold w1, with_job. cbn [w_job length seq].
    destruct (w_job w) as [j|]; [|reflexivity].
    cbn [option_map]. rewrite reports_cons.
    now rewrite (Nat.add_1_r (k + 1)).
Qed.

End LookupLoopSpec.

(** What a job records during a loop: nothing without a job; with one, a
    saved report [(i, total)] for each item in turn, the stage number and
    the stage names as they were. *)
Definition progress_recorded (total k n : nat) (w w' : world) : Prop :=
  match w_job w with
  | None => w_job w' = None
  | Some j =>
      exists p j',
        meta_progress (meta j) = Some p
        /\ w_job w' = Some j'
        /\ saved j'
           = (map (progress_meta (meta_stages (meta j)) (stage p) total)
                (rev (seq (k + 1) n)) ++ saved j)%list
        /\ meta j'
           = match n with
             | O => meta j
             | S _ => progress_meta (meta_stages (meta j)) (stage p) total
                        (k + n)
             end
  end.

Lemma reports_recorded (total k n : nat) (w w' : world) :
  job_ready w ->
  w_job w' = option_map (reports total (seq (k + 1) n)) (w_job w) ->
  progress_recorded total k n w w'.
Proof.
  unfold job_ready, progress_recorded.
  destruct (w_job w) as [j|]; [|now intros _ ->].
  intros [p Hp] ->. exists p. eexists. split; [exact Hp|].
  split; [reflexivity|].
  destruct (reports_saved total n (k + 1) j p Hp) as [Hs Hm].
  split; [exact Hs|]. rewrite Hm.
  destruct n as [|m]; [reflexivity|]. f_equal. lia.
Qed.

Section LookupStages.
Variable requests_get_json : string -> result json.
Variable format_num : Q -> string.
Variable self : stage_self.
Variable total k : nat.
Variable keys : list cell.
Variable w : world.
Variable ns : loc.
Variable d : pydict.

Hypothesis Hjob : job_ready w.
Hypothesis Hcache : self_cache self <> ns.
Hypothesis Hkeys : NoDup keys.

(** The three loops, each with the state it leaves. *)
Lemma charity_loop_spec :
  namespace_at w (self_cache self) "charity" ns d ->
  (forall x e, In x keys -> is_miss (w_heap w) d x = true ->
     requests_get_json (charity_url format_num x) = Raise e ->
     is_ValueError e = true) ->
  exists w' d',
    charity_loop requests_get_json format_num self total k keys w = (Ok tt, w')
    /\ namespace_at w' (self_cache self) "charity" ns d'
    /\ (forall l, l <> ns -> w_heap w' !! l = w_heap w !! l)
    /\ (forall x, ~ In x keys -> dict_get d' x = dict_get d x)
    /\ (forall x, In x keys ->
          dict_get d' x
          = stored (charity_outcome requests_get_json format_num) ns
              (w_heap w) d x)
    /\ w_requests w'
       = (map (charity_url format_num)
            (rev (List.filter (is_miss (w_heap w) d) keys))
          ++ w_requests w)%list
    /\ progress_recorded total k (length keys) w w'.
Proof.
  intros Hns Hc.
  destruct (lookup_loop_spec "charity"
              (charity_outcome requests_get_json format_num)
              (fun x => [charity_url format_num x]) is_ValueError
              self ns Hcache total keys k w d Hjob Hns Hkeys)
    as (w' & d' & Hloop & Hns' & Hheap & Hout & Hin & Hreq & Hjobs).
  { intros x e Hx Hh Ho. apply (Hc x e Hx).
    - unfold is_miss. now rewrite Hh.
    - now apply json_outcome_raise. }
  exists w', d'. rewrite charity_loop_eq.
  split; [exact Hloop|]. split; [exact Hns'|]. split; [exact Hheap|].
  split; [exact Hout|]. split; [exact Hin|].
  split; [now rewrite Hreq, flat_map_singleton|].
  now apply reports_recorded.
Qed.

Lemma company_loop_spec :
  namespace_at w (self_cache self) "company" ns d ->
  (forall x e, In x keys -> is_miss (w_heap w) d x = true ->
     company_outcome requests_get_json x = Raise e ->
     is_ValueError e = true) ->
  exists w' d',
    company_loop requests_get_json self total k keys w = (Ok tt, w')
    /\ namespace_at w' (self_cache self) "company" ns d'
    /\ (forall l, l <> ns -> w_heap w' !! l = w_heap w !! l)
    /\ (forall x, ~ In x keys -> dict_get d' x = dict_get d x)
    /\ (forall x, In x keys ->
          dict_get d' x
          = stored (company_outcome requests_get_json) ns (w_heap w) d x)
    /\ w_requests w'
       = (flat_map company_urls
            (rev (List.filter (is_miss (w_heap w) d) keys))
          ++ w_requests w)%list
    /\ progress_recorded total k (length keys) w w'.
Proof.
  intros Hns Hc.
  destruct (lookup_loop_spec "company"
              (company_outcome requests_get_json) company_urls is_ValueError
              self ns Hcache total keys k w d Hjob Hns Hkeys)
    as (w' & d' & Hloop & Hns' & Hheap & Hout & Hin & Hreq & Hjobs).
  { intros x e Hx Hh Ho. apply (Hc x e Hx); [|exact Ho].
    unfold is_miss. now rewrite Hh. }
  exists w', d'. rewrite company_loop_eq.
  split; [exact Hloop|]. split; [exact Hns'|]. split; [exact Hheap|].
  split; [exact Hout|]. split; [exact Hin|]. split; [exact Hreq|].
  now apply reports_recorded.
Qed.

Lemma postcode_loop_spec :
  namespace_at w (self_cache self) "postcode" ns d ->
  (forall x e, In x keys -> is_miss (w_heap w) d x = true ->
     requests_get_json (postcode_url format_num x) = Raise e ->
     is_JSONDecodeError e = true) ->
  exists w' d',
    postcode_loop requests_get_json format_num self total k keys w
    = (Ok tt, w')
    /\ namespace_at w' (self_cache self) "postcode" ns d'
    /\ (forall l, l <> ns -> w_heap w' !! l = w_heap w !! l)
    /\ (forall x, ~ In x keys -> dict_get d' x = dict_get d x)
    /\ (forall x, In x keys ->
          dict_get d' x
          = stored (postcode_outcome requests_get_json format_num) ns
              (w_heap w) d x)
    /\ w_requests w'
       = (map (postcode_url format_num)
            (rev (List.filter (is_miss (w_heap w) d) keys))
          ++ w_requests w)%list
    /\ progress_recorded total k (length keys) w w'.
Proof.
  intros Hns Hc.
  destruct (lookup_loop_spec "postcode"
              (postcode_outcome requests_get_json format_num)
              (fun x => [postcode_url format_num x]) is_JSONDecodeError
              self ns Hcache total keys k w d Hjob Hns Hkeys)
    as (w' & d' & Hloop & Hns' & Hheap & Hout & Hin & Hreq & Hjobs).
  { intros x e Hx Hh Ho. apply (Hc x e Hx).
    - unfold is_miss. now rewrite Hh.
    - now apply json_outcome_raise. }
  exists w', d'. rewrite postcode_loop_eq.
  split; [exact Hloop|]. split; [exact Hns'|]. split; [exact Hheap|].
  split; [exact Hout|]. split; [exact Hin|].
  split; [now rewrite Hreq, flat_map_singleton|].
  now apply reports_recorded.
Qed.

End LookupStages.

(** X8: In a lookup loop over distinct items that returns, the URLs requested
    are those of the items that were no hits when the loop started, one
    request each, in the order of the items (the log has the newest
    first); nothing is requested for a hit. *)
Theorem lookup_fetches_each_miss_once
    (requests_get_json : string -> result json) (format_num : Q -> string)
    (self : stage_self) (total k : nat) (keys : list cell) (w : world)
    (ns : loc) (d : pydict) :
  job_ready w -> self_cache self <> ns -> NoDup keys ->
  (* LookupCharityDetails *)
  (namespace_at w (self_cache self) "charity" ns d ->
   (forall x e, In x keys -> is_miss (w_heap w) d x = true ->
      requests_get_json (charity_url format_num x) = Raise e ->
      is_ValueError e = true) ->
   exists w',
     charity_loop requests_get_json format_num self total k keys w
     = (Ok tt, w')
     /\ w_requests w'
        = (map (charity_url format_num)
             (rev (List.filter (is_miss (w_heap w) d) keys))
           ++ w_requests w)%list)
  (* LookupCompanyDetails *)
  /\ (namespace_at w (self_cache self) "company" ns d ->
      (forall x e, In x keys -> is_miss (w_heap w) d x = true ->
         company_outcome requests_get_json x = Raise e ->
         is_ValueError e = true) ->
      exists w',
        company_loop requests_get_json self total k keys w = (Ok tt, w')
        /\ w_requests w'
           = (flat_map company_urls
                (rev (List.filter (is_miss (w_heap w) d) keys))
              ++ w_requests w)%list)
  (* FetchPostcodes *)
  /\ (namespace_at w (self_cache self) "postcode" ns d ->
      (forall x e, In x keys -> is_miss (w_heap w) d x = true ->
         requests_get_json (postcode_url format_num x) = Raise e ->
         is_JSONDecodeError e = true) ->
      exists w',
        postcode_loop requests_get_json format_num self total k keys w
        = (Ok tt, w')
        /\ w_requests w'
           = (map (postcode_url format_num)
                (rev (List.filter (is_miss (w_heap w) d) keys))
              ++ w_requests w)%list).
Proof.
  intros Hjob Hne Hnd. split; [|split]; intros Hns Hc.
  - destruct (charity_loop_spec requests_get_json format_num self total k
                keys w ns d Hjob Hne Hnd Hns Hc)
      as (w' & d' & Hloop & _ & _ & _ & _ & Hreq & _). eauto.
  - destruct (company_loop_spec requests_get_json self total k
                keys w ns d Hjob Hne Hnd Hns Hc)
      as (w' & d' & Hloop & _ & _ & _ & _ & Hreq & _). eauto.
  - destruct (postcode_loop_spec requests_get_json format_num self total k
                keys w ns d Hjob Hne Hnd Hns Hc)
      as (w' & d' & Hloop & _ & _ & _ & _ & Hreq & _). eauto.
Qed.

(** X9: In a lookup loop over distinct items that returns, the document
    fetched for an item that was no hit is what the namespace holds under
    that item afterwards, whatever the document is; the entries of the
    identifiers that are not among the items stay as they were, and so do
    the other dictionaries of the cache. *)
Theorem lookup_stores_what_it_fetches
    (requests_get_json : string -> result json) (format_num : Q -> string)
    (self : stage_self) (total k : nat) (keys : list cell) (w : world)
    (ns : loc) (d : pydict) :
  job_ready w -> self_cache self <> ns -> NoDup keys ->
  (* LookupCharityDetails *)
  (namespace_at w (self_cache self) "charity" ns d ->
   (forall x e, In x keys -> is_miss (w_heap w) d x = true ->
      requests_get_json (charity_url format_num x) = Raise e ->
      is_ValueError e = true) ->
   exists w' d',
     charity_loop requests_get_json format_num self total k keys w
     = (Ok tt, w')
     /\ namespace_at w' (self_cache self) "charity" ns d'
     /\ (forall x j, In x keys -> is_miss (w_heap w) d x = true ->
           requests_get_json (charity_url format_num x) = Ok j ->
           dict_get d' x = Some (VJson j))
     /\ (forall x, ~ In x keys -> dict_get d' x = dict_get d x)
     /\ (forall l, l <> ns -> w_heap w' !! l = w_heap w !! l))
  (* LookupCompanyDetails *)
  /\ (namespace_at w (self_cache self) "company" ns d ->
      (forall x e, In x keys -> is_miss (w_heap w) d x = true ->
         company_outcome requests_get_json x = Raise e ->
         is_ValueError e = true) ->
      exists w' d',
        company_loop requests_get_json self total k keys w = (Ok tt, w')
        /\ namespace_at w' (self_cache self) "company" ns d'
        /\ (forall s j, In (CStr s) keys ->
              is_miss (w_heap w) d (CStr s) = true ->
              requests_get_json (company_url s) = Ok j ->
              dict_get d' (CStr s) = Some (VJson j))
        /\ (forall x, ~ In x keys -> dict_get d' x = dict_get d x)
        /\ (forall l, l <> ns -> w_heap w' !! l = w_heap w !! l))
  (* FetchPostcodes *)
  /\ (namespace_at w (self_cache self) "postcode" ns d ->
      (forall x e, In x keys -> is_miss (w_heap w) d x = true ->
         requests_get_json (postcode_url format_num x) = Raise e ->
         is_JSONDecodeError e = true) ->
      exists w' d',
        postcode_loop requests_get_json format_num self total k keys w
        = (Ok tt, w')
        /\ namespace_at w' (self_cache self) "postcode" ns d'
        /\ (forall x j, In x keys -> is_miss (w_heap w) d x = true ->
              requests_get_json (postcode_url format_num x) = Ok j ->
              dict_get d' x = Some (VJson j))
        /\ (forall x, ~ In x keys -> dict_get d' x = dict_get d x)
        /\ (forall l, l <> ns -> w_heap w' !! l = w_heap w !! l)).
Proof.
  intros Hjob Hne Hnd. split; [|split]; intros Hns Hc.
  - destruct (charity_loop_spec requests_get_json format_num self total k
                keys w ns d Hjob Hne Hnd Hns Hc)
      as (w' & d' & Hloop & Hns' & Hheap & Hout & Hin & _ & _).
    exists w', d'. repeat (split; [assumption|]).
    split; [|split; assumption].
    intros x j Hx Hm Hj. rewrite (Hin x Hx). unfold stored, charity_outcome.
    apply negb_true_iff in Hm. now rewrite Hm, Hj.
  - destruct (company_loop_spec requests_get_json self total k
                keys w ns d Hjob Hne Hnd Hns Hc)
      as (w' & d' & Hloop & Hns' & Hheap & Hout & Hin & _ & _).
    exists w', d'. repeat (split; [assumption|]).
    split; [|split; assumption].
    intros s j Hx Hm Hj. rewrite (Hin _ Hx). unfold stored, company_outcome.
    apply negb_true_iff in Hm. now rewrite Hm, Hj.
  - destruct (postcode_loop_spec requests_get_json format_num self total k
                keys w ns d Hjob Hne Hnd Hns Hc)
      as (w' & d' & Hloop & Hns' & Hheap & Hout & Hin & _ & _).
    exists w', d'. repeat (split; [assumption|]).
    split; [|split; assumption].
    intros x j Hx Hm Hj. rewrite (Hin x Hx). unfold stored, postcode_outcome.
    apply negb_true_iff in Hm. now rewrite Hm, Hj.
Qed.

(** X10: In a lookup loop that returns, a job that has a progress entry gets
    one saved report per item, [(k+1, total)], [(k+2, total)] and so on in
    turn, the last one being its meta at the end; the stage number and the
    stage names are not touched.  Without a job nothing is recorded. *)
Theorem lookup_reports_each_item
    (requests_get_json : string -> result json) (format_num : Q -> string)
    (self : stage_self) (total k : nat) (keys : list cell) (w : world)
    (ns : loc) (d : pydict) :
  job_ready w -> self_cache self <> ns -> NoDup keys ->
  (* LookupCharityDetails *)
  (namespace_at w (self_cache self) "charity" ns d ->
   (forall x e, In x keys -> is_miss (w_heap w) d x = true ->
      requests_get_json (charity_url format_num x) = Raise e ->
      is_ValueError e = true) ->
   exists w',
     charity_loop requests_get_json format_num self total k keys w
     = (Ok tt, w')
     /\ progress_recorded total k (length keys) w w')
  (* LookupCompanyDetails *)
  /\ (namespace_at w (self_cache self) "company" ns d ->
      (forall x e, In x keys -> is_miss (w_heap w) d x = true ->
         company_outcome requests_get_json x = Raise e ->
         is_ValueError e = true) ->
      exists w',
        company_loop requests_get_json self total k keys w = (Ok tt, w')
        /\ progress_recorded total k (length keys) w w')
  (* FetchPostcodes *)
  /\ (namespace_at w (self_cache self) "postcode" ns d ->
      (forall x e, In x keys -> is_miss (w_heap w) d x = true ->
         requests_get_json (postcode_url format_num x) = Raise e ->
         is_JSONDecodeError e = true) ->
      exists w',
        postcode_loop requests_get_json format_num self total k keys w
        = (Ok tt, w')
        /\ progress_recorded total k (length keys) w w').
Proof.
  intros Hjob Hne Hnd. split; [|split]; intros Hns Hc.
  - destruct (charity_loop_spec requests_get_json format_num self total k
                keys w ns d Hjob Hne Hnd Hns Hc)
      as (w' & d' & Hloop & _ & _ & _ & _ & _ & Hrec). eauto.
  - destruct (company_loop_spec requests_get_json self total k
                keys w ns d Hjob Hne Hnd Hns Hc)
      as (w' & d' & Hloop & _ & _ & _ & _ & _ & Hrec). eauto.
  - destruct (postcode_loop_spec requests_get_json format_num self total k
                keys w ns d Hjob Hne Hnd Hns Hc)
      as (w' & d' & Hloop & _ & _ & _ & _ & _ & Hrec). eauto.
Qed.

(** Three charities to look up from a worker: the first is in the cache,
    the registry answers the second with a malformed response. *)
Definition polled_job : job_handle :=
  {| meta := {| meta_stages := Some (map name stages);
                meta_progress := Some {| stage := 6; progress := None |} |};
     saved := [] |}.

Definition polled_world : world :=
  {| w_heap := known_charity_heap; w_job := Some polled_job;
     w_requests := [] |}.

Definition three_charities : list cell :=
  [CStr "GB-CHC-1"; CStr "GB-CHC-2"; CStr "GB-CHC-3"].

Lemma polled_job_ready : job_ready polled_world.
Proof. eexists. reflexivity. Defined.

Lemma polled_namespace :
  namespace_at polled_world (self_cache known_charity_self) "charity"
    2%positive known_charity.
Proof.
  eexists. split; [vm_compute; reflexivity|].
  split; vm_compute; reflexivity.
Defined.

Lemma three_charities_distinct : NoDup three_charities.
Proof.
  unfold three_charities.
  repeat (apply NoDup_cons_2; [intros H; repeat (apply elem_of_cons in H;
            destruct H as [H|H]; [discriminate H|]); inversion H|]).
  apply NoDup_nil_2.
Defined.

Lemma three_charities_malformed (x : cell) (e : pyexc) :
  In x three_charities ->
  is_miss (w_heap polled_world) known_charity x = true ->
  malformed_for_2 (charity_url (fun _ => "") x) = Raise e ->
  is_ValueError e = true.
Proof.
  intros _ _. unfold malformed_for_2.
  destruct (String.eqb _ _); [|discriminate].
  intros H. injection H as <-. reflexivity.
Defined.

Lemma lookup_fetches_each_miss_once_witness :
  exists w',
    charity_loop malformed_for_2 (fun _ => "") known_charity_self 3 0
      three_charities polled_world = (Ok tt, w')
    /\ w_requests w'
       = ["https://findthatcharity.uk/orgid/GB-CHC-3.json";
          "https://findthatcharity.uk/orgid/GB-CHC-2.json"].
Proof.
  destruct (proj1 (lookup_fetches_each_miss_once
                     malformed_for_2 (fun _ => "") known_charity_self 3 0
                     three_charities polled_world 2%positive known_charity
                     polled_job_ready ltac:(discriminate)
                     three_charities_distinct)
                  polled_namespace three_charities_malformed)
    as (w' & Hrun & Hreq).
  exists w'. split; [exact Hrun | exact Hreq].
Defined.

Lemma lookup_stores_what_it_fetches_witness :
  exists w' d',
    charity_loop malformed_for_2 (fun _ => "") known_charity_self 3 0
      three_charities polled_world = (Ok tt, w')
    /\ namespace_at w' 1%positive "charity" 2%positive d'
    /\ dict_get d' (CStr "GB-CHC-3")
       = Some (VJson (JObj [("id", JStr "GB-CHC-3")]))
    /\ dict_get d' (CStr "GB-CHC-9") = None.
Proof.
  destruct (proj1 (lookup_stores_what_it_fetches
                     malformed_for_2 (fun _ => "") known_charity_self 3 0
                     three_charities polled_world 2%positive known_charity
                     polled_job_ready ltac:(discriminate)
                     three_charities_distinct)
                  polled_namespace three_charities_malformed)
    as (w' & d' & Hrun & Hns & Hfetched & Hother & _).
  exists w', d'. split; [exact Hrun|]. split; [exact Hns|]. split.
  - apply Hfetched; [cbn; tauto | reflexivity | reflexivity].
  - rewrite Hother; [reflexivity|].
    cbn. intros [H|[H|[H|[]]]]; discriminate H.
Defined.

Lemma lookup_reports_each_item_witness :
  exists w' j',
    charity_loop malformed_for_2 (fun _ => "") known_charity_self 3 0
      three_charities polled_world = (Ok tt, w')
    /\ w_job w' = Some j'
    /\ map meta_progress (saved j')
       = [Some {| stage := 6; progress := Some (3, 3) |};
          Some {| stage := 6; progress := Some (2, 3) |};
          Some {| stage := 6; progress := Some (1, 3) |}]
    /\ meta_progress (meta j')
       = Some {| stage := 6; progress := Some (3, 3) |}.
Proof.
  destruct (proj1 (lookup_reports_each_item
                     malformed_for_2 (fun _ => "") known_charity_self 3 0
                     three_charities polled_world 2%positive known_charity
                     polled_job_ready ltac:(discriminate)
                     three_charities_distinct)
                  polled_namespace three_charities_malformed)
    as (w' & Hrun & p & j' & Hp & Hj & Hs & Hm).
  injection Hp as <-.
  exists w', j'. split; [exact Hrun|]. split; [exact Hj|].
  split; [now rewrite Hs | now rewrite Hm].
Defined.

(** ** Which items the lookup stages look up *)

Lemma existsb_cell_In (c : cell) (l : list cell) :
  existsb (cell_eqb c) l = true <-> In c l.
Proof.
  rewrite existsb_exists. split.
  - intros (y & Hy & E). apply cell_eqb_eq in E. now subst y.
  - intros H. exists c. split; [exact H | apply cell_eqb_refl].
Qed.

Lemma unique_from_In (s : Series) :
  forall (seen : list cell) (x : cell),
  In x (unique_from seen s) <-> In x s /\ ~ In x seen.
Proof.
  induction s as [|c s IH]; intros seen x; cbn [unique_from].
  - cbn. tauto.
  - destruct (existsb (cell_eqb c) seen) eqn:E.
    + apply existsb_cell_In in E. rewrite IH. cbn [In].
      split; [tauto|]. intros [[<-|H] Hs]; [contradiction | tauto].
    + assert (Hc : ~ In c seen)
        by (intros H; apply existsb_cell_In in H; congruence).
      cbn [In]. rewrite IH. cbn [In].
      destruct (decide (c = x)) as [->|Hne]; tauto.
Qed.

Lemma unique_from_NoDup (s : Series) :
  forall seen : list cell, NoDup (unique_from seen s).
Proof.
  induction s as [|c s IH]; intros seen; cbn [unique_from].
  - apply NoDup_nil_2.
  - destruct (existsb (cell_eqb c) seen); [apply IH|].
    apply NoDup_cons_2; [|apply IH].
    rewrite list_elem_of_In, unique_from_In. cbn. tauto.
Qed.

Lemma unique_In (s : Series) (x : cell) : In x (unique s) <-> In x s.
Proof. unfold unique. rewrite unique_from_In. cbn. tauto. Qed.

Lemma unique_NoDup (s : Series) : NoDup (unique s).
Proof. apply unique_from_NoDup. Qed.

Lemma select_In (mask : list bool) :
  forall (s : Series) (x : cell),
  In x (select mask s)
  <-> exists i, mask !! i = Some true /\ s !! i = Some x.
Proof.
  induction mask as [|m mask IH]; intros s x.
  - cbn. split; [tauto | now intros (i & H & _)].
  - destruct s as [|c s].
    + cbn. split; [tauto | now intros (i & _ & H)].
    + cbn [select]. split.
      * intros H.
        assert (Hc : (m = true /\ c = x) \/ In x (select mask s))
          by (destruct m; [destruct H; auto | auto]).
        destruct Hc as [[-> ->]|Hc]; [now exists 0|].
        apply IH in Hc. destruct Hc as (i & H1 & H2). now exists (S i).
      * intros ([|i] & H1 & H2); cbn in H1, H2.
        -- injection H1 as ->. injection H2 as ->. now left.
        -- assert (Hc : In x (select mask s)) by (apply IH; eauto).
           destruct m; [now right | exact Hc].
Qed.

Lemma dropna_In (s : Series) (x : cell) :
  In x (dropna s) <-> In x s /\ x <> CNull.
Proof.
  unfold dropna. rewrite <- !list_elem_of_In, list_elem_of_filter.
  destruct x; cbn; split; intros [H1 H2]; split; try assumption;
    congruence.
Qed.

Lemma map_lookup_Some {A B} (f : A -> B) (l : list A) (i : nat) (y : B) :
  map f l !! i = Some y <-> exists x, l !! i = Some x /\ y = f x.
Proof.
  revert i. induction l as [|a l IH]; intros [|i]; cbn.
  - split; [discriminate | now intros (x & H & _)].
  - split; [discriminate | now intros (x & H & _)].
  - split; [intros [= <-]; eauto | now intros (x & [= ->] & ->)].
  - apply IH.
Qed.

Lemma isin_true (schemes : Series) (values : list string) (i : nat) :
  isin schemes values !! i = Some true
  <-> exists s, schemes !! i = Some (CStr s) /\ In s values.
Proof.
  unfold isin. rewrite map_lookup_Some. split.
  - intros ([|s|q] & Hx & E); try discriminate E.
    exists s. split; [exact Hx|]. symmetry in E.
    apply existsb_exists in E. destruct E as (y & Hy & E).
    apply String.eqb_eq in E. now subst y.
  - intros (s & Hx & Hin). exists (CStr s). split; [exact Hx|].
    symmetry. apply existsb_exists. exists s.
    split; [exact Hin | apply String.eqb_refl].
Qed.

Lemma dict_get_None (d : pydict) (x : cell) :
  dict_get d x = None <-> ~ In x (map fst d).
Proof.
  induction d as [|[k v] d IH]; cbn; [tauto|].
  destruct (cell_eqb k x) eqn:E.
  - apply cell_eqb_eq in E. split; [discriminate | tauto].
  - apply cell_eqb_neq in E. rewrite IH. tauto.
Qed.

Abbreviation POSTAL := ("Recipient Org:0:Postal Code") (only parsing).

Section LookupSelection.
Variable requests_get_json : string -> result json.
Variable format_num : Q -> string.

(** X11: [LookupCharityDetails] looks up the distinct non-null clean
    identifiers of the rows whose scheme is one of [FTC_SCHEMES], each
    once: its loop runs over them, with their number as the total. *)
Theorem LookupCharityDetails_looks_up (df : DataFrame) (cache : loc)
    (attrs : attributes) (schemes clean : Series) :
  df_get df SCHEME = Ok schemes ->
  df_get df CLEAN = Ok clean ->
  let self := {| self_df := Some df; self_cache := cache;
                 self_attributes := attrs |} in
  exists ids,
    charity_orgids df = Ok ids
    /\ NoDup ids
    /\ (forall x, In x ids
          <-> x <> CNull
              /\ exists i s, schemes !! i = Some (CStr s)
                             /\ In s FTC_SCHEMES /\ clean !! i = Some x)
    /\ forall w,
         LookupCharityDetails_run requests_get_json format_num self w
         = match charity_loop requests_get_json format_num self
                   (length ids) 0 ids w with
           | (Ok _, w') => (Ok (Some df, cache), w')
           | (Raise e, w') => (Raise e, w')
           end.
Proof.
  intros Hs Hc self.
  exists (unique (dropna (select (isin schemes FTC_SCHEMES) clean))).
  assert (Hids : charity_orgids df
                 = Ok (unique (dropna (select (isin schemes FTC_SCHEMES)
                                         clean))))
    by (unfold charity_orgids; now rewrite Hs, Hc).
  split; [exact Hids|]. split; [apply unique_NoDup|]. split.
  - intros x. rewrite unique_In, dropna_In, select_In. split.
    + intros [(i & Hm & Hx) Hn]. split; [exact Hn|].
      apply isin_true in Hm. destruct Hm as (s & Hsi & Hin). eauto.
    + intros [Hn (i & s & Hsi & Hin & Hx)]. split; [|exact Hn].
      exists i. split; [|exact Hx]. apply isin_true. eauto.
  - intros w. unfold LookupCharityDetails_run, the_df.
    unfold bind at 1. unfold ret at 1. cbn [self_df self].
    unfold bind at 1. unfold lift at 1. rewrite Hids.
    unfold bind. now destruct (charity_loop _ _ _ _ _ _ w) as [[[]|e] w'].
Qed.

(** X12: [LookupCompanyDetails] looks up the distinct clean identifiers of the
    rows whose scheme is ["GB-COH"] and that are not keys of the charity
    namespace, whatever that namespace holds for a key; a null identifier
    of such a row is not left out. *)
Theorem LookupCompanyDetails_looks_up (df : DataFrame) (cache : loc)
    (attrs : attributes) (clean schemes : Series) (w : world) (nsc : loc)
    (dc : pydict) :
  df_get df CLEAN = Ok clean ->
  df_get df SCHEME = Ok schemes ->
  namespace_at w cache "charity" nsc dc ->
  let self := {| self_df := Some df; self_cache := cache;
                 self_attributes := attrs |} in
  exists ids,
    NoDup ids
    /\ (forall x, In x ids
          <-> exists i, clean !! i = Some x
                        /\ schemes !! i = Some (CStr "GB-COH")
                        /\ dict_get dc x = None)
    /\ LookupCompanyDetails_run requests_get_json self w
       = match company_loop requests_get_json self (length ids) 0 ids w with
         | (Ok _, w') => (Ok (Some df, cache), w')
         | (Raise e, w') => (Raise e, w')
         end.
Proof.
  intros Hc Hs Hns self.
  exists (unique (select (company_mask clean schemes (map fst dc)) clean)).
  split; [apply unique_NoDup|]. split.
  - intros x. rewrite unique_In, select_In. unfold company_mask. split.
    + intros (i & Hm & Hx). exists i. split; [exact Hx|].
      apply lookup_zip_with_Some in Hm.
      destruct Hm as (a & b & Hab & Ha & Hb).
      apply map_lookup_Some in Ha. destruct Ha as (c & Hci & ->).
      apply map_lookup_Some in Hb. destruct Hb as (s & Hsi & ->).
      assert (c = x) by congruence. subst c.
      symmetry in Hab. apply andb_true_iff in Hab. destruct Hab as [Hn He].
      apply cell_eqb_eq in He. subst s. split; [exact Hsi|].
      apply dict_get_None. intros Hin. apply existsb_cell_In in Hin.
      now rewrite Hin in Hn.
    + intros (i & Hx & Hsi & Hd). exists i. split; [|exact Hx].
      apply lookup_zip_with_Some.
      exists (negb (existsb (cell_eqb x) (map fst dc))),
             (cell_eqb (CStr "GB-COH") (CStr "GB-COH")).
      split; [|split; apply map_lookup_Some; eauto].
      rewrite cell_eqb_refl, andb_true_r. symmetry. apply negb_true_iff.
      destruct (existsb (cell_eqb x) (map fst dc)) eqn:E; [|reflexivity].
      apply existsb_cell_In in E. now apply dict_get_None in Hd.
  - unfold LookupCompanyDetails_run, the_df.
    unfold bind at 1. unfold ret at 1. cbn [self_df self].
    unfold bind at 1. unfold lift at 1. rewrite Hc.
    unfold bind at 1. unfold _get_orgid_index.
    unfold bind at 1. cbn [self_cache self].
    rewrite (namespace_resolves _ _ _ _ _ Hns).
    destruct Hns as (top & _ & _ & Hd).
    unfold bind at 1. rewrite (load_dict_at _ _ _ Hd). unfold ret at 1.
    unfold bind at 1. unfold lift at 1. rewrite Hs.
    unfold bind.
    now destruct (company_loop _ _ _ _ _ w) as [[[]|e] w'].
Qed.

(** X13: [FetchPostcodes] needs the column ["__org_postcode"]: it completes the
    recipient's postal code with it where that is null, or takes it as the
    postal code when the dataset has no such column; then it looks up the
    distinct non-null postal codes, each once, and returns the dataset
    with the completed column.  Without ["__org_postcode"] it raises
    [KeyError]. *)
Theorem FetchPostcodes_looks_up (df : DataFrame) (cache : loc)
    (attrs : attributes) :
  let self := {| self_df := Some df; self_cache := cache;
                 self_attributes := attrs |} in
  match assoc_get (cols df) "__org_postcode" with
  | None =>
      forall w,
        FetchPostcodes_run requests_get_json format_num self w
        = (Raise (KeyError "__org_postcode"), w)
  | Some org =>
      exists col pcs,
        col = match assoc_get (cols df) POSTAL with
              | Some own => fillna own org
              | None => org
              end
        /\ NoDup pcs
        /\ (forall x, In x pcs <-> In x col /\ x <> CNull)
        /\ forall w,
             FetchPostcodes_run requests_get_json format_num self w
             = match postcode_loop requests_get_json format_num self
                       (length pcs) 0 pcs w with
               | (Ok _, w') => (Ok (Some (df_set df POSTAL col), cache), w')
               | (Raise e, w') => (Raise e, w')
               end
  end.
Proof.
  intros self.
  assert (Hw : with_postal_code df
               = match assoc_get (cols df) "__org_postcode" with
                 | None => Raise (KeyError "__org_postcode")
                 | Some org =>
                     Ok (df_set df POSTAL
                           match assoc_get (cols df) POSTAL with
                           | Some own => fillna own org
                           | None => org
                           end)
                 end).
  { unfold with_postal_code. rewrite has_column_assoc. unfold df_get.
    destruct (assoc_get (cols df) POSTAL);
      destruct (assoc_get (cols df) "__org_postcode"); reflexivity. }
  destruct (assoc_get (cols df) "__org_postcode") as [org|].
  - eexists. exists (unique (dropna
                       match assoc_get (cols df) POSTAL with
                       | Some own => fillna own org
                       | None => org
                       end)).
    split; [reflexivity|]. split; [apply unique_NoDup|]. split.
    + intros x. now rewrite unique_In, dropna_In.
    + intros w. unfold FetchPostcodes_run, the_df.
      unfold bind at 1. unfold ret at 1. cbn [self_df self].
      unfold bind at 1. unfold lift at 1. rewrite Hw.
      unfold bind at 1. unfold lift at 1. rewrite df_get_set_eq.
      unfold bind.
      now destruct (postcode_loop _ _ _ _ _ _ w) as [[[]|e] w'].
  - intros w. unfold FetchPostcodes_run, the_df.
    unfold bind at 1. unfold ret at 1. cbn [self_df self].
    unfold bind at 1. unfold lift at 1. now rewrite Hw.
Qed.

End LookupSelection.

(** Five rows: two of one charity, one company, and two without a clean
    identifier. *)
Definition mixed_identifiers : DataFrame :=
  {| nrows := 5;
     cols := [(SCHEME, [CStr "GB-CHC"; CStr "360G"; CStr "GB-COH";
                        CStr "GB-CHC"; CStr "GB-SC"]);
              (CLEAN, [CStr "GB-CHC-1"; CNull; CStr "GB-COH-9";
                       CStr "GB-CHC-1"; CNull])] |}.

Lemma LookupCharityDetails_looks_up_witness :
  exists ids,
    charity_orgids mixed_identifiers = Ok ids
    /\ NoDup ids
    /\ ids = [CStr "GB-CHC-1"; CStr "GB-COH-9"].
Proof.
  destruct (LookupCharityDetails_looks_up (fun _ => Ok JNull) (fun _ => "")
              mixed_identifiers 1%positive no_attributes _ _
              eq_refl eq_refl)
    as (ids & Hids & Hnd & _).
  exists ids. split; [exact Hids|]. split; [exact Hnd|].
  vm_compute in Hids. now injection Hids as <-.
Defined.

Lemma LookupCompanyDetails_looks_up_witness :
  exists ids,
    NoDup ids
    /\ (In (CStr "GB-COH-9") ids)
    /\ LookupCompanyDetails_run (fun _ => Ok JNull)
         {| self_df := Some mixed_identifiers; self_cache := 1%positive;
            self_attributes := no_attributes |} known_charity_world
       = match company_loop (fun _ => Ok JNull)
                 {| self_df := Some mixed_identifiers;
                    self_cache := 1%positive;
                    self_attributes := no_attributes |}
                 (length ids) 0 ids known_charity_world with
         | (Ok _, w') => (Ok (Some mixed_identifiers, 1%positive), w')
         | (Raise e, w') => (Raise e, w')
         end.
Proof.
  destruct (LookupCompanyDetails_looks_up (fun _ => Ok JNull)
              mixed_identifiers 1%positive no_attributes _ _
              known_charity_world 2%positive known_charity
              eq_refl eq_refl known_charity_namespace)
    as (ids & Hnd & Hin & Hrun).
  exists ids. split; [exact Hnd|]. split; [|exact Hrun].
  apply Hin. exists 2. repeat split.
Defined.

(** ** From the merge to the postcodes: a cache with charities only *)
Section CharityOnly.
Variable requests_get_json : string -> result json.
Variable format_num : Q -> string.
Variable table_to_datetime : bool -> string -> Table -> result Table.
Variable table_add_age table_income_float : Table -> result Table.
Variable df_join : DataFrame -> Table -> string -> result DataFrame.

(** X14: When the charity table is built and the company namespace is empty,
    [MergeCompanyAndCharityDetails] returns the dataset without the
    organisation columns; run on what it returned, [FetchPostcodes] then
    raises [KeyError] for the column ["__org_postcode"], unless the
    dataset had one of its own. *)
Theorem charity_only_cache_fails_at_FetchPostcodes (df : DataFrame)
    (cache : loc) (attrs : attributes) (w w1 : world) (t : Table)
    (ns : loc) :
  let self := {| self_df := Some df; self_cache := cache;
                 self_attributes := attrs |} in
  _create_orgid_df table_to_datetime self w = (Ok t, w1) ->
  namespace_at w1 cache "company" ns [] ->
  has_column df "__org_postcode" = false ->
  MergeCompanyAndCharityDetails_run table_to_datetime table_add_age
    table_income_float df_join self w
  = (Ok (Some df, cache), w1)
  /\ FetchPostcodes_run requests_get_json format_num self w1
     = (Raise (KeyError "__org_postcode"), w1).
Proof.
  intros self Ht Hns Hcol. split.
  - exact (charity_only_returns_unchanged table_to_datetime table_add_age
             table_income_float df_join self w w1 t ns Ht Hns).
  - rewrite has_column_assoc in Hcol.
    unfold FetchPostcodes_run, the_df.
    unfold bind at 1. unfold ret at 1. cbn [self_df self].
    unfold bind at 1. unfold lift at 1.
    unfold with_postal_code. rewrite has_column_assoc. unfold df_get.
    destruct (assoc_get (cols df) "__org_postcode"); [discriminate Hcol|].
    now destruct (assoc_get (cols df) POSTAL).
Qed.

End CharityOnly.

Lemma known_charity_no_company :
  namespace_at known_charity_world 1%positive "company" 3%positive [].
Proof.
  eexists. split; [vm_compute; reflexivity|].
  split; vm_compute; reflexivity.
Defined.

Lemma charity_only_cache_fails_at_FetchPostcodes_witness :
  MergeCompanyAndCharityDetails_run
    (fun _ _ t => Ok t) (fun t => Ok t) (fun t => Ok t) (fun df _ _ => Ok df)
    known_charity_self known_charity_world
  = (Ok (self_df known_charity_self, 1%positive), known_charity_world)
  /\ FetchPostcodes_run (fun _ => Ok JNull) (fun _ => "")
       known_charity_self known_charity_world
     = (Raise (KeyError "__org_postcode"), known_charity_world).
Proof.
  eapply (charity_only_cache_fails_at_FetchPostcodes
            (fun _ => Ok JNull) (fun _ => "")
            (fun _ _ t => Ok t) (fun t => Ok t) (fun t => Ok t)
            (fun df _ _ => Ok df)).
  - vm_compute. reflexivity.
  - exact known_charity_no_company.
  - reflexivity.
Defined.

(** ** Stages that only read: the world is left as it was *)

(** A computation that leaves the world as it found it, whatever it
    returns. *)
Definition read_only {A} (m : M A) : Prop := forall w, snd (m w) = w.

Lemma read_only_ret {A} (a : A) : read_only (ret a).
Proof. now intros w. Qed.

Lemma read_only_raise {A} (e : pyexc) : read_only (@raise A e).
Proof. now intros w. Qed.

Lemma read_only_lift {A} (r : result A) : read_only (lift r).
Proof. now intros w. Qed.

Lemma read_only_bind {A B} (m : M A) (k : A -> M B) :
  read_only m -> (forall a, read_only (k a)) -> read_only (bind m k).
Proof.
  intros Hm Hk w. unfold bind. specialize (Hm w).
  destruct (m w) as [[a|e] w1]; cbn in Hm; subst w1; [apply Hk | reflexivity].
Qed.

Lemma read_only_get_heap : read_only get_heap.
Proof. now intros w. Qed.

Lemma read_only_load_dict (l : loc) : read_only (load_dict l).
Proof.
  unfold load_dict. apply read_only_bind; [apply read_only_get_heap|].
  intros h. destruct (h !! l); [apply read_only_ret | apply read_only_raise].
Qed.

Lemma read_only_getitem (l : loc) (k : cell) : read_only (getitem l k).
Proof.
  unfold getitem. apply read_only_bind; [apply read_only_load_dict|].
  intros d. destruct (dict_get d k);
    [apply read_only_ret | apply read_only_raise].
Qed.

Lemma read_only_namespace (cache : loc) (ns : string) :
  read_only (namespace cache ns).
Proof.
  unfold namespace. apply read_only_bind; [apply read_only_getitem|].
  intros [j|l]; [apply read_only_raise | apply read_only_ret].
Qed.

Lemma read_only_py_get (c : pyval) (k : string) (default : pyval) :
  read_only (py_get c k default).
Proof.
  unfold py_get. destruct c as [[]|l];
    try apply read_only_raise; try apply read_only_ret.
  apply read_only_bind; [apply read_only_load_dict|].
  intros d. apply read_only_ret.
Qed.

Lemma read_only_py_first (x : pyval) : read_only (py_first x).
Proof.
  unfold py_first. destruct x as [[| | |[|a s]|[|j items]|]|l];
    try apply read_only_raise; try apply read_only_ret.
  apply read_only_getitem.
Qed.

Lemma read_only_truthyM (v : pyval) : read_only (truthyM v).
Proof.
  unfold truthyM. apply read_only_bind; [apply read_only_get_heap|].
  intros h. apply read_only_ret.
Qed.

Lemma read_only_the_df (self : stage_self) : read_only (the_df self).
Proof.
  unfold the_df. destruct (self_df self);
    [apply read_only_ret | apply read_only_raise].
Qed.

Create HintDb read_only.
#[export] Hint Resolve read_only_ret read_only_raise read_only_lift
  read_only_get_heap read_only_load_dict read_only_getitem
  read_only_namespace read_only_py_get read_only_py_first
  read_only_truthyM read_only_the_df : read_only.

(** One step through a computation made of reads. *)
Ltac read_only_step :=
  match goal with
  | |- read_only (bind _ _) => apply read_only_bind; [|intros ?]
  | |- read_only (match ?x with _ => _ end) => destruct x
  | |- read_only (let _ := _ in _) => cbv zeta
  | |- read_only _ => solve [auto with read_only]
  end.

Lemma read_only_charity_record (k : cell) (c : pyval) :
  read_only (charity_record k c).
Proof. unfold charity_record. repeat read_only_step. Qed.

Lemma read_only_charity_records (items : pydict) :
  read_only (charity_records items).
Proof.
  induction items as [|[k c] items IH]; cbn [charity_records];
    [apply read_only_ret|].
  repeat read_only_step; try exact IH. apply read_only_charity_record.
Qed.

Lemma read_only_replace_category (category : pyval) :
  read_only (replace_category category).
Proof. unfold replace_category. repeat read_only_step. Qed.

Lemma read_only_company_record (k : cell) (c : pyval) :
  read_only (company_record k c).
Proof.
  unfold company_record.
  repeat first [ apply read_only_replace_category | read_only_step ].
Qed.

Lemma read_only_company_records (items : pydict) :
  read_only (company_records items).
Proof.
  induction items as [|[k c] items IH]; cbn [company_records];
    [apply read_only_ret|].
  repeat first [ exact IH | apply read_only_company_record | read_only_step ].
Qed.

Lemma read_only_postcode_fields (c : pyval) (fields : list string) :
  read_only (postcode_fields c fields).
Proof.
  induction fields as [|j fields IH]; cbn [postcode_fields];
    [apply read_only_ret|].
  repeat first [ exact IH | read_only_step ].
Qed.

Lemma read_only_postcode_records (items : pydict) :
  read_only (postcode_records items).
Proof.
  induction items as [|[k c] items IH]; cbn [postcode_records];
    [apply read_only_ret|].
  repeat first [ exact IH | apply read_only_postcode_fields | read_only_step ].
Qed.

Section ReadOnlyStages.
Variable requests_get_json : string -> result json.
Variable charity_number_to_org_id : cell -> result cell.
Variable format_num : Q -> string.
Variable str_lower : string -> string.
Variable b64decode : string -> result string.
Variable from_csv from_excel from_json : string -> result DataFrame.
Variable to_datetime dt_year astype_float : Series -> result Series.
Variable table_to_datetime : bool -> string -> Table -> result Table.
Variable table_add_age table_income_float : Table -> result Table.
Variable df_join : DataFrame -> Table -> string -> result DataFrame.
Variable swap_names : pydict -> string -> Table -> result Table.

Lemma read_only_swap_columns (self : stage_self) (columns : list string) :
  forall t, read_only (swap_columns swap_names self columns t).
Proof.
  induction columns as [|c columns IH]; intros t; cbn [swap_columns];
    [apply read_only_ret|].
  destruct (t_rows t); [apply IH|].
  repeat first [ apply IH | read_only_step ].
Qed.

(** The stages other than the three lookup stages. *)
Definition is_lookup_stage (c : stage_class) : bool :=
  match c with
  | LookupCharityDetails | LookupCompanyDetails | FetchPostcodes => true
  | _ => false
  end.

(** X15: Only the three lookup stages write the cache, report progress or make
    a request: each of the other nine stages leaves the dictionaries of the
    cache, the job and the request log as they were, whether it returns or
    raises. *)
Theorem only_lookup_stages_change_the_world (c : stage_class)
    (self : stage_self) (w : world) :
  is_lookup_stage c = false ->
  snd (stage_run requests_get_json charity_number_to_org_id format_num
         str_lower b64decode from_csv from_excel from_json to_datetime
         dt_year astype_float table_to_datetime table_add_age
         table_income_float df_join swap_names c self w)
  = w.
Proof.
  intros Hc. revert w. change (read_only
    (stage_run requests_get_json charity_number_to_org_id format_num
       str_lower b64decode from_csv from_excel from_json to_datetime
       dt_year astype_float table_to_datetime table_add_age
       table_income_float df_join swap_names c self)).
  destruct c; try discriminate Hc; cbn [stage_run].
  - unfold LoadDataset_run. repeat read_only_step.
  - unfold CheckColumnNames_run. repeat read_only_step.
  - unfold CheckColumnsExist_run. repeat read_only_step.
  - unfold CheckColumnTypes_run. repeat read_only_step.
  - unfold AddExtraColumns_run. repeat read_only_step.
  - unfold CleanRecipientIdentifiers_run. repeat read_only_step.
  - unfold MergeCompanyAndCharityDetails_run, _create_orgid_df,
      _create_company_df.
    repeat first [ apply read_only_charity_records
                 | apply read_only_company_records | read_only_step ].
  - unfold MergeGeoData_run, _create_postcode_df.
    repeat first [ apply read_only_postcode_records
                 | apply read_only_swap_columns | read_only_step ].
  - unfold AddExtraFieldsExternal_run. repeat read_only_step.
Qed.

End ReadOnlyStages.

Lemma only_lookup_stages_change_the_world_witness :
  snd (stage_run (fun _ => Ok JNull) (fun c => Ok c) (fun _ => "")
         (fun s => s) (fun s => Ok s)
         (fun _ => Raise TypeError) (fun _ => Raise TypeError)
         (fun _ => Raise TypeError)
         (fun s => Ok s) (fun s => Ok s) (fun s => Ok s)
         (fun _ _ t => Ok t) (fun t => Ok t) (fun t => Ok t)
         (fun df _ _ => Ok df) (fun _ _ t => Ok t)
         MergeGeoData geo_example_self geo_example_world)
  = geo_example_world.
Proof.
  apply only_lookup_stages_change_the_world. reflexivity.
Defined.

(** ** The cache a stage returns *)

(** When [m] returns, the cache of its result is [l]. *)
Definition returns_cache (m : M stage_result) (l : loc) : Prop :=
  forall w r w', m w = (Ok r, w') -> snd r = l.

Lemma returns_cache_ret (df : option DataFrame) (l : loc) :
  returns_cache (ret (df, l)) l.
Proof. intros w r w' [= <- _]. reflexivity. Qed.

Lemma returns_cache_raise (e : pyexc) (l : loc) :
  returns_cache (raise e) l.
Proof. intros w r w' H. discriminate H. Qed.

Lemma returns_cache_bind {A} (m : M A) (k : A -> M stage_result) (l : loc) :
  (forall a, returns_cache (k a) l) -> returns_cache (bind m k) l.
Proof.
  intros Hk w r w'. unfold bind.
  destruct (m w) as [[a|e] w1]; [apply Hk | discriminate].
Qed.

Ltac returns_cache_step :=
  match goal with
  | |- returns_cache (bind _ _) _ => apply returns_cache_bind; intros ?
  | |- returns_cache (ret _) _ => apply returns_cache_ret
  | |- returns_cache (raise _) _ => apply returns_cache_raise
  | |- returns_cache (match ?x with _ => _ end) _ => destruct x
  | |- returns_cache (let _ := _ in _) _ => cbv zeta
  end.

Section ReturnedCache.
Variable requests_get_json : string -> result json.
Variable charity_number_to_org_id : cell -> result cell.
Variable format_num : Q -> string.
Variable str_lower : string -> string.
Variable b64decode : string -> result string.
Variable from_csv from_excel from_json : string -> result DataFrame.
Variable to_datetime dt_year astype_float : Series -> result Series.
Variable table_to_datetime : bool -> string -> Table -> result Table.
Variable table_add_age table_income_float : Table -> result Table.
Variable df_join : DataFrame -> Table -> string -> result DataFrame.
Variable swap_names : pydict -> string -> Table -> result Table.

(** X16: Whatever a stage does to the dictionaries of the cache, the cache it
    returns is the one it was given: through the twelve stages the
    pipeline holds one and the same cache object. *)
Theorem every_stage_returns_its_cache (c : stage_class) (self : stage_self)
    (w w' : world) (r : stage_result) :
  stage_run requests_get_json charity_number_to_org_id format_num
    str_lower b64decode from_csv from_excel from_json to_datetime
    dt_year astype_float table_to_datetime table_add_age
    table_income_float df_join swap_names c self w = (Ok r, w') ->
  snd r = self_cache self.
Proof.
  revert w r w'. change (returns_cache
    (stage_run requests_get_json charity_number_to_org_id format_num
       str_lower b64decode from_csv from_excel from_json to_datetime
       dt_year astype_float table_to_datetime table_add_age
       table_income_float df_join swap_names c self) (self_cache self)).
  destruct c; cbn [stage_run].
  - unfold LoadDataset_run. repeat returns_cache_step.
  - unfold CheckColumnNames_run. repeat returns_cache_step.
  - unfold CheckColumnsExist_run. repeat returns_cache_step.
  - unfold CheckColumnTypes_run. repeat returns_cache_step.
  - unfold AddExtraColumns_run. repeat returns_cache_step.
  - unfold CleanRecipientIdentifiers_run. repeat returns_cache_step.
  - unfold LookupCharityDetails_run. repeat returns_cache_step.
  - unfold LookupCompanyDetails_run. repeat returns_cache_step.
  - unfold MergeCompanyAndCharityDetails_run. repeat returns_cache_step.
  - unfold FetchPostcodes_run. repeat returns_cache_step.
  - unfold MergeGeoData_run. repeat returns_cache_step.
  - unfold AddExtraFieldsExternal_run. repeat returns_cache_step.
Qed.

End ReturnedCache.

Lemma every_stage_returns_its_cache_witness :
  exists r w',
    stage_run malformed_for_2 (fun c => Ok c) (fun _ => "")
      (fun s => s) (fun s => Ok s)
      (fun _ => Raise TypeError) (fun _ => Raise TypeError)
      (fun _ => Raise TypeError)
      (fun s => Ok s) (fun s => Ok s) (fun s => Ok s)
      (fun _ _ t => Ok t) (fun t => Ok t) (fun t => Ok t)
      (fun df _ _ => Ok df) (fun _ _ t => Ok t)
      LookupCharityDetails two_charities_self empty_cache_world = (Ok r, w')
    /\ snd r = 1%positive.
Proof.
  eexists. eexists. split; [vm_compute; reflexivity|].
  eapply (every_stage_returns_its_cache malformed_for_2 (fun c => Ok c)
            (fun _ => "") (fun s => s) (fun s => Ok s)
            (fun _ => Raise TypeError) (fun _ => Raise TypeError)
            (fun _ => Raise TypeError)
            (fun s => Ok s) (fun s => Ok s) (fun s => Ok s)
            (fun _ _ t => Ok t) (fun t => Ok t) (fun t => Ok t)
            (fun df _ _ => Ok df) (fun _ _ t => Ok t)
            LookupCharityDetails two_charities_self empty_cache_world).
  vm_compute. reflexivity.
Defined.

(** ** [DataPreparation.__init__]: the cache of the pipeline *)

(** X17: [cache if cache else {}]: a cache that has entries is the cache of the
    pipeline, and nothing is created; for no cache, or a cache without an
    entry, the pipeline gets a new empty dictionary, which is not the one
    that was passed.  The dataset, the attributes and the twelve stages are
    stored as given. *)
Theorem DataPreparation_init_cache (df : option DataFrame)
    (cache : option loc) (attrs : attributes) (w : world) :
  exists dp w',
    DataPreparation_init df cache attrs w = (Ok dp, w')
    /\ dp_df dp = df /\ dp_attributes dp = attrs /\ dp_stages dp = stages
    /\ w_job w' = w_job w /\ w_requests w' = w_requests w
    /\ match cache with
       | Some l =>
           match w_heap w !! l with
           | Some (_ :: _) => dp_cache dp = l /\ w' = w
           | Some [] =>
               dp_cache dp <> l
               /\ w_heap w !! dp_cache dp = None
               /\ w_heap w' = <[dp_cache dp := []]> (w_heap w)
           | None => w_heap w' = <[dp_cache dp := []]> (w_heap w)
           end
       | None =>
           w_heap w !! dp_cache dp = None
           /\ w_heap w' = <[dp_cache dp := []]> (w_heap w)
       end.
Proof.
  assert (Hfresh : w_heap w !! fresh (dom (w_heap w)) = None)
    by (apply not_elem_of_dom, is_fresh).
  unfold DataPreparation_init. run_monad. destruct cache as [l|].
  - cbn [truthy]. destruct (w_heap w !! l) as [[|e d]|] eqn:Hl.
    + eexists. eexists. split; [reflexivity|]. cbn.
      repeat split; try reflexivity; try exact Hfresh. congruence.
    + eexists. eexists. split; [reflexivity|]. cbn.
      repeat split; reflexivity.
    + eexists. eexists. split; [reflexivity|]. cbn.
      repeat split; reflexivity.
  - eexists. eexists. split; [reflexivity|]. cbn.
    repeat split; try reflexivity; exact Hfresh.
Qed.

(** ** Reading through a computation that only reads *)
Lemma bind_read_only {A B} (m : M A) (k : A -> M B) (w : world) :
  read_only m ->
  bind m k w = match fst (m w) with
               | Ok a => k a w
               | Raise e => (Raise e, w)
               end.
Proof.
  intros Hm. unfold bind. specialize (Hm w).
  destruct (m w) as [[a|e] w1]; cbn in *; now subst w1.
Qed.

(** ** [MergeCompanyAndCharityDetails]: a company without a topic *)
Lemma company_records_raise_at (before : pydict) (k : cell) (c : pyval)
    (rest : pydict) (e : pyexc) (w : world) (rs : list (list (string * pyval))) :
  company_records before w = (Ok rs, w) ->
  company_record k c w = (Raise e, w) ->
  company_records (before ++ (k, c) :: rest) w = (Raise e, w).
Proof.
  revert rs. induction before as [|[k0 c0] before IH]; intros rs Hb Hc.
  - cbn [app company_records]. unfold bind at 1. now rewrite Hc.
  - cbn [app company_records] in *.
    rewrite bind_read_only in * by apply read_only_company_record.
    destruct (fst (company_record k0 c0 w)) as [r|e0]; [|discriminate Hb].
    rewrite bind_read_only in * by apply read_only_company_records.
    destruct (fst (company_records before w)) as [rs'|e0] eqn:Hrs;
      [|discriminate Hb].
    assert (Hb' : company_records before w = (Ok rs', w)).
    { pose proof (read_only_company_records before w) as Hw.
      destruct (company_records before w) as [x w1]. cbn in *. congruence. }
    now rewrite (IH rs' Hb' Hc).
Qed.

Section CompanyTopic.
Variable table_to_datetime : bool -> string -> Table -> result Table.
Variable table_add_age table_income_float : Table -> result Table.
Variable df_join : DataFrame -> Table -> string -> result DataFrame.

(** X18: A cached company document whose ["primaryTopic"] is null makes
    [MergeCompanyAndCharityDetails] raise [AttributeError]: the test that
    replaces a null topic by an empty record guards the company fields,
    but the address is read from the document again, through the null. *)
Theorem null_primaryTopic_raises (self : stage_self) (w : world) (t : Table)
    (ns : loc) (before rest : pydict) (k : cell)
    (fields : list (string * json)) (rs : list (list (string * pyval))) :
  _create_orgid_df table_to_datetime self w = (Ok t, w) ->
  namespace_at w (self_cache self) "company" ns
    (before ++ (k, VJson (JObj fields)) :: rest) ->
  company_records before w = (Ok rs, w) ->
  assoc_get fields "primaryTopic" = Some JNull ->
  MergeCompanyAndCharityDetails_run table_to_datetime table_add_age
    table_income_float df_join self w
  = (Raise AttributeError, w).
Proof.
  intros Ht Hns Hb Hf.
  assert (Hrec : company_record k (VJson (JObj fields)) w
                 = (Raise AttributeError, w)).
  { unfold company_record, py_get. run_monad. now rewrite Hf. }
  unfold MergeCompanyAndCharityDetails_run.
  unfold bind at 1. rewrite Ht.
  unfold bind at 1. unfold _create_company_df.
  unfold bind at 1. rewrite (namespace_resolves _ _ _ _ _ Hns).
  destruct Hns as (top & _ & _ & Hd).
  unfold bind at 1. rewrite (load_dict_at _ _ _ Hd).
  destruct (before ++ (k, VJson (JObj fields)) :: rest)%list
    as [|i items] eqn:E;
    [now destruct before|].
  rewrite <- E. unfold bind at 1.
  now rewrite (company_records_raise_at _ _ _ _ _ _ _ Hb Hrec).
Qed.

End CompanyTopic.

Definition topicless_company_heap : heap :=
  <[3%positive :=
      [(CStr "GB-COH-1",
        VJson (JObj [("primaryTopic", JObj [("CompanyNumber", JStr "1")])]));
       (CStr "GB-COH-2", VJson (JObj [("primaryTopic", JNull)]))]]>
    known_charity_heap.

Definition topicless_company_world : world :=
  {| w_heap := topicless_company_heap; w_job := None; w_requests := [] |}.

Lemma topicless_company_namespace :
  namespace_at topicless_company_world 1%positive "company" 3%positive
    ([(CStr "GB-COH-1",
       VJson (JObj [("primaryTopic", JObj [("CompanyNumber", JStr "1")])]))]
     ++ (CStr "GB-COH-2", VJson (JObj [("primaryTopic", JNull)])) :: []).
Proof.
  eexists. split; [vm_compute; reflexivity|].
  split; vm_compute; reflexivity.
Defined.

Lemma null_primaryTopic_raises_witness :
  MergeCompanyAndCharityDetails_run
    (fun _ _ t => Ok t) (fun t => Ok t) (fun t => Ok t) (fun df _ _ => Ok df)
    known_charity_self topicless_company_world
  = (Raise AttributeError, topicless_company_world).
Proof.
  eapply (null_primaryTopic_raises
            (fun _ _ t => Ok t) (fun t => Ok t) (fun t => Ok t)
            (fun df _ _ => Ok df) known_charity_self
            topicless_company_world).
  - vm_compute. reflexivity.
  - exact topicless_company_namespace.
  - vm_compute. reflexivity.
  - reflexivity.
Defined.

(** ** From the lookup to the merge: a charity served from the cache *)
Lemma dict_get_split (d : pydict) (k : cell) (v : pyval) :
  dict_get d k = Some v ->
  exists before rest, d = (before ++ (k, v) :: rest)%list.
Proof.
  induction d as [|[k0 v0] d IH]; [discriminate|]. cbn.
  destruct (cell_eqb k0 k) eqn:E.
  - apply cell_eqb_eq in E. subst k0. intros [= ->]. now exists [], d.
  - intros H. destruct (IH H) as (before & rest & ->).
    now exists ((k0, v0) :: before), rest.
Qed.

(** An entry that is a reference to a dictionary without a true ["id"]
    gives no record, wherever it stands among the entries. *)
Lemma charity_records_skip (l : loc) (d0 : pydict) (k : cell) (w : world)
    (before rest : pydict) :
  w_heap w !! l = Some d0 ->
  dict_get d0 (CStr "id") = None ->
  charity_records (before ++ (k, VRef l) :: rest) w
  = charity_records (before ++ rest) w.
Proof.
  intros Hl Hid. induction before as [|[k0 c0] before IH].
  - cbn [app charity_records].
    unfold bind at 1. unfold py_get. unfold bind at 1.
    rewrite (load_dict_at _ _ _ Hl). unfold ret at 1. rewrite Hid.
    unfold ret at 1. unfold bind at 1. reflexivity.
  - cbn [app charity_records].
    rewrite !(bind_read_only (py_get c0 "id" None_))
      by apply read_only_py_get.
    destruct (fst (py_get c0 "id" None_ w)) as [id|e]; [|reflexivity].
    rewrite !(bind_read_only (truthyM id)) by apply read_only_truthyM.
    destruct (fst (truthyM id w)) as [[|]|e]; [|exact IH|reflexivity].
    rewrite !(bind_read_only (charity_record k0 c0))
      by apply read_only_charity_record.
    destruct (fst (charity_record k0 c0 w)) as [r|e]; [|reflexivity].
    unfold bind. now rewrite IH.
Qed.

(** X19: A charity that [LookupCharityDetails] finds in the cache gets no row
    in the table of [MergeCompanyAndCharityDetails]: after the loop its
    entry is the namespace dictionary, in which ["id"] is no key, so the
    records built from the namespace are those of the other entries. *)
Theorem cached_charity_gets_no_row
    (requests_get_json : string -> result json) (format_num : Q -> string)
    (self : stage_self) (total k : nat) (keys : list cell) (w : world)
    (ns : loc) (d : pydict) (key : cell) :
  job_ready w -> self_cache self <> ns -> NoDup keys ->
  namespace_at w (self_cache self) "charity" ns d ->
  (forall x e, In x keys -> is_miss (w_heap w) d x = true ->
     requests_get_json (charity_url format_num x) = Raise e ->
     is_ValueError e = true) ->
  In key keys -> is_hit (w_heap w) d key = true ->
  dict_get d (CStr "id") = None -> ~ In (CStr "id") keys ->
  exists w' d' before rest,
    charity_loop requests_get_json format_num self total k keys w
    = (Ok tt, w')
    /\ namespace_at w' (self_cache self) "charity" ns d'
    /\ d' = (before ++ (key, VRef ns) :: rest)%list
    /\ charity_records d' w' = charity_records (before ++ rest) w'.
Proof.
  intros Hjob Hne Hnd Hns Hc Hkey Hhit Hid Hnid.
  destruct (charity_loop_spec requests_get_json format_num self total k
              keys w ns d Hjob Hne Hnd Hns Hc)
    as (w' & d' & Hloop & Hns' & _ & Hout & Hin & _ & _).
  assert (Hk : dict_get d' key = Some (VRef ns))
    by (rewrite (Hin key Hkey); unfold stored; now rewrite Hhit).
  destruct (dict_get_split _ _ _ Hk) as (before & rest & Hd').
  exists w', d', before, rest.
  split; [exact Hloop|]. split; [exact Hns'|]. split; [exact Hd'|].
  rewrite Hd'. destruct Hns' as (top & _ & _ & Hl).
  apply (charity_records_skip ns d'); [exact Hl|].
  now rewrite (Hout _ Hnid).
Qed.

Lemma cached_charity_gets_no_row_witness :
  exists w' d' before rest,
    charity_loop malformed_for_2 (fun _ => "") known_charity_self 3 0
      three_charities polled_world = (Ok tt, w')
    /\ namespace_at w' 1%positive "charity" 2%positive d'
    /\ d' = (before ++ (CStr "GB-CHC-1", VRef 2%positive) :: rest)%list
    /\ charity_records d' w' = charity_records (before ++ rest) w'.
Proof.
  apply (cached_charity_gets_no_row malformed_for_2 (fun _ => "")
           known_charity_self 3 0 three_charities polled_world 2%positive
           known_charity (CStr "GB-CHC-1")
           polled_job_ready ltac:(discriminate) three_charities_distinct
           polled_namespace three_charities_malformed).
  - cbn. tauto.
  - reflexivity.
  - reflexivity.
  - cbn. intros [H|[H|[H|[]]]]; discriminate H.
Defined.

(** The two stages in a row on that cache: the charity that was cached
    is missing from the records, the one that was fetched is there. *)
Example cached_charity_missing_from_records :
  let w' := snd (charity_loop malformed_for_2 (fun _ => "")
                   known_charity_self 3 0 three_charities polled_world) in
  w_heap w' !! 2%positive
  = Some [(CStr "GB-CHC-1", VRef 2%positive);
          (CStr "GB-CHC-3", VJson (JObj [("id", JStr "GB-CHC-3")]))]
  /\ (items <- load_dict 2%positive ;;
      rs <- charity_records items ;;
      ret (map (fun r => assoc_get r "orgid") rs)) w'
     = (Ok [Some (str_ "GB-CHC-3")], w').
Proof. vm_compute. auto. Qed.

(** ** A lookup stage and a job without a progress entry *)

(** X20: A lookup loop with an item to process reports progress first: when the
    job's meta has no ["progress"] entry, which [DataPreparation] would
    have set up, the loop raises [KeyError] before any lookup. *)
Theorem lookup_needs_progress_entry
    (requests_get_json : string -> result json) (format_num : Q -> string)
    (self : stage_self) (total k : nat) (key : cell) (rest : list cell)
    (w : world) (j : job_handle) :
  w_job w = Some j -> meta_progress (meta j) = None ->
  charity_loop requests_get_json format_num self total k (key :: rest) w
  = (Raise (KeyError "progress"), w)
  /\ company_loop requests_get_json self total k (key :: rest) w
     = (Raise (KeyError "progress"), w)
  /\ postcode_loop requests_get_json format_num self total k (key :: rest) w
     = (Raise (KeyError "progress"), w).
Proof.
  intros Hj Hp.
  assert (H : stage_progress_job (k + 1) total w
              = (Raise (KeyError "progress"), w))
    by (unfold stage_progress_job; run_monad; now rewrite Hj, Hp).
  cbn [charity_loop company_loop postcode_loop].
  repeat split; unfold bind at 1; now rewrite H.
Qed.

Definition unprepared_job : job_handle :=
  {| meta := {| meta_stages := None; meta_progress := None |};
     saved := [] |}.

Definition unprepared_world : world :=
  {| w_heap := known_charity_heap; w_job := Some unprepared_job;
     w_requests := [] |}.

Lemma lookup_needs_progress_entry_witness :
  charity_loop (fun _ => Ok JNull) (fun _ => "") known_charity_self 1 0
    [CStr "GB-CHC-1"] unprepared_world
  = (Raise (KeyError "progress"), unprepared_world).
Proof.
  exact (proj1 (lookup_needs_progress_entry (fun _ => Ok JNull) (fun _ => "")
                  known_charity_self 1 0 (CStr "GB-CHC-1") []
                  unprepared_world unprepared_job eq_refl eq_refl)).
Defined.

(** ** [AddExtraColumns]: identifiers that are not strings *)
Definition is_str (c : cell) : bool :=
  match c with CStr _ => true | _ => false end.

Lemma apply_scheme_cell (ids : Series) :
  apply scheme_cell ids
  = if forallb is_str ids then Ok (map rescheme ids)
    else Raise AttributeError.
Proof.
  induction ids as [|c ids IH]; [reflexivity|].
  cbn [apply forallb map]. destruct c as [|s|q]; cbn; try reflexivity.
  rewrite IH. now destruct (forallb is_str ids).
Qed.

(** X21: [AddExtraColumns] adds the year of the award and the scheme of each
    recipient identifier; one identifier that is not a string, a missing
    one for instance, and the stage raises [AttributeError] instead. *)
Theorem AddExtraColumns_needs_string_identifiers
    (dt_year : Series -> result Series) (df : DataFrame) (cache : loc)
    (attrs : attributes) (w : world) (dates years ids : Series) :
  df_get df "Award Date" = Ok dates ->
  dt_year dates = Ok years ->
  df_get df IDENT = Ok ids ->
  AddExtraColumns_run dt_year
    {| self_df := Some df; self_cache := cache; self_attributes := attrs |} w
  = if forallb is_str ids
    then (Ok (Some (df_set (df_set df "Award Date:Year" years) SCHEME
                      (map (fun c => match c with
                                     | CStr s => CStr (scheme_of s)
                                     | _ => CNull
                                     end) ids)),
              cache), w)
    else (Raise AttributeError, w).
Proof.
  intros Hd Hy Hi. unfold AddExtraColumns_run, the_df. run_monad.
  cbn [self_df self_cache]. rewrite Hd, Hy.
  rewrite df_get_set_ne by discriminate. rewrite Hi, apply_scheme_cell.
  now destruct (forallb is_str ids).
Qed.

Definition one_missing_identifier : DataFrame :=
  {| nrows := 2;
     cols := [("Award Date", [CStr "2019-01-01"; CStr "2019-06-01"]);
              (IDENT, [CStr "GB-CHC-1"; CNull])] |}.

Lemma AddExtraColumns_needs_string_identifiers_witness :
  AddExtraColumns_run (fun s => Ok (map (fun _ => CNum 2019) s))
    {| self_df := Some one_missing_identifier; self_cache := 1%positive;
       self_attributes := no_attributes |} no_job_world
  = (Raise AttributeError, no_job_world).
Proof.
  exact (AddExtraColumns_needs_string_identifiers
           (fun s => Ok (map (fun _ => CNum 2019) s))
           one_missing_identifier 1%positive no_attributes no_job_world
           _ _ _ eq_refl eq_refl eq_refl).
Defined.

(** ** [LoadDataset]: the data URL *)

(** The number of occurrences of a character. *)
Fixpoint count_char (a : ascii) (s : string) : nat :=
  match s with
  | EmptyString => 0
  | String c s' => (if Ascii.eqb c a then 1 else 0) + count_char a s'
  end.

Lemma split_length (sep : ascii) (s : string) :
  length (PyStr.split sep s) = S (count_char sep s).
Proof.
  induction s as [|c s IH]; [reflexivity|].
  cbn [PyStr.split count_char]. destruct (Ascii.eqb c sep).
  - cbn. now rewrite IH.
  - destruct (PyStr.split sep s) as [|h t]; [discriminate IH|].
    cbn in *. exact IH.
Qed.

(** Splitting and joining again gives the text back. *)
Lemma join_split (sep : ascii) (s : string) :
  PyStr.join (String sep "") (PyStr.split sep s) = s.
Proof.
  induction s as [|c s IH]; [reflexivity|].
  cbn [PyStr.split]. destruct (Ascii.eqb c sep) eqn:E.
  - apply Ascii.eqb_eq in E. subst c.
    destruct (PyStr.split sep s) as [|h t] eqn:Hs;
      [exfalso; exact (split_not_nil sep s Hs)|].
    change (String sep (PyStr.join (String sep "") (h :: t)) = String sep s).
    now rewrite IH.
  - destruct (PyStr.split sep s) as [|h t] eqn:Hs;
      [exfalso; exact (split_not_nil sep s Hs)|].
    rewrite join_cons_char. now rewrite IH.
Qed.

Section DataUrl.
Variable b64decode : string -> result string.
Variable from_csv from_excel from_json : string -> result DataFrame.

(** X22: Contents given as text are taken for a data URL and cut at the comma:
    text with no comma, or with more than one, makes [LoadDataset] raise
    [ValueError], whatever the file name says, and no reader is called;
    text with one comma is its two parts around that comma, the second of
    which is what [b64decode] gets. *)
Theorem LoadDataset_data_url_has_one_comma (df : option DataFrame)
    (cache : loc) (filename s : string) (w : world) :
  s <> "" -> filename <> "" ->
  let self := {| self_df := df; self_cache := cache;
                 self_attributes :=
                   {| attr_filename := Some filename;
                      attr_contents := Some (ContentsStr s) |} |} in
  (count_char "," s <> 1 ->
   exists msg,
     LoadDataset_run b64decode from_csv from_excel from_json self w
     = (Raise (ValueError msg), w))
  /\ (count_char "," s = 1 ->
      exists media payload,
        s = media ++ "," ++ payload
        /\ PyStr.split "," s = [media; payload]
        /\ forall e, b64decode payload = Raise e ->
             LoadDataset_run b64decode from_csv from_excel from_json self w
             = (Raise e, w)).
Proof.
  intros Hs Hf self.
  assert (Hse : String.eqb s "" = false) by now apply String.eqb_neq.
  assert (Hfe : String.eqb filename "" = false) by now apply String.eqb_neq.
  pose proof (split_length "," s) as Hlen.
  pose proof (join_split "," s) as Hjoin.
  unfold LoadDataset_run. cbn [self self_attributes attr_contents
                                 attr_filename self_df self_cache].
  rewrite Hse, Hfe. cbn [orb]. split.
  - intros Hc. exists "unpack". unfold bind at 1. unfold lift at 1.
    destruct (PyStr.split "," s) as [|a [|b [|c l]]]; try reflexivity.
    cbn in Hlen. congruence.
  - intros Hc. rewrite Hc in Hlen.
    destruct (PyStr.split "," s) as [|a [|b [|c l]]]; try discriminate Hlen.
    exists a, b. split; [now rewrite <- Hjoin|]. split; [reflexivity|].
    intros e He. unfold bind at 1. unfold lift at 1. now rewrite He.
Qed.

End DataUrl.

Lemma LoadDataset_data_url_has_one_comma_witness :
  exists msg,
    LoadDataset_run (fun s => Ok s) (fun _ => Raise TypeError)
      (fun _ => Raise TypeError) (fun _ => Raise TypeError)
      {| self_df := None; self_cache := 1%positive;
         self_attributes :=
           {| attr_filename := Some "grants.csv";
              attr_contents := Some (ContentsStr "a,b,c") |} |}
      no_job_world
    = (Raise (ValueError msg), no_job_world).
Proof.
  apply (proj1 (LoadDataset_data_url_has_one_comma
                  (fun s => Ok s) (fun _ => Raise TypeError)
                  (fun _ => Raise TypeError) (fun _ => Raise TypeError)
                  None 1%positive "grants.csv" "a,b,c" no_job_world
                  ltac:(discriminate) ltac:(discriminate))).
  vm_compute. discriminate.
Defined.

(** ** [prepare_lookup_cache]: the geocodes of the cache *)
Section LookupCacheFacts.
Variable stored_cache : option string.
Variable json_loads : string -> result json.
Variable fetch_geocodes : M json.

Let prepare := prepare_lookup_cache stored_cache json_loads fetch_geocodes.

Lemma prepare_lookup_cache_from (cache : json) (w : world) :
  match stored_cache with
  | None => cache = new_lookup_cache
  | Some b => json_loads b = Ok cache
  end ->
  prepare w
  = match lacks_geocodes cache with
    | Raise e => (Raise e, w)
    | Ok lacks =>
        match (if lacks then Ok true else geocodes_empty cache) with
        | Raise e => (Raise e, w)
        | Ok false => (Ok cache, w)
        | Ok true =>
            match fetch_geocodes w with
            | (Ok g, w') =>
                (match set_geocodes cache g with
                 | Ok c => Ok c
                 | Raise e => Raise e
                 end, w')
            | (Raise e, w') => (Raise e, w')
            end
        end
    end.
Proof.
  intros Hc. unfold prepare, prepare_lookup_cache.
  assert (Hload : (match stored_cache with
                   | None => ret new_lookup_cache
                   | Some b => lift (json_loads b)
                   end) w = (Ok cache, w)).
  { destruct stored_cache as [b|]; [unfold lift; now rewrite Hc|].
    now rewrite Hc. }
  unfold bind at 1. rewrite Hload.
  unfold bind at 1. unfold lift at 1.
  destruct (lacks_geocodes cache) as [[|]|e]; [| |reflexivity].
  - unfold bind at 1. unfold ret at 1. unfold bind.
    destruct (fetch_geocodes w) as [[g|e] w']; [|reflexivity].
    unfold lift. now destruct (set_geocodes cache g).
  - unfold bind at 1. unfold lift at 1.
    destruct (geocodes_empty cache) as [[|]|e]; [|reflexivity|reflexivity].
    unfold bind.
    destruct (fetch_geocodes w) as [[g|e] w']; [|reflexivity].
    unfold lift. now destruct (set_geocodes cache g).
Qed.

(** X23: The cache that [prepare_lookup_cache] returns always has geocodes.  On
    a first run it is the four namespaces, three of them empty, with what
    [fetch_geocodes] returned; a stored cache whose geocodes have an entry
    is returned as it is and nothing is fetched; and whenever the function
    returns, the result is an object with a ["geocodes"] entry, either the
    stored one, not empty, the world untouched, or the one fetched. *)
Theorem prepare_lookup_cache_has_geocodes (w : world) :
  (stored_cache = None ->
   prepare w
   = match fetch_geocodes w with
     | (Ok g, w') =>
         (Ok (JObj [("charity", JObj []); ("company", JObj []);
                    ("postcode", JObj []); ("geocodes", g)]), w')
     | (Raise e, w') => (Raise e, w')
     end)
  /\ (forall b fields e f,
        stored_cache = Some b -> json_loads b = Ok (JObj fields) ->
        assoc_get fields "geocodes" = Some (JObj (e :: f)) ->
        prepare w = (Ok (JObj fields), w))
  /\ (forall c w',
        prepare w = (Ok c, w') ->
        exists fields g,
          c = JObj fields
          /\ assoc_get fields "geocodes" = Some g
          /\ ((w' = w /\ geocodes_empty c = Ok false)
              \/ fetch_geocodes w = (Ok g, w'))).
Proof.
  split; [|split].
  - intros Hs. rewrite (prepare_lookup_cache_from new_lookup_cache)
      by now rewrite Hs.
    cbn. now destruct (fetch_geocodes w) as [[g|e] w'].
  - intros b fields e f Hs Hl Hg.
    rewrite (prepare_lookup_cache_from (JObj fields)) by now rewrite Hs.
    cbn. now rewrite Hg.
  - intros c w' Hrun.
    assert (Hc : exists cache,
               match stored_cache with
               | None => cache = new_lookup_cache
               | Some b => json_loads b = Ok cache
               end).
    { unfold prepare, prepare_lookup_cache in Hrun.
      destruct stored_cache as [b|]; [|eauto].
      unfold bind at 1 in Hrun. unfold lift at 1 in Hrun.
      destruct (json_loads b) as [cache|e]; [eauto | discriminate Hrun]. }
    destruct Hc as [cache Hc].
    rewrite (prepare_lookup_cache_from cache w Hc) in Hrun.
    destruct cache as [| | | |items|fields]; try discriminate Hrun.
    + (* a string *)
      cbn in Hrun. destruct (negb _); [|discriminate Hrun].
      now destruct (fetch_geocodes w) as [[g|e] w1].
    + (* a list *)
      cbn in Hrun. destruct (negb _); [|discriminate Hrun].
      now destruct (fetch_geocodes w) as [[g|e] w1].
    + (* an object *)
      cbn [lacks_geocodes] in Hrun.
      destruct (assoc_get fields "geocodes") as [g0|] eqn:Hg.
      * destruct (geocodes_empty (JObj fields)) as [[|]|e] eqn:He;
          [| |discriminate Hrun].
        -- destruct (fetch_geocodes w) as [[g|e] w1]; [|discriminate Hrun].
           cbn in Hrun. injection Hrun as <- <-.
           exists (assoc_set fields "geocodes" g), g.
           split; [reflexivity|].
           split; [apply assoc_get_set_eq | now right].
        -- injection Hrun as <- <-. exists fields, g0.
           split; [reflexivity|]. split; [exact Hg | now left].
      * destruct (fetch_geocodes w) as [[g|e] w1]; [|discriminate Hrun].
        cbn in Hrun. injection Hrun as <- <-.
        exists (assoc_set fields "geocodes" g), g.
        split; [reflexivity|].
        split; [apply assoc_get_set_eq | now right].
Qed.

End LookupCacheFacts.

(** A stored cache without geocodes: they are fetched and added, the
    namespaces stay. *)
Example prepare_lookup_cache_adds_geocodes :
  prepare_lookup_cache (Some "stored")
    (fun _ => Ok (JObj [("charity", JObj [("GB-CHC-1", JObj [])])]))
    (log_request "https://postcodes.findthatcharity.uk/areas/names.csv" ;;;
     ret (JObj [("ctry-E92000001", JStr "England")]))
    no_job_world
  = (Ok (JObj [("charity", JObj [("GB-CHC-1", JObj [])]);
               ("geocodes", JObj [("ctry-E92000001", JStr "England")])]),
     {| w_heap := ∅; w_job := None;
        w_requests :=
          ["https://postcodes.findthatcharity.uk/areas/names.csv"] |}).
Proof. reflexivity. Qed.

(** ** [MergeGeoData]: the rows of the geo table *)
Lemma bind_read_only_Ok {A B} (m : M A) (k : A -> M B) (w w' : world)
    (b : B) :
  read_only m -> bind m k w = (Ok b, w') ->
  exists a, m w = (Ok a, w) /\ k a w = (Ok b, w').
Proof.
  intros Hm. unfold bind. specialize (Hm w).
  destruct (m w) as [[a|e] w1]; cbn in Hm; subst w1; [eauto | discriminate].
Qed.

Lemma postcode_fields_keys (c : pyval) (w : world) (fields : list string) :
  forall vs, postcode_fields c fields w = (Ok vs, w) -> map fst vs = fields.
Proof.
  induction fields as [|j fields IH]; intros vs; cbn [postcode_fields].
  - now intros [= <-].
  - intros H.
    apply bind_read_only_Ok in H; [|apply read_only_py_get].
    destruct H as (data & _ & H).
    apply bind_read_only_Ok in H; [|apply read_only_py_get].
    destruct H as (attrs & _ & H).
    apply bind_read_only_Ok in H; [|apply read_only_py_get].
    destruct H as (v & _ & H).
    apply bind_read_only_Ok in H; [|apply read_only_postcode_fields].
    destruct H as (vs' & Hvs & H).
    injection H as <-. cbn. f_equal. now apply IH.
Qed.

(** An entry that refers to a dictionary without ["data"]: every field is
    [None]. *)
Lemma postcode_fields_of_reference (l : loc) (d0 : pydict) (w : world)
    (fields : list string) :
  w_heap w !! l = Some d0 -> dict_get d0 (CStr "data") = None ->
  postcode_fields (VRef l) fields w
  = (Ok (map (fun j => (j, None_)) fields), w).
Proof.
  intros Hl Hd.
  assert (H1 : py_get (VRef l) "data" empty_dict w = (Ok empty_dict, w)).
  { unfold py_get, bind. rewrite (load_dict_at _ _ _ Hl). unfold ret.
    now rewrite Hd. }
  induction fields as [|j fields IH]; [reflexivity|].
  cbn [postcode_fields map]. unfold bind. rewrite H1.
  unfold py_get, empty_dict. cbn [assoc_get]. unfold ret. now rewrite IH.
Qed.

Lemma postcode_records_rows (w : world) (items : pydict) :
  forall rs, postcode_records items w = (Ok rs, w) ->
  length rs = length items
  /\ forall i k c, items !! i = Some (k, c) ->
       exists vs, postcode_fields c POSTCODE_FIELDS w = (Ok vs, w)
                  /\ rs !! i = Some (("postcode", val_of_cell k) :: vs).
Proof.
  induction items as [|[k0 c0] items IH]; intros rs; cbn [postcode_records].
  - intros [= <-]. split; [reflexivity|]. intros i k c H. discriminate H.
  - intros H.
    apply bind_read_only_Ok in H; [|apply read_only_postcode_fields].
    destruct H as (vs & Hvs & H).
    apply bind_read_only_Ok in H; [|apply read_only_postcode_records].
    destruct H as (rs' & Hrs & H). injection H as <-.
    destruct (IH rs' Hrs) as [Hlen Hrows].
    split; [cbn; now rewrite Hlen|].
    intros [|i] k c Hi; cbn in Hi.
    + injection Hi as <- <-. exists vs. now split.
    + exact (Hrows i k c Hi).
Qed.

Section GeoTable.
Variable swap_names : pydict -> string -> Table -> result Table.

(** X24: Before names are swapped for codes, the table that [MergeGeoData]
    builds from a postcode namespace with entries has one row per entry, in
    the order of the namespace, indexed by the postcode, and the ten
    [POSTCODE_FIELDS] as its columns: the selection of the fields cannot
    fail.  The row of a postcode that was served from the cache, whose
    entry is the namespace itself and has no ["data"], holds [None] in
    every field. *)
Theorem geo_table_has_a_row_per_postcode (self : stage_self) (w : world)
    (ns : loc) (items : pydict) (rs : list (list (string * pyval))) :
  namespace_at w (self_cache self) "postcode" ns items ->
  items <> [] ->
  postcode_records items w = (Ok rs, w) ->
  _create_postcode_df swap_names self w
  = swap_columns swap_names self POSTCODE_FIELDS
      {| t_index := Some "postcode"; t_columns := POSTCODE_FIELDS;
         t_rows := rs |} w
  /\ length rs = length items
  /\ (forall i k c, items !! i = Some (k, c) ->
        exists vs, rs !! i = Some (("postcode", val_of_cell k) :: vs)
                   /\ map fst vs = POSTCODE_FIELDS)
  /\ (forall i k l d0, items !! i = Some (k, VRef l) ->
        w_heap w !! l = Some d0 -> dict_get d0 (CStr "data") = None ->
        rs !! i
        = Some (("postcode", val_of_cell k)
                :: map (fun j => (j, None_)) POSTCODE_FIELDS)).
Proof.
  intros Hns Hne Hrs.
  destruct (postcode_records_rows w items rs Hrs) as [Hlen Hrows].
  split; [|split; [exact Hlen|split]].
  - unfold _create_postcode_df.
    unfold bind at 1. rewrite (namespace_resolves _ _ _ _ _ Hns).
    destruct Hns as (top & _ & _ & Hd).
    unfold bind at 1. rewrite (load_dict_at _ _ _ Hd).
    unfold bind at 1. rewrite Hrs.
    destruct items as [|[k c] items]; [contradiction|].
    destruct (Hrows 0 k c eq_refl) as (vs & Hvs & Hr0).
    destruct rs as [|r rs]; [discriminate Hr0|].
    cbn in Hr0. injection Hr0 as ->.
    pose proof (postcode_fields_keys _ _ _ _ Hvs) as Hkeys.
    unfold bind at 1. unfold lift at 1.
    unfold set_index, pd_DataFrame. cbn [t_columns t_rows map fst].
    rewrite Hkeys. reflexivity.
  - intros i k c Hi. destruct (Hrows i k c Hi) as (vs & Hvs & Hr).
    exists vs. split; [exact Hr|]. exact (postcode_fields_keys _ _ _ _ Hvs).
  - intros i k l d0 Hi Hl Hd0.
    destruct (Hrows i k _ Hi) as (vs & Hvs & Hr).
    rewrite (postcode_fields_of_reference l d0 w _ Hl Hd0) in Hvs.
    injection Hvs as <-. exact Hr.
Qed.

End GeoTable.

Lemma geo_table_has_a_row_per_postcode_witness :
  exists rs,
    postcode_records geo_example_postcodes geo_example_world
    = (Ok rs, geo_example_world)
    /\ _create_postcode_df (fun _ _ t => Ok t) geo_example_self
         geo_example_world
       = swap_columns (fun _ _ t => Ok t) geo_example_self POSTCODE_FIELDS
           {| t_index := Some "postcode"; t_columns := POSTCODE_FIELDS;
              t_rows := rs |} geo_example_world
    /\ length rs = 1.
Proof.
  eexists. split; [vm_compute; reflexivity|].
  destruct (geo_table_has_a_row_per_postcode (fun _ _ t => Ok t)
              geo_example_self geo_example_world 2%positive
              geo_example_postcodes _ geo_example_namespace
              ltac:(discriminate) eq_refl)
    as (Hrun & Hlen & _).
  split; [exact Hrun | exact Hlen].
Defined.
